(** * ATLANTIS-AI: the task / assignment / work-bot lifecycle

    A shallow embedding of [server/atlantis-ai.js] (the master coordinator),
    [server/sub-ai-agents.js] (the per-agent coordinator and its manager) and of
    the tables of [scripts/init-database.js] they read and write.

    - The store is a record of tables, each a list of rows in rowid order.  The
      row types have the columns the schema declares and the statements use
      ([users] is the list of its ids).  A statement is the list operation it
      denotes; [lastInsertRowid] is one more than the largest rowid.
    - A statement fails the way the driver and the schema make it fail.
      [better-sqlite3] binds [undefined] as [NULL], like [null]; a plain
      object among anonymous parameters is a [RangeError].  A [NULL] in a
      [NOT NULL] column and a dangling [FOREIGN KEY] (the database is opened
      with [foreign_keys = ON]) are [SqliteError]s; so is preparing a statement
      that names a column its table does not have.
    - Three statements name such a column.  [updateAssignmentStatus] names
      [updated_at]: the store records which further columns a database file
      has in [task_assignments], none when this repository created it.
      [executeWorkBots] and [initializeAgents] write the literals
      [completed] and [active] in double quotes: [better-sqlite3] builds
      SQLite without double-quoted string literals, so each is read as a
      column name, and no table has a column of that name.
    - A string is the sequence of its UTF-16 code units; the model has the
      units below 256, so [substring] and [length] count what JavaScript
      counts.
    - The reasoning client is an oracle: the [n]-th call of
      [messages.create] is answered by [claude n].
    - [uuidv4] is a counter (two ids never collide, so the [UNIQUE]
      constraints on them are not modelled); [CURRENT_TIMESTAMP] and
      [new Date()] read a clock that the environment advances between
      operations.
    - [async] code is run to completion in program order; effects made before a
      [throw] stay in the store.
    - Prompts and console output are left out: no statement depends on them. *)

From Stdlib Require Import ZArith List String Bool Ascii Lia.
From Stdlib Require Import PrimFloat FloatOps SpecFloat Uint63.
From Stdlib Require Import DecimalString.
From Stdlib Require Import Sorting.Sorted Sorting.Permutation.
Import ListNotations.

Open Scope string_scope.
Open Scope list_scope.
Open Scope Z_scope.

(** ** JavaScript values *)

(** The values that reach the store from user input and from parsed model
    output.  [JObj] stands for a plain object (and for the array of
    [availableResources], which is only serialized); numbers, booleans and
    arrays in a bound position are left out of the model. *)
Inductive JsVal :=
| JUndefined
| JNull
| JStr (s : string)
| JObj.

(** [input.userId]: the route passes [users.id]. *)
Inductive JsId :=
| IdUndefined
| IdNull
| IdNum (n : Z).

(** [v || d] *)
Definition js_or (v d : JsVal) : JsVal :=
  match v with
  | JUndefined | JNull => d
  | JStr s => if (s =? "")%string then d else v
  | JObj => v
  end.

(** Template-literal conversion [`${v}`]. *)
Definition js_to_string (v : JsVal) : string :=
  match v with
  | JUndefined => "undefined"
  | JNull => "null"
  | JStr s => s
  | JObj => "[object Object]"
  end.

Definition string_of_Z (z : Z) : string := NilZero.string_of_int (Z.to_int z).
Definition string_of_nat (n : nat) : string := string_of_Z (Z.of_nat n).

Definition dquote : string := String (ascii_of_nat 34) EmptyString.

(** *** Numbers *)

Definition float_of_Z (z : Z) : float :=
  if z <? 0 then PrimFloat.opp (of_uint63 (Uint63.of_Z (- z)))
  else of_uint63 (Uint63.of_Z z).

(** [Math.round]: the nearest integer, ties towards [+Infinity]; [NaN], the
    infinities and the zeros are returned as they are. *)
Definition Math_round (x : float) : float :=
  match Prim2SF x with
  | S754_finite s m e =>
      if 0 <=? e then x
      else
        let n := if s then Z.neg m else Z.pos m in
        let z := (2 * n + 2 ^ (- e)) / 2 ^ (1 - e) in
        if ((z =? 0) && s)%bool then (-0)%float else float_of_Z z
  | _ => x
  end.

(** [Math.round((completed / total) * 100)] on two counts. *)
Definition percentage (completed total : nat) : float :=
  Math_round
    (PrimFloat.mul
       (PrimFloat.div (float_of_Z (Z.of_nat completed)) (float_of_Z (Z.of_nat total)))
       100%float).

(** ** SQL values *)

(** A numeric column ([progress], [progress_percentage]).  A nullable text
    column is an [option string], [None] for [NULL]. *)
Inductive SqlVal :=
| SNull
| SInt (n : Z)
| SReal (x : float).

Inductive Exn :=
| TypeError (message : string)
| RangeError (message : string)
| SyntaxError (message : string)
| SqliteError (message : string)
| ApiError (message : string).

Definition message_of (e : Exn) : string :=
  match e with
  | TypeError m | RangeError m | SyntaxError m | SqliteError m | ApiError m => m
  end.

(** A plain object among the parameters is taken for named parameters and
    fills none of the [?]. *)
Definition too_few_parameters : Exn :=
  RangeError "Too few parameter values were provided".

(** Binding a JavaScript value as a statement parameter ([None]: [NULL]);
    [undefined] is bound as [NULL]. *)
Definition bind_value (v : JsVal) : Exn + option string :=
  match v with
  | JUndefined | JNull => inr None
  | JStr s => inr (Some s)
  | JObj => inl too_few_parameters
  end.

Definition bind_id (v : JsId) : Exn + option Z :=
  match v with
  | IdUndefined | IdNull => inr None
  | IdNum n => inr (Some n)
  end.

(** A [NOT NULL] column. *)
Definition not_null {A} (column : string) (v : option A) : Exn + A :=
  match v with
  | Some a => inr a
  | None => inl (SqliteError ("NOT NULL constraint failed: " ++ column)%string)
  end.

(** Binding a number to an [INTEGER] column: [NaN] is stored as [NULL], an
    integral value as an integer, anything else as a real. *)
Definition bind_number (x : float) : SqlVal :=
  match Prim2SF x with
  | S754_nan => SNull
  | S754_zero _ => SInt 0
  | S754_infinity _ => SReal x
  | S754_finite s m e =>
      let n := if s then Z.neg m else Z.pos m in
      if 0 <=? e then SInt (n * 2 ^ e)
      else if (n mod 2 ^ (- e)) =? 0 then SInt (n / 2 ^ (- e))
      else SReal x
  end.

(** ** Rows ([scripts/init-database.js]) *)

Record Task := {
  t_id : Z;
  t_task_id : string;
  t_user_id : Z;
  t_title : string;
  t_description : option string;
  t_intent : string;
  t_timeline : option string;
  t_desired_outcomes : option string;
  t_available_resources : JsVal;   (* the value whose JSON text is stored *)
  t_priority : option string;
  t_status : string;
  t_created_at : nat;
  t_updated_at : nat;
  t_completed_at : option nat
}.

Record Agent := {
  sa_id : Z;
  sa_agent_id : string;
  sa_name : string;
  sa_specialization : string;
  sa_expertise_areas : list string;
  sa_status : string;
  sa_current_load : Z;
  sa_max_capacity : Z
}.

(** [workPackage.elements] and what [assigned_elements] keeps of it: the
    JSON text of an array, of any other JSON value ([ElemOther]), or [NULL]
    ([ElemUndefined]: [JSON.stringify(undefined)] is [undefined]). *)
Inductive Elements :=
| ElemUndefined
| ElemArray (es : list JsVal)
| ElemOther.

Record Assignment := {
  ta_id : Z;
  ta_assignment_id : string;
  ta_task_id : Z;
  ta_agent_id : Z;
  ta_assigned_elements : Elements;
  ta_status : string;
  ta_progress : SqlVal;
  ta_assigned_at : nat;
  ta_started_at : option nat;
  ta_completed_at : option nat
}.

(** The JSON text in [work_bots.result]. *)
Inductive BotResult :=
| result_success (output : string) (timestamp : nat) (* {success:true, output, timestamp} *)
| result_failure (error : string)                    (* {success:false, error} *)
| result_error (error : string).                     (* {error} *)

Record WorkBot := {
  wb_id : Z;
  wb_bot_id : string;
  wb_assignment_id : Z;
  wb_agent_id : Z;
  wb_bot_type : string;
  wb_task_description : option string;
  wb_status : string;
  wb_result : option BotResult;
  wb_created_at : nat;
  wb_started_at : option nat;
  wb_completed_at : option nat
}.

Record ProgressUpdate := {
  pu_id : Z;
  pu_update_id : string;
  pu_task_id : Z;
  pu_source_type : string;
  pu_source_id : string;
  pu_message : string;
  pu_progress_percentage : SqlVal;
  pu_created_at : nat
}.

(** ** Parsed model output *)

Record WorkPackage := {
  wp_id : JsVal;
  wp_name : JsVal;
  wp_assignedTo : JsVal;
  wp_elements : Elements
}.

Record TaskSpec := {
  ts_description : JsVal;
  ts_botType : JsVal;
  ts_expectedOutput : JsVal
}.

(** What the code reads of a parsed JSON object: [None] is a field that is
    absent or not an array. *)
Record Json := {
  workPackages : option (list WorkPackage);
  tasks : option (list TaskSpec)
}.

Record PlanRow := {
  pp_id : Z;
  pp_plan_id : string;
  pp_task_id : Z;
  pp_plan_data : Json
}.

(** One answer of [aiClients.claude.messages.create]: the call rejects, or
    resolves to a text, with what [JSON.parse] makes of the text ([None]: it
    throws). *)
Inductive Reply :=
| Rejects (message : string)
| Resolves (text : string) (json : option Json).

(** ** The store and the world *)

Record DB := {
  users : list Z;
  tbl_tasks : list Task;
  sub_ai_agents : list Agent;
  task_assignments : list Assignment;
  work_bots : list WorkBot;
  project_plans : list PlanRow;
  progress_updates : list ProgressUpdate;
  (* columns of task_assignments besides the ten CREATE TABLE declares:
     none in a database this repository created *)
  task_assignments_more_columns : list string
}.

Record World := {
  db : DB;
  clock : nat;
  uuids : nat;
  claude : nat -> Reply;
  calls : nat
}.

Definition set_tasks (f : list Task -> list Task) (d : DB) : DB :=
  {| users := users d; tbl_tasks := f (tbl_tasks d); sub_ai_agents := sub_ai_agents d;
     task_assignments := task_assignments d; work_bots := work_bots d;
     project_plans := project_plans d; progress_updates := progress_updates d;
     task_assignments_more_columns := task_assignments_more_columns d |}.

Definition set_agents (f : list Agent -> list Agent) (d : DB) : DB :=
  {| users := users d; tbl_tasks := tbl_tasks d; sub_ai_agents := f (sub_ai_agents d);
     task_assignments := task_assignments d; work_bots := work_bots d;
     project_plans := project_plans d; progress_updates := progress_updates d;
     task_assignments_more_columns := task_assignments_more_columns d |}.

Definition set_assignments (f : list Assignment -> list Assignment) (d : DB) : DB :=
  {| users := users d; tbl_tasks := tbl_tasks d; sub_ai_agents := sub_ai_agents d;
     task_assignments := f (task_assignments d); work_bots := work_bots d;
     project_plans := project_plans d; progress_updates := progress_updates d;
     task_assignments_more_columns := task_assignments_more_columns d |}.

Definition set_bots (f : list WorkBot -> list WorkBot) (d : DB) : DB :=
  {| users := users d; tbl_tasks := tbl_tasks d; sub_ai_agents := sub_ai_agents d;
     task_assignments := task_assignments d; work_bots := f (work_bots d);
     project_plans := project_plans d; progress_updates := progress_updates d;
     task_assignments_more_columns := task_assignments_more_columns d |}.

Definition set_plans (f : list PlanRow -> list PlanRow) (d : DB) : DB :=
  {| users := users d; tbl_tasks := tbl_tasks d; sub_ai_agents := sub_ai_agents d;
     task_assignments := task_assignments d; work_bots := work_bots d;
     project_plans := f (project_plans d); progress_updates := progress_updates d;
     task_assignments_more_columns := task_assignments_more_columns d |}.

Definition set_updates (f : list ProgressUpdate -> list ProgressUpdate) (d : DB) : DB :=
  {| users := users d; tbl_tasks := tbl_tasks d; sub_ai_agents := sub_ai_agents d;
     task_assignments := task_assignments d; work_bots := work_bots d;
     project_plans := project_plans d; progress_updates := f (progress_updates d);
     task_assignments_more_columns := task_assignments_more_columns d |}.

Definition with_db (f : DB -> DB) (w : World) : World :=
  {| db := f (db w); clock := clock w; uuids := uuids w;
     claude := claude w; calls := calls w |}.

(** ** Computations that read and write the world and may throw *)

Inductive Outcome (A : Type) :=
| Returns (a : A) (w : World)
| Throws (e : Exn) (w : World).
Arguments Returns {A} a w.
Arguments Throws {A} e w.

Definition M (A : Type) : Type := World -> Outcome A.

Definition ret {A} (a : A) : M A := fun w => Returns a w.

Definition bind {A B} (m : M A) (k : A -> M B) : M B :=
  fun w => match m w with
           | Returns a w' => k a w'
           | Throws e w' => Throws e w'
           end.

Definition throw {A} (e : Exn) : M A := fun w => Throws e w.

(** [try { m } catch (error) { h error }] *)
Definition try_catch {A} (m : M A) (h : Exn -> M A) : M A :=
  fun w => match m w with
           | Returns a w' => Returns a w'
           | Throws e w' => h e w'
           end.

Declare Scope js_scope.
Delimit Scope js_scope with js.
Notation "x <- m ;; k" := (bind m (fun x => k))
  (at level 61, m at next level, right associativity) : js_scope.
Notation "m ;; k" := (bind m (fun _ => k))
  (at level 61, right associativity) : js_scope.
Open Scope js_scope.

Definition world_of {A} (o : Outcome A) : World :=
  match o with Returns _ w | Throws _ w => w end.

Definition get_db : M DB := fun w => Returns (db w) w.
Definition run_sql (f : DB -> DB) : M unit := fun w => Returns tt (with_db f w).
Definition CURRENT_TIMESTAMP : M nat := fun w => Returns (clock w) w.

Definition lift {A} (r : Exn + A) : M A :=
  match r with inl e => throw e | inr a => ret a end.

(** [uuidv4()] *)
Definition uuidv4 : M string :=
  fun w => Returns (string_of_nat (uuids w))
             {| db := db w; clock := clock w; uuids := S (uuids w);
                claude := claude w; calls := calls w |}.

(** [await this.aiClients.claude.messages.create(...)], then
    [response.content[0].text]. *)
Definition messages_create : M (string * option Json) :=
  fun w =>
    let w' := {| db := db w; clock := clock w; uuids := uuids w;
                 claude := claude w; calls := S (calls w) |} in
    match claude w (calls w) with
    | Rejects m => Throws (ApiError m) w'
    | Resolves text json => Returns (text, json) w'
    end.

Definition JSON_parse (response : string * option Json) : M Json :=
  match snd response with
  | Some j => ret j
  | None => throw (SyntaxError "Unexpected token in JSON")
  end.

(** *** Statements *)

(** [lastInsertRowid] of an [AUTOINCREMENT] table. *)
Definition next_rowid (ids : list Z) : Z := 1 + fold_right Z.max 0 ids.

Definition mem_id (i : Z) (ids : list Z) : bool := existsb (Z.eqb i) ids.

Definition foreign_key (ok : bool) : M unit :=
  if ok then ret tt else throw (SqliteError "FOREIGN KEY constraint failed").

Definition task_assignments_columns : list string :=
  [ "id"; "assignment_id"; "task_id"; "agent_id"; "assigned_elements"; "status";
    "progress"; "assigned_at"; "started_at"; "completed_at" ].

(** [db.prepare] of a statement on [task_assignments] that names [columns]. *)
Definition prepare_task_assignments (columns : list string) : M unit :=
  fun w =>
    let known := task_assignments_columns ++ task_assignments_more_columns (db w) in
    match filter (fun c => negb (existsb (String.eqb c) known)) columns with
    | [] => Returns tt w
    | c :: _ => Throws (SqliteError ("no such column: " ++ c)%string) w
    end.

Definition no_such_column (literal : string) : Exn :=
  SqliteError ("no such column: " ++ dquote ++ literal ++ dquote)%string.

(** [db.prepare] of a statement that writes [literal] in double quotes: the
    token is an identifier, and no table has a column of that name. *)
Definition prepare_double_quoted (literal : string) : M unit :=
  throw (no_such_column literal).

(** [SELECT * FROM sub_ai_agents WHERE agent_id = ?], [.get] *)
Definition agent_by_agent_id (agent_id : string) (d : DB) : option Agent :=
  find (fun a => (sa_agent_id a =? agent_id)%string) (sub_ai_agents d).

Definition add_to_load (delta : Z) (a : Agent) : Agent :=
  {| sa_id := sa_id a; sa_agent_id := sa_agent_id a; sa_name := sa_name a;
     sa_specialization := sa_specialization a;
     sa_expertise_areas := sa_expertise_areas a; sa_status := sa_status a;
     sa_current_load := sa_current_load a + delta;
     sa_max_capacity := sa_max_capacity a |}.

(** [UPDATE sub_ai_agents SET current_load = current_load + delta WHERE id = ?] *)
Definition add_load (id delta : Z) (d : DB) : DB :=
  set_agents (map (fun a => if sa_id a =? id then add_to_load delta a else a)) d.

(** [INSERT INTO progress_updates (...)]; [task_id] references [tasks(id)]. *)
Definition insert_progress_update
    (update_id : string) (task_id : Z) (source_type source_id message : string)
    (progress : SqlVal) : M unit :=
  d <- get_db ;;
  foreign_key (mem_id task_id (map t_id (tbl_tasks d))) ;;
  now <- CURRENT_TIMESTAMP ;;
  run_sql (set_updates (fun us =>
    us ++ [ {| pu_id := next_rowid (map pu_id us); pu_update_id := update_id;
               pu_task_id := task_id; pu_source_type := source_type;
               pu_source_id := source_id; pu_message := message;
               pu_progress_percentage := progress; pu_created_at := now |} ])).

(** ** [scripts/init-database.js] *)

Definition initializeDatabase : DB :=
  {| users := []; tbl_tasks := []; sub_ai_agents := []; task_assignments := [];
     work_bots := []; project_plans := []; progress_updates := [];
     task_assignments_more_columns := [] |}.

Definition subAIs : list (string * string * string * list string) :=
  [ ("sub-ai-code", "Code Architect", "Code Development",
      ["JavaScript"; "Python"; "Java"; "TypeScript"; "Go"; "Rust"; "C#"]);
    ("sub-ai-architecture", "System Architect", "Software Architecture",
      ["Microservices"; "Monoliths"; "Event-Driven"; "Serverless"; "Design Patterns"]);
    ("sub-ai-testing", "Quality Assurance", "Testing & QA",
      ["Unit Testing"; "Integration Testing"; "E2E Testing"; "Performance Testing"]);
    ("sub-ai-security", "Security Guardian", "Security & Compliance",
      ["Vulnerability Assessment"; "Penetration Testing"; "Security Audits"; "Compliance"]);
    ("sub-ai-docs", "Documentation Expert", "Documentation",
      ["API Docs"; "User Guides"; "Technical Writing"; "Architecture Diagrams"]);
    ("sub-ai-devops", "DevOps Engineer", "DevOps & CI/CD",
      ["Docker"; "Kubernetes"; "GitHub Actions"; "Jenkins"; "Terraform"]);
    ("sub-ai-datascience", "Data Scientist", "Data Science & ML",
      ["Machine Learning"; "Data Analysis"; "Neural Networks"; "NLP"; "Computer Vision"]);
    ("sub-ai-uiux", "UI/UX Designer", "User Interface & Experience",
      ["React"; "Vue"; "Angular"; "Design Systems"; "Accessibility"]);
    ("sub-ai-backend", "Backend Specialist", "Backend Development",
      ["REST APIs"; "GraphQL"; "Databases"; "Caching"; "Message Queues"]);
    ("sub-ai-frontend", "Frontend Specialist", "Frontend Development",
      ["HTML/CSS"; "JavaScript"; "Responsive Design"; "PWAs"; "Performance"]);
    ("sub-ai-database", "Database Expert", "Database Design & Optimization",
      ["SQL"; "NoSQL"; "Query Optimization"; "Data Modeling"; "Migrations"]);
    ("sub-ai-api", "API Designer", "API Design & Integration",
      ["REST"; "GraphQL"; "gRPC"; "WebSockets"; "API Security"]) ].

(** [INSERT OR IGNORE INTO sub_ai_agents (agent_id, name, specialization,
    expertise_areas)]: the other columns take their defaults. *)
Definition insert_agent_or_ignore
    (agent : string * string * string * list string) (d : DB) : DB :=
  let '(agent_id, name, specialization, expertise_areas) := agent in
  match agent_by_agent_id agent_id d with
  | Some _ => d
  | None =>
      set_agents (fun rows =>
        rows ++ [ {| sa_id := next_rowid (map sa_id rows); sa_agent_id := agent_id;
                     sa_name := name; sa_specialization := specialization;
                     sa_expertise_areas := expertise_areas; sa_status := "active";
                     sa_current_load := 0; sa_max_capacity := 10 |} ]) d
  end.

Definition seedSubAIAgents (d : DB) : DB :=
  fold_left (fun d agent => insert_agent_or_ignore agent d) subAIs d.

(** ** [server/atlantis-ai.js] *)

Module AtlantisAI.

Definition name : string := "ATLANTIS".

Record TaskInput := {
  userId : JsId;
  title : JsVal;
  description : JsVal;
  timeline : JsVal;
  desiredOutcomes : JsVal;
  availableResources : JsVal;
  priority : JsVal
}.

(** [{ id: result.lastInsertRowid, task_id: taskId, ...input }] *)
Record TaskObject := {
  id_ : Z;
  task_id : string;
  input : TaskInput
}.

Inductive Understanding :=
| understanding_json (text : string)   (* JSON.parse(response.content[0].text) *)
| understanding_basic (primaryIntent : JsVal) (complexity : string)
                      (requiredExpertise : list string).

Record AssignmentInfo := {
  assignmentId : string;
  agentName : string;
  workPackage : JsVal;
  elements : Elements
}.

Inductive Envelope :=
| envelope_success (taskId : string) (understanding : Understanding)
                   (projectPlan : Json) (assignments : list AssignmentInfo)
                   (message : string)
| envelope_failure (error : string).

Record Progress := {
  completed : nat;
  total : nat;
  progress : float
}.

Definition addProgressUpdate
    (taskId : Z) (sourceType sourceId message : string) (progress : SqlVal) : M unit :=
  uuid <- uuidv4 ;;
  insert_progress_update ("update-" ++ uuid) taskId sourceType sourceId message progress.

Definition createTask (input : TaskInput) : M TaskObject :=
  uuid <- uuidv4 ;;
  let taskId := ("task-" ++ uuid)%string in
  user_id <- lift (bind_id (userId input)) ;;
  title <- lift (bind_value (title input)) ;;
  description <- lift (bind_value (js_or (description input) (JStr ""))) ;;
  timeline <- lift (bind_value (js_or (timeline input) (JStr ""))) ;;
  desired_outcomes <- lift (bind_value (js_or (desiredOutcomes input) (JStr ""))) ;;
  priority <- lift (bind_value (js_or (priority input) (JStr "normal"))) ;;
  user_id <- lift (not_null "tasks.user_id" user_id) ;;
  title <- lift (not_null "tasks.title" title) ;;
  d <- get_db ;;
  foreign_key (mem_id user_id (users d)) ;;
  now <- CURRENT_TIMESTAMP ;;
  let rowid := next_rowid (map t_id (tbl_tasks d)) in
  run_sql (set_tasks (fun rows =>
    rows ++ [ {| t_id := rowid; t_task_id := taskId; t_user_id := user_id;
                 t_title := title; t_description := description; t_intent := "";
                 t_timeline := timeline; t_desired_outcomes := desired_outcomes;
                 t_available_resources := js_or (availableResources input) JObj;
                 t_priority := priority; t_status := "pending";
                 t_created_at := now; t_updated_at := now;
                 t_completed_at := None |} ])) ;;
  ret {| id_ := rowid; task_id := taskId; input := input |}.

(** [UPDATE tasks SET intent = ? WHERE id = ?] *)
Definition update_intent (id : Z) (intent : string) : DB -> DB :=
  set_tasks (map (fun t =>
    if t_id t =? id then
      {| t_id := t_id t; t_task_id := t_task_id t; t_user_id := t_user_id t;
         t_title := t_title t; t_description := t_description t; t_intent := intent;
         t_timeline := t_timeline t; t_desired_outcomes := t_desired_outcomes t;
         t_available_resources := t_available_resources t; t_priority := t_priority t;
         t_status := t_status t; t_created_at := t_created_at t;
         t_updated_at := t_updated_at t; t_completed_at := t_completed_at t |}
    else t)).

(** [UPDATE tasks SET status = ?, updated_at = CURRENT_TIMESTAMP WHERE id = ?],
    with [completed_at] as well when the task is finalized. *)
Definition update_status (id : Z) (status : string) (now : nat) (finalize : bool)
  : DB -> DB :=
  set_tasks (map (fun t =>
    if t_id t =? id then
      {| t_id := t_id t; t_task_id := t_task_id t; t_user_id := t_user_id t;
         t_title := t_title t; t_description := t_description t; t_intent := t_intent t;
         t_timeline := t_timeline t; t_desired_outcomes := t_desired_outcomes t;
         t_available_resources := t_available_resources t; t_priority := t_priority t;
         t_status := status; t_created_at := t_created_at t;
         t_updated_at := now;
         t_completed_at := if finalize then Some now else t_completed_at t |}
    else t)).

Definition understandIntent (task : TaskObject) : M Understanding :=
  try_catch
    (response <- messages_create ;;
     _ <- JSON_parse response ;;
     run_sql (update_intent (id_ task) (fst response)) ;;
     ret (understanding_json (fst response)))
    (fun _ =>
       ret (understanding_basic (description (input task)) "Moderate" ["General"])).

Definition basic_plan : Json :=
  {| workPackages :=
       Some [ {| wp_id := JStr "wp-1"; wp_name := JStr "Complete task";
                 wp_assignedTo := JStr "sub-ai-code";
                 wp_elements := ElemArray [JStr "Main implementation"] |} ];
     tasks := None |}.

Definition createProjectPlan (task : TaskObject) (understanding : Understanding)
  : M Json :=
  try_catch
    (response <- messages_create ;;
     plan <- JSON_parse response ;;
     uuid <- uuidv4 ;;
     d <- get_db ;;
     foreign_key (mem_id (id_ task) (map t_id (tbl_tasks d))) ;;
     run_sql (set_plans (fun rows =>
       rows ++ [ {| pp_id := next_rowid (map pp_id rows);
                    pp_plan_id := ("plan-" ++ uuid)%string;
                    pp_task_id := id_ task; pp_plan_data := plan |} ])) ;;
     ret plan)
    (fun _ => ret basic_plan).

(** [JSON.stringify(workPackage.elements)] as a bound parameter: a text, or
    [undefined], which is bound as [NULL]. *)
Definition stringify_elements (e : Elements) : M Elements := ret e.

(** The body of [for (const workPackage of plan.workPackages)]. *)
Fixpoint delegate (task : TaskObject) (todo : list WorkPackage)
    (assignments : list AssignmentInfo) : M (list AssignmentInfo) :=
  match todo with
  | [] => ret assignments
  | workPackage :: todo' =>
      assignedTo <- lift (bind_value (wp_assignedTo workPackage)) ;;
      d <- get_db ;;
      match match assignedTo with
            | Some agent_id => agent_by_agent_id agent_id d
            | None => None
            end with
      | None => delegate task todo' assignments
      | Some agent =>
          uuid <- uuidv4 ;;
          let assignmentId := ("assign-" ++ uuid)%string in
          assigned_elements <- stringify_elements (wp_elements workPackage) ;;
          foreign_key (mem_id (id_ task) (map t_id (tbl_tasks d))) ;;
          now <- CURRENT_TIMESTAMP ;;
          run_sql (set_assignments (fun rows =>
            rows ++ [ {| ta_id := next_rowid (map ta_id rows);
                         ta_assignment_id := assignmentId;
                         ta_task_id := id_ task; ta_agent_id := sa_id agent;
                         ta_assigned_elements := assigned_elements;
                         ta_status := "assigned"; ta_progress := SInt 0;
                         ta_assigned_at := now; ta_started_at := None;
                         ta_completed_at := None |} ])) ;;
          run_sql (add_load (sa_id agent) 1) ;;
          addProgressUpdate (id_ task) "atlantis" name
            ("Assigned " ++ dquote ++ js_to_string (wp_name workPackage) ++ dquote
               ++ " to " ++ sa_name agent)%string
            (SInt 10) ;;
          delegate task todo'
            (assignments ++
               [ {| assignmentId := assignmentId; agentName := sa_name agent;
                    workPackage := wp_name workPackage;
                    elements := wp_elements workPackage |} ])
      end
  end.

Definition delegateToSubAIs (task : TaskObject) (plan : Json)
  : M (list AssignmentInfo) :=
  match workPackages plan with
  | None => throw (TypeError "plan.workPackages is not iterable")
  | Some todo =>
      assignments <- delegate task todo [] ;;
      now <- CURRENT_TIMESTAMP ;;
      run_sql (update_status (id_ task) "in-progress" now false) ;;
      ret assignments
  end.

(** [SELECT ta.*, sa.name ... FROM task_assignments ta JOIN sub_ai_agents sa
    ON ta.agent_id = sa.id WHERE ta.task_id = ?] *)
Definition assignments_of_task (taskId : Z) (d : DB) : list (Assignment * Agent) :=
  flat_map
    (fun ta => map (pair ta) (filter (fun sa => ta_agent_id ta =? sa_id sa)
                                     (sub_ai_agents d)))
    (filter (fun ta => ta_task_id ta =? taskId) (task_assignments d)).

Definition finalizeTask (taskId : Z) : M unit :=
  now <- CURRENT_TIMESTAMP ;;
  run_sql (update_status taskId "completed" now true) ;;
  addProgressUpdate taskId "atlantis" name
    "Task completed successfully! All work packages finished." (SInt 100).

Definition monitorProgress (taskId : Z) : M Progress :=
  d <- get_db ;;
  let assignments := assignments_of_task taskId d in
  let completed :=
    List.length
      (filter (fun a => (ta_status (fst a) =? "completed")%string) assignments) in
  let total := List.length assignments in
  let progress :=
    if (0 <? total)%nat then percentage completed total else 0%float in
  addProgressUpdate taskId "atlantis" name
    ("Overall progress: " ++ string_of_nat completed ++ "/" ++ string_of_nat total
       ++ " assignments completed")%string
    (bind_number progress) ;;
  (if ((completed =? total)%nat && (0 <? total)%nat)%bool
   then finalizeTask taskId else ret tt) ;;
  ret {| completed := completed; total := total; progress := progress |}.

(** A call that is not awaited: what it throws rejects a promise nobody
    handles, what it wrote stays. *)
Definition not_awaited {A} (m : M A) : M unit :=
  fun w => Returns tt (world_of (m w)).

Definition receiveTask (taskInput : TaskInput) : M Envelope :=
  try_catch
    (task <- createTask taskInput ;;
     understanding <- understandIntent task ;;
     projectPlan <- createProjectPlan task understanding ;;
     assignments <- delegateToSubAIs task projectPlan ;;
     not_awaited (monitorProgress (id_ task)) ;;
     ret (envelope_success (task_id task) understanding projectPlan assignments
            "Task received and processing initiated"))
    (fun error => ret (envelope_failure (message_of error))).

(** [ORDER BY created_at DESC]; rows of one timestamp stay in rowid order. *)
Fixpoint insert_desc (u : ProgressUpdate) (sorted : list ProgressUpdate)
  : list ProgressUpdate :=
  match sorted with
  | [] => [u]
  | v :: sorted' =>
      if (pu_created_at v <=? pu_created_at u)%nat then u :: sorted
      else v :: insert_desc u sorted'
  end.

Definition order_by_created_at_desc (rows : list ProgressUpdate)
  : list ProgressUpdate :=
  fold_right insert_desc [] rows.

Record AssignmentRow := {
  row : Assignment;
  agent_name : string;
  specialization : string
}.

Inductive TaskStatus :=
| status_error (error : string)
| status_of (task : Task) (assignments : list AssignmentRow)
            (updates : list ProgressUpdate).

(** [taskId] is the string the route takes from the URL. *)
Definition getTaskStatus (taskId : string) (d : DB) : TaskStatus :=
  match find (fun t => (t_task_id t =? taskId)%string) (tbl_tasks d) with
  | None => status_error "Task not found"
  | Some task =>
      status_of task
        (map (fun p => {| row := fst p; agent_name := sa_name (snd p);
                          specialization := sa_specialization (snd p) |})
             (assignments_of_task (t_id task) d))
        (order_by_created_at_desc
           (filter (fun u => pu_task_id u =? t_id task) (progress_updates d)))
  end.

(** [interactWithUser]: the status is read before the call; the [catch]
    block reads [status.task.status], which throws when [status] is
    [{error: 'Task not found'}]. *)
Definition interactWithUser (taskId : string) (userMessage : JsVal) : M string :=
  d <- get_db ;;
  let status := getTaskStatus taskId d in
  try_catch
    (response <- messages_create ;;
     ret (fst response))
    (fun _ =>
       match status with
       | status_of task _ _ =>
           ret ("I'm monitoring your task. Status: " ++ t_status task)%string
       | status_error _ =>
           throw (TypeError "Cannot read properties of undefined (reading 'status')")
       end).

End AtlantisAI.

(** ** [server/sub-ai-agents.js] *)

Module SubAIAgent.

Record t := {
  agentId : string;
  name : string;
  specialization : string;
  expertiseAreas : list string
}.

(** [constructor(db, agentData, aiClients)] *)
Definition new (agentData : Agent) : t :=
  {| agentId := sa_agent_id agentData; name := sa_name agentData;
     specialization := sa_specialization agentData;
     expertiseAreas := sa_expertise_areas agentData |}.

Definition maxWorkBots : nat := 5.

Record Bot := {
  botId : string;
  type : JsVal;
  description : JsVal;
  expectedOutput : JsVal
}.

Inductive Envelope :=
| envelope_success (workBots : nat) (message : string)
| envelope_failure (error : string).

Definition set_assignment (id : Z) (f : Assignment -> Assignment) : DB -> DB :=
  set_assignments (map (fun a => if ta_id a =? id then f a else a)).

Definition set_bot (bot_id : string) (f : WorkBot -> WorkBot) : DB -> DB :=
  set_bots (map (fun b => if (wb_bot_id b =? bot_id)%string then f b else b)).

Definition with_assignment_status (status : string) (a : Assignment) : Assignment :=
  {| ta_id := ta_id a; ta_assignment_id := ta_assignment_id a;
     ta_task_id := ta_task_id a; ta_agent_id := ta_agent_id a;
     ta_assigned_elements := ta_assigned_elements a; ta_status := status;
     ta_progress := ta_progress a; ta_assigned_at := ta_assigned_at a;
     ta_started_at := ta_started_at a; ta_completed_at := ta_completed_at a |}.

Definition with_started_at (now : nat) (a : Assignment) : Assignment :=
  {| ta_id := ta_id a; ta_assignment_id := ta_assignment_id a;
     ta_task_id := ta_task_id a; ta_agent_id := ta_agent_id a;
     ta_assigned_elements := ta_assigned_elements a; ta_status := ta_status a;
     ta_progress := ta_progress a; ta_assigned_at := ta_assigned_at a;
     ta_started_at := Some now; ta_completed_at := ta_completed_at a |}.

Definition with_completed (status : string) (now : nat) (a : Assignment)
  : Assignment :=
  {| ta_id := ta_id a; ta_assignment_id := ta_assignment_id a;
     ta_task_id := ta_task_id a; ta_agent_id := ta_agent_id a;
     ta_assigned_elements := ta_assigned_elements a; ta_status := status;
     ta_progress := ta_progress a; ta_assigned_at := ta_assigned_at a;
     ta_started_at := ta_started_at a; ta_completed_at := Some now |}.

Definition with_progress (progress : SqlVal) (a : Assignment) : Assignment :=
  {| ta_id := ta_id a; ta_assignment_id := ta_assignment_id a;
     ta_task_id := ta_task_id a; ta_agent_id := ta_agent_id a;
     ta_assigned_elements := ta_assigned_elements a; ta_status := ta_status a;
     ta_progress := progress; ta_assigned_at := ta_assigned_at a;
     ta_started_at := ta_started_at a; ta_completed_at := ta_completed_at a |}.

Definition with_bot
    (status : string) (result : option BotResult)
    (started_at completed_at : option nat) (b : WorkBot) : WorkBot :=
  {| wb_id := wb_id b; wb_bot_id := wb_bot_id b;
     wb_assignment_id := wb_assignment_id b; wb_agent_id := wb_agent_id b;
     wb_bot_type := wb_bot_type b; wb_task_description := wb_task_description b;
     wb_status := status; wb_result := result; wb_created_at := wb_created_at b;
     wb_started_at := started_at; wb_completed_at := completed_at |}.

(** [updateAssignmentStatus]: both statements are prepared before either
    runs; [updateStmt] names [updated_at]. *)
Definition updateAssignmentStatus (assignmentId : Z) (status : string) : M unit :=
  prepare_task_assignments ["status"; "updated_at"; "id"] ;;
  (if (status =? "in-progress")%string then
     prepare_task_assignments ["started_at"; "id"] ;;
     now <- CURRENT_TIMESTAMP ;;
     run_sql (set_assignment assignmentId (with_started_at now))
   else ret tt) ;;
  run_sql (set_assignment assignmentId (with_assignment_status status)).

Definition addProgressUpdate (taskId : Z) (sourceId message : string) : M unit :=
  uuid <- uuidv4 ;;
  insert_progress_update ("update-" ++ uuid) taskId "sub-ai" sourceId message SNull.

Definition analyzeAssignment (self : t) (assignment : Assignment) : M Json :=
  match ta_assigned_elements assignment with
  | ElemArray elements =>
      try_catch
        (response <- messages_create ;;
         JSON_parse response)
        (fun _ =>
           ret {| workPackages := None;
                  tasks := Some (map (fun e =>
                    {| ts_description := e; ts_botType := JStr "general";
                       ts_expectedOutput :=
                         JStr ("Complete: " ++ js_to_string e)%string |}) elements) |})
  | ElemOther => throw (TypeError "elements.map is not a function")
  | ElemUndefined =>
      throw (TypeError "Cannot read properties of null (reading 'map')")
  end.

(** The body of [for (const task of analysis.tasks.slice(0, this.maxWorkBots))]. *)
Fixpoint create (self : t) (assignment : Assignment) (todo : list TaskSpec)
    (workBots : list Bot) : M (list Bot) :=
  match todo with
  | [] => ret workBots
  | task :: todo' =>
      uuid <- uuidv4 ;;
      let botId := ("bot-" ++ uuid)%string in
      d <- get_db ;;
      match agent_by_agent_id (agentId self) d with
      | None => throw (TypeError "Cannot read properties of undefined (reading 'id')")
      | Some agentRecord =>
          bot_type <- lift (bind_value (ts_botType task)) ;;
          task_description <- lift (bind_value (ts_description task)) ;;
          bot_type <- lift (not_null "work_bots.bot_type" bot_type) ;;
          foreign_key (mem_id (ta_id assignment) (map ta_id (task_assignments d))) ;;
          now <- CURRENT_TIMESTAMP ;;
          run_sql (set_bots (fun rows =>
            rows ++ [ {| wb_id := next_rowid (map wb_id rows); wb_bot_id := botId;
                         wb_assignment_id := ta_id assignment;
                         wb_agent_id := sa_id agentRecord; wb_bot_type := bot_type;
                         wb_task_description := task_description;
                         wb_status := "created"; wb_result := None;
                         wb_created_at := now; wb_started_at := None;
                         wb_completed_at := None |} ])) ;;
          create self assignment todo'
            (workBots ++
               [ {| botId := botId; type := ts_botType task;
                    description := ts_description task;
                    expectedOutput := ts_expectedOutput task |} ])
      end
  end.

Definition createWorkBots (self : t) (assignment : Assignment) (analysis : Json)
  : M (list Bot) :=
  match tasks analysis with
  | None => throw (TypeError "Cannot read properties of undefined (reading 'slice')")
  | Some tasks => create self assignment (firstn maxWorkBots tasks) []
  end.

Definition executeWorkBot (self : t) (bot : Bot) : M BotResult :=
  try_catch
    (response <- messages_create ;;
     now <- CURRENT_TIMESTAMP ;;
     ret (result_success (fst response) now))
    (fun error => ret (result_failure (message_of error))).

(** [bot.description.substring(0, 50)] *)
Definition description_prefix (bot : Bot) : M string :=
  match description bot with
  | JStr s => ret (substring 0 50 s)
  | JObj => throw (TypeError "bot.description.substring is not a function")
  | JNull => throw (TypeError "Cannot read properties of null (reading 'substring')")
  | JUndefined =>
      throw (TypeError "Cannot read properties of undefined (reading 'substring')")
  end.

(** The body of [for (const bot of workBots)]. *)
Definition execute (self : t) (assignment : Assignment) (bot : Bot) : M unit :=
  try_catch
    (now <- CURRENT_TIMESTAMP ;;
     run_sql (set_bot (botId bot) (fun b =>
       with_bot "running" (wb_result b) (Some now) (wb_completed_at b) b)) ;;
     result <- executeWorkBot self bot ;;
     now <- CURRENT_TIMESTAMP ;;
     run_sql (set_bot (botId bot) (fun b =>
       with_bot "completed" (Some result) (wb_started_at b) (Some now) b)) ;;
     prefix <- description_prefix bot ;;
     addProgressUpdate (ta_task_id assignment) (botId bot)
       ("Work bot completed: " ++ prefix ++ "...")%string)
    (fun error =>
       run_sql (set_bot (botId bot) (fun b =>
         with_bot "failed" (Some (result_error (message_of error)))
                  (wb_started_at b) (wb_completed_at b) b))).

Fixpoint for_each {A} (body : A -> M unit) (l : list A) : M unit :=
  match l with
  | [] => ret tt
  | x :: l' => body x ;; for_each body l'
  end.

(** [SELECT * FROM work_bots WHERE assignment_id = ?] *)
Definition bots_of (assignment_id : Z) (d : DB) : list WorkBot :=
  filter (fun b => wb_assignment_id b =? assignment_id) (work_bots d).

(** [status = "completed"] in SQL, [r.status === 'completed'] in JavaScript. *)
Definition is_completed (b : WorkBot) : bool := (wb_status b =? "completed")%string.

(** [executeWorkBots]: the statement that counts the completed bots is
    prepared after the loop, and writes ["completed"] in double quotes. *)
Definition executeWorkBots (self : t) (workBots : list Bot) (assignment : Assignment)
  : M unit :=
  for_each (execute self assignment) workBots ;;
  prepare_double_quoted "completed" ;;
  d <- get_db ;;
  let completedBots := List.length (filter is_completed (bots_of (ta_id assignment) d)) in
  let progress := percentage completedBots (List.length workBots) in
  run_sql (set_assignment (ta_id assignment) (with_progress (bind_number progress))).

Definition reportToAtlantis (self : t) (assignment : Assignment) : M unit :=
  d <- get_db ;;
  let results := bots_of (ta_id assignment) d in
  let completed := List.length (filter is_completed results) in
  let total := List.length results in
  let status := if (completed =? total)%nat then "completed" else "partial" in
  now <- CURRENT_TIMESTAMP ;;
  run_sql (set_assignment (ta_id assignment) (with_completed status now)) ;;
  match agent_by_agent_id (agentId self) d with
  | None => throw (TypeError "Cannot read properties of undefined (reading 'id')")
  | Some agentRecord =>
      run_sql (add_load (sa_id agentRecord) (-1)) ;;
      addProgressUpdate (ta_task_id assignment) (agentId self)
        (name self ++ " completed assignment: " ++ string_of_nat completed ++ "/"
           ++ string_of_nat total ++ " work bots successful")%string
  end.

Definition processAssignment (self : t) (assignment : Assignment) : M Envelope :=
  try_catch
    (updateAssignmentStatus (ta_id assignment) "in-progress" ;;
     analysis <- analyzeAssignment self assignment ;;
     workBots <- createWorkBots self assignment analysis ;;
     executeWorkBots self workBots assignment ;;
     reportToAtlantis self assignment ;;
     ret (envelope_success (List.length workBots)
            (name self ++ " completed assignment")%string))
    (fun error =>
       updateAssignmentStatus (ta_id assignment) "failed" ;;
       ret (envelope_failure (message_of error))).

End SubAIAgent.

Module SubAIManager.

(** [initializeAgents], called by the constructor: one agent object per
    active row, keyed by [agent_id].  The statement writes ["active"] in
    double quotes. *)
Definition initializeAgents : M (list SubAIAgent.t) :=
  prepare_double_quoted "active" ;;
  d <- get_db ;;
  ret (map SubAIAgent.new
           (filter (fun a => (sa_status a =? "active")%string) (sub_ai_agents d))).

(** [this.agents.get(agentId)]: the entry set last for the key. *)
Definition getAgent (agents : list SubAIAgent.t) (agentId : string)
  : option SubAIAgent.t :=
  find (fun a => (SubAIAgent.agentId a =? agentId)%string) (rev agents).

(** [SELECT ta.*, sa.agent_id ... WHERE ta.status = 'assigned'] *)
Definition pending (d : DB) : list (Assignment * string) :=
  flat_map
    (fun ta => map (fun sa => (ta, sa_agent_id sa))
                   (filter (fun sa => ta_agent_id ta =? sa_id sa) (sub_ai_agents d)))
    (filter (fun ta => (ta_status ta =? "assigned")%string) (task_assignments d)).

Definition processPendingAssignments (agents : list SubAIAgent.t) : M unit :=
  d <- get_db ;;
  SubAIAgent.for_each
    (fun assignment =>
       match getAgent agents (snd assignment) with
       | Some agent => SubAIAgent.processAssignment agent (fst assignment) ;; ret tt
       | None => ret tt
       end)
    (pending d).

End SubAIManager.

(** * Vocabulary of the statements *)

Arguments percentage : simpl never.
Arguments bind_number : simpl never.
Arguments string_of_nat : simpl never.
Arguments String.append : simpl never.
Arguments next_rowid : simpl never.

Ltac store_simpl :=
  cbn [db clock uuids claude calls with_db
       set_tasks set_agents set_assignments set_bots set_plans set_updates
       users tbl_tasks sub_ai_agents task_assignments work_bots project_plans
       progress_updates task_assignments_more_columns] in *.

(** ** Progress updates *)

(** [u] is listed before [v]: [u] is at least as new. *)
Definition newest_first (u v : ProgressUpdate) : Prop :=
  (pu_created_at v <= pu_created_at u)%nat.

(** The row one [addProgressUpdate] appends in the world [w]. *)
Definition update_row
    (taskId : Z) (sourceType sourceId message : string) (progress : SqlVal)
    (w : World) : ProgressUpdate :=
  {| pu_id := next_rowid (map pu_id (progress_updates (db w)));
     pu_update_id := ("update-" ++ string_of_nat (uuids w))%string;
     pu_task_id := taskId; pu_source_type := sourceType; pu_source_id := sourceId;
     pu_message := message; pu_progress_percentage := progress;
     pu_created_at := clock w |}.

(** The world after one [addProgressUpdate]. *)
Definition logged (update : ProgressUpdate) (w : World) : World :=
  {| db := set_updates (fun us => us ++ [update]) (db w);
     clock := clock w; uuids := S (uuids w); claude := claude w; calls := calls w |}.

(** ** Task input *)

(** A field the caller left out ([undefined]) or set to [null]. *)
Definition missing (v : JsVal) : Prop := v = JUndefined \/ v = JNull.
Definition missing_id (v : JsId) : Prop := v = IdUndefined \/ v = IdNull.

(** What [bind_value] accepts. *)
Definition bindable (v : JsVal) : bool :=
  match v with
  | JObj => false
  | JUndefined | JNull | JStr _ => true
  end.

(** An input [createTask] can store: a title, the id of a row of [users],
    and nothing that cannot be bound in the optional fields. *)
Definition accepted (taskInput : AtlantisAI.TaskInput) (d : DB) : bool :=
  match AtlantisAI.userId taskInput, AtlantisAI.title taskInput with
  | IdNum user_id, JStr _ =>
      mem_id user_id (users d)
      && bindable (js_or (AtlantisAI.description taskInput) (JStr ""))
      && bindable (js_or (AtlantisAI.timeline taskInput) (JStr ""))
      && bindable (js_or (AtlantisAI.desiredOutcomes taskInput) (JStr ""))
      && bindable (js_or (AtlantisAI.priority taskInput) (JStr "normal"))
  | _, _ => false
  end.

(** Every assignment row is the assignment of a row of [tasks] (the foreign
    key of [task_assignments.task_id]). *)
Definition assignments_reference_tasks (d : DB) : bool :=
  forallb (fun a => mem_id (ta_task_id a) (map t_id (tbl_tasks d)))
          (task_assignments d).

(** ** Answers of the reasoning client *)

(** The call yields no parsed object: it rejects, or its text is not JSON. *)
Definition fails (reply : Reply) : bool :=
  match reply with
  | Resolves _ (Some _) => false
  | _ => true
  end.

(** What [understandIntent] returns on a reply. *)
Definition understanding_of (taskInput : AtlantisAI.TaskInput) (reply : Reply)
  : AtlantisAI.Understanding :=
  match reply with
  | Resolves text (Some _) => AtlantisAI.understanding_json text
  | _ => AtlantisAI.understanding_basic (AtlantisAI.description taskInput)
           "Moderate" ["General"]
  end.

(** What [createProjectPlan] returns on a reply. *)
Definition plan_of (reply : Reply) : Json :=
  match reply with
  | Resolves _ (Some plan) => plan
  | _ => AtlantisAI.basic_plan
  end.

(** ** Task progress *)

(** The assignment rows of a task, and the completed ones among them. *)
Definition assignments_count (taskId : Z) (d : DB) : nat :=
  List.length (filter (fun ta => ta_task_id ta =? taskId) (task_assignments d)).

Definition completed_count (taskId : Z) (d : DB) : nat :=
  List.length
    (filter (fun ta => (ta_status ta =? "completed")%string)
            (filter (fun ta => ta_task_id ta =? taskId) (task_assignments d))).

(** Every assignment row has exactly one agent row: [agent_id] references
    [sub_ai_agents(id)], the primary key. *)
Definition one_agent_each (d : DB) : bool :=
  forallb (fun ta =>
             Nat.eqb (List.length (filter (fun sa => ta_agent_id ta =? sa_id sa)
                                          (sub_ai_agents d))) 1)
          (task_assignments d).

(** What the query of [monitorProgress] yields. *)
Definition completed_of (taskId : Z) (d : DB) : nat :=
  List.length
    (filter (fun a => (ta_status (fst a) =? "completed")%string)
            (AtlantisAI.assignments_of_task taskId d)).

Definition total_of (taskId : Z) (d : DB) : nat :=
  List.length (AtlantisAI.assignments_of_task taskId d).

(** [completed === total && total > 0] *)
Definition all_completed (taskId : Z) (d : DB) : bool :=
  ((completed_of taskId d =? total_of taskId d)%nat
   && (0 <? total_of taskId d)%nat)%bool.

(** The clock moves on by [seconds]. *)
Definition tick (seconds : nat) : M unit :=
  fun w => Returns tt {| db := db w; clock := (clock w + seconds)%nat;
                         uuids := uuids w; claude := claude w; calls := calls w |}.

(** [monitorProgress] called once, and once more after each of [ticks]. *)
Fixpoint monitor_again (ticks : list nat) (taskId : Z) : M AtlantisAI.Progress :=
  match ticks with
  | [] => AtlantisAI.monitorProgress taskId
  | seconds :: ticks' =>
      AtlantisAI.monitorProgress taskId ;; tick seconds ;; monitor_again ticks' taskId
  end.

(** ** Work packages *)

(** The agent a work package names, when the registry has it. *)
Definition assigned_agent (d : DB) (workPackage : WorkPackage) : option Agent :=
  match wp_assignedTo workPackage with
  | JStr agent_id => agent_by_agent_id agent_id d
  | _ => None
  end.

(** The agents of the packages that name a registered agent, in plan order. *)
Definition assigned_agents (d : DB) (todo : list WorkPackage) : list Agent :=
  flat_map (fun workPackage =>
              match assigned_agent d workPackage with
              | Some agent => [agent]
              | None => []
              end) todo.

(** [assignedTo] is a string and [elements] is there. *)
Definition well_formed (workPackage : WorkPackage) : bool :=
  match wp_assignedTo workPackage, wp_elements workPackage with
  | JStr _, ElemArray _ | JStr _, ElemOther => true
  | _, _ => false
  end.

(** Two registries that differ in the loads only. *)
Definition same_agents (l l' : list Agent) : Prop :=
  exists g, l' = map (fun a => add_to_load (g a) a) l.

(** The registry after one increment of [current_load] for each of [ids]. *)
Definition loads_after (ids : list Z) (agents : list Agent) : list Agent :=
  map (fun a => add_to_load (Z.of_nat (count_occ Z.eq_dec ids (sa_id a))) a) agents.

(** ** Work bots *)

(** A task the statement of [createWorkBots] can store: a bot type, and a
    description that is a string or [null]. *)
Definition creatable (task : TaskSpec) : bool :=
  match ts_botType task, ts_description task with
  | JStr _, JStr _ | JStr _, JNull => true
  | _, _ => false
  end.

Definition bot_of (botId : string) (task : TaskSpec) : SubAIAgent.Bot :=
  {| SubAIAgent.botId := botId; SubAIAgent.type := ts_botType task;
     SubAIAgent.description := ts_description task;
     SubAIAgent.expectedOutput := ts_expectedOutput task |}.

(** The row [createWorkBots] writes for [bot]. *)
Definition created (a : Assignment) (agentRecord : Agent) (bot : SubAIAgent.Bot)
    (r : WorkBot) : Prop :=
  wb_bot_id r = SubAIAgent.botId bot
  /\ wb_assignment_id r = ta_id a
  /\ wb_agent_id r = sa_id agentRecord
  /\ Some (wb_bot_type r) = match SubAIAgent.type bot with
                            | JStr s => Some s
                            | _ => None
                            end
  /\ wb_task_description r = match SubAIAgent.description bot with
                             | JStr s => Some s
                             | _ => None
                             end
  /\ wb_status r = "created" /\ wb_result r = None.

(** The task the fallback of [analyzeAssignment] makes of an element. *)
Definition general (e : JsVal) : TaskSpec :=
  {| ts_description := e; ts_botType := JStr "general";
     ts_expectedOutput := JStr ("Complete: " ++ js_to_string e)%string |}.

(** The [task_assignments] table of the database file has [updated_at]. *)
Definition has_updated_at (d : DB) : bool :=
  existsb (String.eqb "updated_at") (task_assignments_more_columns d).

(** Steps 3 to 5 of [processAssignment] on a given analysis. *)
Definition work (self : SubAIAgent.t) (assignment : Assignment) (analysis : Json)
  : M (list SubAIAgent.Bot) :=
  workBots <- SubAIAgent.createWorkBots self assignment analysis ;;
  SubAIAgent.executeWorkBots self workBots assignment ;;
  SubAIAgent.reportToAtlantis self assignment ;;
  ret workBots.

(** Steps 2 and 3 of [processAssignment] and the loop of
    [executeWorkBots]: every bot of the analysis is created and run. *)
Definition run_bots (self : SubAIAgent.t) (assignment : Assignment) : M unit :=
  analysis <- SubAIAgent.analyzeAssignment self assignment ;;
  workBots <- SubAIAgent.createWorkBots self assignment analysis ;;
  SubAIAgent.for_each (SubAIAgent.execute self assignment) workBots.

(** The row of [assignment] once [processAssignment] has caught an error:
    started at [now], and ['failed']. *)
Definition failed_at (now : nat) (assignment row : Assignment) : Assignment :=
  if ta_id row =? ta_id assignment
  then SubAIAgent.with_assignment_status "failed" (SubAIAgent.with_started_at now row)
  else row.

(** ** Frames: what a computation leaves alone, however it ends *)

Definition keeps {T A : Type} (table : DB -> T) (m : M A) : Prop :=
  forall w, table (db (world_of (m w))) = table (db w).

(** Everything but the work bots and the progress updates. *)
Definition but_bots (d : DB)
  : list Z * list Task * list Agent * list Assignment * list PlanRow * list string :=
  (users d, tbl_tasks d, sub_ai_agents d, task_assignments d, project_plans d,
   task_assignments_more_columns d).

(** [m] writes [table] only in the rows whose [key] is [id], and keeps their
    key; however it ends. *)
Definition touches {R A} (table : DB -> list R) (key : R -> Z) (id : Z) (m : M A)
  : Prop :=
  forall w, exists g,
    (forall r, key (g r) = key r)
    /\ table (db (world_of (m w)))
       = map (fun r => if key r =? id then g r else r) (table (db w)).

(** [m] only appends rows to [table], each with [P]; however it ends. *)
Definition appends {T A} (P : T -> Prop) (table : DB -> list T) (m : M A) : Prop :=
  forall w, exists new,
    table (db (world_of (m w))) = table (db w) ++ new /\ Forall P new.

(** [m] changes nothing of [sub_ai_agents] but the loads, and lowers none. *)
Definition raises_loads {A} (m : M A) : Prop :=
  forall w, exists g,
    (forall a, 0 <= g a)
    /\ sub_ai_agents (db (world_of (m w)))
       = map (fun a => add_to_load (g a) a) (sub_ai_agents (db w)).

(** [m] leaves the database as it is. *)
Definition reads {A} (m : M A) : Prop := keeps (fun d => d) m.

(** Steps 2 to 5 of [receiveTask]. *)
Definition plan_and_delegate (task : AtlantisAI.TaskObject) : M AtlantisAI.Envelope :=
  understanding <- AtlantisAI.understandIntent task ;;
  projectPlan <- AtlantisAI.createProjectPlan task understanding ;;
  assignments <- AtlantisAI.delegateToSubAIs task projectPlan ;;
  AtlantisAI.not_awaited (AtlantisAI.monitorProgress (AtlantisAI.id_ task)) ;;
  ret (AtlantisAI.envelope_success (AtlantisAI.task_id task) understanding projectPlan
         assignments "Task received and processing initiated").

(** ** Seeding *)

(** [agent.agent_id] of an entry of [subAIs]. *)
Definition agent_id_of (agent : string * string * string * list string) : string :=
  let '(agent_id, _, _, _) := agent in agent_id.

(** The row [INSERT OR IGNORE] writes for an entry: the columns it does not
    name take the defaults of the schema. *)
Definition seeded_row (agent : string * string * string * list string) (row : Agent)
  : Prop :=
  let '(agent_id, name, specialization, expertise_areas) := agent in
  sa_agent_id row = agent_id /\ sa_name row = name
  /\ sa_specialization row = specialization
  /\ sa_expertise_areas row = expertise_areas
  /\ sa_status row = "active" /\ sa_current_load row = 0 /\ sa_max_capacity row = 10.

(** [insertMany(agents)] *)
Definition insertMany (agents : list (string * string * string * list string)) (d : DB)
  : DB :=
  fold_left (fun d agent => insert_agent_or_ignore agent d) agents d.

(** ** The sweep of the manager *)

(** [this.agents.has(agentId)] *)
Definition has_agent (agents : list SubAIAgent.t) (agentId : string) : bool :=
  match SubAIManager.getAgent agents agentId with
  | Some _ => true
  | None => false
  end.

(** The ids of the assignments that [processPendingAssignments] hands to an
    agent object: the pending rows whose agent the manager has. *)
Definition handed_over (agents : list SubAIAgent.t) (pending : list (Assignment * string))
  : list Z :=
  map (fun p => ta_id (fst p)) (filter (fun p => has_agent agents (snd p)) pending).

(** The body of [for (const assignment of pending)]. *)
Definition dispatch (agents : list SubAIAgent.t) (assignment : Assignment * string)
  : M unit :=
  match SubAIManager.getAgent agents (snd assignment) with
  | Some agent => SubAIAgent.processAssignment agent (fst assignment) ;; ret tt
  | None => ret tt
  end.

(** ** Scenarios *)

(** The store after [initializeDatabase], [seedSubAIAgents] and the
    [INSERT INTO users] of the route [POST /api/tasks]. *)
Definition seeded : DB :=
  let d := seedSubAIAgents initializeDatabase in
  {| users := [1]; tbl_tasks := tbl_tasks d; sub_ai_agents := sub_ai_agents d;
     task_assignments := task_assignments d; work_bots := work_bots d;
     project_plans := project_plans d; progress_updates := progress_updates d;
     task_assignments_more_columns := task_assignments_more_columns d |}.

(** The same store in a database file whose [task_assignments] table has an
    [updated_at] column. *)
Definition seeded_with_updated_at : DB :=
  {| users := users seeded; tbl_tasks := tbl_tasks seeded;
     sub_ai_agents := sub_ai_agents seeded;
     task_assignments := task_assignments seeded; work_bots := work_bots seeded;
     project_plans := project_plans seeded;
     progress_updates := progress_updates seeded;
     task_assignments_more_columns := ["updated_at"] |}.

Definition start (d : DB) (claude : nat -> Reply) : World :=
  {| db := d; clock := 0; uuids := 0; claude := claude; calls := 0 |}.

Definition build_api : AtlantisAI.TaskInput :=
  {| AtlantisAI.userId := IdNum 1; AtlantisAI.title := JStr "Build API";
     AtlantisAI.description := JStr "..."; AtlantisAI.timeline := JUndefined;
     AtlantisAI.desiredOutcomes := JUndefined;
     AtlantisAI.availableResources := JUndefined;
     AtlantisAI.priority := JUndefined |}.

Definition untitled : AtlantisAI.TaskInput :=
  {| AtlantisAI.userId := IdNum 1; AtlantisAI.title := JUndefined;
     AtlantisAI.description := JStr "..."; AtlantisAI.timeline := JUndefined;
     AtlantisAI.desiredOutcomes := JUndefined;
     AtlantisAI.availableResources := JUndefined;
     AtlantisAI.priority := JUndefined |}.

(** Every call of the reasoning client rejects. *)
Definition unreachable : nat -> Reply := fun _ => Rejects "Connection error.".

Definition codeAgent : Agent :=
  {| sa_id := 1; sa_agent_id := "sub-ai-code"; sa_name := "Code Architect";
     sa_specialization := "Code Development";
     sa_expertise_areas :=
       ["JavaScript"; "Python"; "Java"; "TypeScript"; "Go"; "Rust"; "C#"];
     sa_status := "active"; sa_current_load := 0; sa_max_capacity := 10 |}.

Definition codeArchitect : SubAIAgent.t := SubAIAgent.new codeAgent.

(** The one assignment [receiveTask] makes of [build_api] when the plan is
    the basic one. *)
Definition assignment_1 : Assignment :=
  {| ta_id := 1; ta_assignment_id := "assign-1"; ta_task_id := 1; ta_agent_id := 1;
     ta_assigned_elements := ElemArray [JStr "Main implementation"];
     ta_status := "assigned"; ta_progress := SInt 0; ta_assigned_at := 0;
     ta_started_at := None; ta_completed_at := None |}.

Definition delegated (d : DB) (claude : nat -> Reply) : World :=
  world_of (AtlantisAI.receiveTask build_api (start d claude)).

Definition package (name assignedTo : string) (elements : list string)
  : WorkPackage :=
  {| wp_id := JUndefined; wp_name := JStr name; wp_assignedTo := JStr assignedTo;
     wp_elements := ElemArray (map JStr elements) |}.

(** A plan of three packages, the second for an agent nobody registered. *)
Definition three_packages : list WorkPackage :=
  [ package "Handlers" "sub-ai-code" ["Routes"; "Controllers"];
    package "Quantum layer" "sub-ai-quantum" ["Entangle"];
    package "Tests" "sub-ai-testing" ["Unit tests"] ].

Definition planner (todo : list WorkPackage) : nat -> Reply :=
  fun n => match n with
           | 1%nat => Resolves "{...}" (Some {| workPackages := Some todo;
                                               tasks := None |})
           | _ => Rejects "Connection error."
           end.

(** An assignment of seven elements. *)
Definition seven_elements : Assignment :=
  {| ta_id := 1; ta_assignment_id := "assign-1"; ta_task_id := 1; ta_agent_id := 1;
     ta_assigned_elements :=
       ElemArray (map JStr ["e1"; "e2"; "e3"; "e4"; "e5"; "e6"; "e7"]);
     ta_status := "assigned"; ta_progress := SInt 0; ta_assigned_at := 0;
     ta_started_at := None; ta_completed_at := None |}.

Definition seven_planner : nat -> Reply :=
  planner [ package "Everything" "sub-ai-code"
              ["e1"; "e2"; "e3"; "e4"; "e5"; "e6"; "e7"] ].

Definition spec (description : JsVal) (botType : string) : TaskSpec :=
  {| ts_description := description; ts_botType := JStr botType;
     ts_expectedOutput := JUndefined |}.

(** An analysis of four tasks; the third has no description ([null]). *)
Definition four_tasks : Json :=
  {| workPackages := None;
     tasks := Some [ spec (JStr "Design the schema") "analysis";
                     spec (JStr "Write the handlers") "code-generation";
                     spec JNull "testing";
                     spec (JStr "Write the docs") "documentation" ] |}.

(** An analysis of four tasks, each with a description. *)
Definition four_described : Json :=
  {| workPackages := None;
     tasks := Some [ spec (JStr "Design the schema") "analysis";
                     spec (JStr "Write the handlers") "code-generation";
                     spec (JStr "Write the tests") "testing";
                     spec (JStr "Write the docs") "documentation" ] |}.

(** After the two calls of [receiveTask]: the analysis is [analysis], the
    execution of the bot number [n] (from 0) rejects, every other execution
    resolves. *)
Definition execution_fails (analysis : Json) (n : nat) : nat -> Reply :=
  fun call => match call with
              | 0%nat | 1%nat => Rejects "Connection error."
              | 2%nat => Resolves "{...}" (Some analysis)
              | _ => if (call =? 3 + n)%nat then Rejects "529 overloaded"
                     else Resolves "Done." None
              end.

(** After the two calls of [receiveTask]: the analysis is [analysis], and
    every execution rejects. *)
Definition executions_fail (analysis : Json) : nat -> Reply :=
  fun call => match call with
              | 2%nat => Resolves "{...}" (Some analysis)
              | _ => Rejects "Connection error."
              end.

Definition two_tasks : Json :=
  {| workPackages := None;
     tasks := Some [ spec (JStr "Design the schema") "analysis";
                     spec (JStr "Write the handlers") "code-generation" ] |}.

(** An analysis whose task list is empty. *)
Definition empty_analysis : Json := {| workPackages := None; tasks := Some [] |}.

(** The store once [createWorkBots] has made the two bots of [two_tasks], and
    the first of them. *)
Definition two_bots : World :=
  world_of (SubAIAgent.createWorkBots codeArchitect assignment_1 two_tasks
              (delegated seeded unreachable)).

Definition schema_bot : SubAIAgent.Bot :=
  bot_of "bot-4" (spec (JStr "Design the schema") "analysis").

(** After the two calls of [receiveTask]: the analysis is an object without
    [tasks]. *)
Definition no_tasks : nat -> Reply :=
  fun n => match n with
           | 2%nat => Resolves "{}" (Some {| workPackages := None; tasks := None |})
           | _ => Rejects "Connection error."
           end.

(** What a test reads after [receiveTask]: the agents named in the
    envelope, the agents of the assignment rows, and the loads. *)
Definition delegation (o : Outcome AtlantisAI.Envelope)
  : option (list string * list Z * list Z) :=
  match o with
  | Returns (AtlantisAI.envelope_success _ _ _ assignments _) w' =>
      Some (map AtlantisAI.agentName assignments,
            map ta_agent_id (task_assignments (db w')),
            map sa_current_load (sub_ai_agents (db w')))
  | _ => None
  end.

(** What the caller of [processAssignment] gets. *)
Definition reply (o : Outcome SubAIAgent.Envelope) : option SubAIAgent.Envelope :=
  match o with
  | Returns envelope _ => Some envelope
  | Throws _ _ => None
  end.

(** The status and the progress of each assignment left behind. *)
Definition progress_of {A} (o : Outcome A) : list (string * SqlVal) :=
  map (fun r => (ta_status r, ta_progress r)) (task_assignments (db (world_of o))).

(** The store once [reportToAtlantis] has reported the one assignment. *)
Definition reported : World :=
  world_of (SubAIAgent.reportToAtlantis codeArchitect assignment_1
              (delegated seeded unreachable)).

Definition loads (w : World) : list Z := map sa_current_load (sub_ai_agents (db w)).
Definition statuses (w : World) : list string := map ta_status (task_assignments (db w)).

(** What is thrown, and the assignment statuses and agent loads left behind. *)
Definition observed {A} (o : Outcome A) : option Exn * list string * list Z :=
  (match o with Returns _ _ => None | Throws e _ => Some e end,
   statuses (world_of o), loads (world_of o)).

(** The status and the result of each bot row left behind. *)
Definition recorded {A} (o : Outcome A) : list (string * option BotResult) :=
  map (fun b => (wb_status b, wb_result b)) (work_bots (db (world_of o))).

(** * Properties *)

(** ** Steps *)

Lemma bind_returns {A B} (m : M A) (k : A -> M B) (w w' : World) (a : A) :
  m w = Returns a w' -> bind m k w = k a w'.
Proof. unfold bind. now intros ->. Qed.

Lemma fold_max_upper (ids : list Z) (x : Z) :
  In x ids -> x <= fold_right Z.max 0 ids.
Proof.
  induction ids as [|y ids IH]; simpl; [tauto|].
  intros [->|H]; [lia|]. specialize (IH H). lia.
Qed.

Lemma next_rowid_fresh (ids : list Z) (x : Z) : In x ids -> x < next_rowid ids.
Proof. intros H. unfold next_rowid. pose proof (fold_max_upper ids x H). lia. Qed.

Lemma mem_id_In (i : Z) (ids : list Z) : mem_id i ids = true <-> In i ids.
Proof.
  unfold mem_id. rewrite existsb_exists. split.
  - intros (x & Hx & E). apply Z.eqb_eq in E. now subst.
  - intros H. exists i. split; [assumption|apply Z.eqb_refl].
Qed.

Lemma map_update_fresh {A} (key : A -> Z) (f : A -> A) (id : Z)
    (rows : list A) (r : A) :
  (forall x, In x rows -> key x < id) -> key r = id ->
  map (fun x => if key x =? id then f x else x) (rows ++ [r]) = rows ++ [f r].
Proof.
  intros Hfresh Hr. rewrite map_app. simpl. rewrite Hr, Z.eqb_refl. f_equal.
  rewrite <- (map_id rows) at 2. apply map_ext_in. intros x Hx.
  specialize (Hfresh x Hx).
  assert ((key x =? id) = false) as -> by (apply Z.eqb_neq; lia).
  reflexivity.
Qed.

Lemma length_filter_none {A} (p : A -> bool) (l : list A) :
  (forall x, In x l -> p x = false) -> List.length (filter p l) = 0%nat.
Proof.
  induction l as [|x l IH]; simpl; [reflexivity|]. intros H.
  rewrite (H x (or_introl eq_refl)). apply IH. intros y Hy. apply H. now right.
Qed.

Lemma In_firstn {A} (n : nat) (l : list A) (x : A) : In x (firstn n l) -> In x l.
Proof.
  revert l. induction n as [|n IH]; intros [|y l]; simpl; try tauto.
  intros [->|H]; [now left|right; now apply IH].
Qed.

Lemma insert_progress_update_returns
    (update_id : string) (taskId : Z) (sourceType sourceId message : string)
    (progress : SqlVal) (w : World) :
  In taskId (map t_id (tbl_tasks (db w))) ->
  insert_progress_update update_id taskId sourceType sourceId message progress w
  = Returns tt
      (with_db (set_updates (fun us =>
         us ++ [ {| pu_id := next_rowid (map pu_id us); pu_update_id := update_id;
                    pu_task_id := taskId; pu_source_type := sourceType;
                    pu_source_id := sourceId; pu_message := message;
                    pu_progress_percentage := progress;
                    pu_created_at := clock w |} ])) w).
Proof.
  intros H. apply mem_id_In in H.
  unfold insert_progress_update, bind, get_db, foreign_key, CURRENT_TIMESTAMP, run_sql.
  rewrite H. reflexivity.
Qed.

Lemma addProgressUpdate_returns
    (taskId : Z) (sourceType sourceId message : string) (progress : SqlVal)
    (w : World) :
  In taskId (map t_id (tbl_tasks (db w))) ->
  AtlantisAI.addProgressUpdate taskId sourceType sourceId message progress w
  = Returns tt (logged (update_row taskId sourceType sourceId message progress w) w).
Proof.
  intros H. unfold AtlantisAI.addProgressUpdate.
  erewrite bind_returns by reflexivity.
  rewrite insert_progress_update_returns by exact H. reflexivity.
Qed.

Lemma sub_addProgressUpdate_returns
    (taskId : Z) (sourceId message : string) (w : World) :
  In taskId (map t_id (tbl_tasks (db w))) ->
  SubAIAgent.addProgressUpdate taskId sourceId message w
  = Returns tt (logged (update_row taskId "sub-ai" sourceId message SNull w) w).
Proof.
  intros H. unfold SubAIAgent.addProgressUpdate.
  erewrite bind_returns by reflexivity.
  rewrite insert_progress_update_returns by exact H. reflexivity.
Qed.

(** ** Frames *)

Section Frame.
Context {T : Type} (table : DB -> T).

Lemma keeps_ret {A} (a : A) : keeps table (ret a).
Proof. intros w. reflexivity. Qed.

Lemma keeps_throw {A} (e : Exn) : keeps table (@throw A e).
Proof. intros w. reflexivity. Qed.

Lemma keeps_bind {A B} (m : M A) (k : A -> M B) :
  keeps table m -> (forall a, keeps table (k a)) -> keeps table (bind m k).
Proof.
  intros Hm Hk w. unfold bind. specialize (Hm w).
  destruct (m w) as [a w'|e w']; simpl in *; [|exact Hm].
  now rewrite Hk.
Qed.

Lemma keeps_try_catch {A} (m : M A) (h : Exn -> M A) :
  keeps table m -> (forall e, keeps table (h e)) -> keeps table (try_catch m h).
Proof.
  intros Hm Hh w. unfold try_catch. specialize (Hm w).
  destruct (m w) as [a w'|e w']; simpl in *; [exact Hm|].
  now rewrite Hh.
Qed.

Lemma keeps_lift {A} (r : Exn + A) : keeps table (lift r).
Proof. destruct r; intros w; reflexivity. Qed.

Lemma keeps_get_db : keeps table get_db.
Proof. intros w. reflexivity. Qed.

Lemma keeps_now : keeps table CURRENT_TIMESTAMP.
Proof. intros w. reflexivity. Qed.

Lemma keeps_uuidv4 : keeps table uuidv4.
Proof. intros w. reflexivity. Qed.

Lemma keeps_foreign_key (ok : bool) : keeps table (foreign_key ok).
Proof. destruct ok; intros w; reflexivity. Qed.

Lemma keeps_messages_create : keeps table messages_create.
Proof. intros w. unfold messages_create. now destruct (claude w (calls w)). Qed.

Lemma keeps_JSON_parse (r : string * option Json) : keeps table (JSON_parse r).
Proof. unfold JSON_parse. destruct (snd r); intros w; reflexivity. Qed.

Lemma keeps_run_sql (f : DB -> DB) :
  (forall d, table (f d) = table d) -> keeps table (run_sql f).
Proof. intros H w. simpl. apply H. Qed.

Lemma keeps_for_each {A} (body : A -> M unit) (l : list A) :
  (forall x, keeps table (body x)) -> keeps table (SubAIAgent.for_each body l).
Proof.
  intros H. induction l as [|x l IH]; simpl; [apply keeps_ret|].
  apply keeps_bind; [apply H|intros _; exact IH].
Qed.

Lemma keeps_insert_progress_update
    (update_id : string) (taskId : Z) (x y z : string) (p : SqlVal) :
  (forall f d, table (set_updates f d) = table d) ->
  keeps table (insert_progress_update update_id taskId x y z p).
Proof.
  intros H. unfold insert_progress_update.
  apply keeps_bind; [apply keeps_get_db|intros d].
  apply keeps_bind; [apply keeps_foreign_key|intros _].
  apply keeps_bind; [apply keeps_now|intros now].
  apply keeps_run_sql. intros; apply H.
Qed.

End Frame.

Ltac frame :=
  repeat first
    [ apply keeps_ret | apply keeps_throw | apply keeps_lift | apply keeps_get_db
    | apply keeps_now | apply keeps_uuidv4 | apply keeps_foreign_key
    | apply keeps_messages_create | apply keeps_JSON_parse
    | apply keeps_run_sql; intros; reflexivity
    | apply keeps_bind; [|intros]
    | apply keeps_try_catch; [|intros] ].

(** ** [getTaskStatus] *)

Lemma insert_desc_perm (u : ProgressUpdate) (l : list ProgressUpdate) :
  Permutation (u :: l) (AtlantisAI.insert_desc u l).
Proof.
  induction l as [|v l IH]; simpl; [reflexivity|].
  destruct (pu_created_at v <=? pu_created_at u)%nat; [reflexivity|].
  rewrite perm_swap. now constructor.
Qed.

Lemma insert_desc_sorted (u : ProgressUpdate) (l : list ProgressUpdate) :
  StronglySorted newest_first l ->
  StronglySorted newest_first (AtlantisAI.insert_desc u l).
Proof.
  induction 1 as [|v l Hl IH Hv]; simpl.
  - constructor; constructor.
  - destruct (pu_created_at v <=? pu_created_at u)%nat eqn:E.
    + apply Nat.leb_le in E. constructor.
      * now constructor.
      * constructor; [exact E|].
        eapply Forall_impl; [|exact Hv].
        unfold newest_first. intros x Hx. lia.
    + apply Nat.leb_gt in E. constructor; [exact IH|].
      eapply Permutation_Forall; [apply insert_desc_perm|].
      constructor; [unfold newest_first; lia|exact Hv].
Qed.

Lemma order_by_created_at_desc_perm (l : list ProgressUpdate) :
  Permutation l (AtlantisAI.order_by_created_at_desc l).
Proof.
  induction l as [|u l IH]; simpl; [constructor|].
  etransitivity; [|apply insert_desc_perm]. now constructor.
Qed.

Lemma order_by_created_at_desc_sorted (l : list ProgressUpdate) :
  StronglySorted newest_first (AtlantisAI.order_by_created_at_desc l).
Proof.
  induction l as [|u l IH]; simpl; [constructor|].
  now apply insert_desc_sorted.
Qed.

Lemma assignments_of_task_In (taskId : Z) (d : DB) (ta : Assignment) (sa : Agent) :
  In (ta, sa) (AtlantisAI.assignments_of_task taskId d) <->
  In ta (task_assignments d) /\ In sa (sub_ai_agents d) /\
  ta_task_id ta = taskId /\ ta_agent_id ta = sa_id sa.
Proof.
  unfold AtlantisAI.assignments_of_task. rewrite in_flat_map. split.
  - intros (a & Ha & Hin). apply filter_In in Ha as [Ha Et].
    apply in_map_iff in Hin as (s & E & Hs). inversion E; subst.
    apply filter_In in Hs as [Hs Ea].
    apply Z.eqb_eq in Et, Ea. tauto.
  - intros (Ha & Hs & Et & Ea). exists ta. split.
    + apply filter_In. split; [assumption|now apply Z.eqb_eq].
    + apply in_map. apply filter_In. split; [assumption|now apply Z.eqb_eq].
Qed.

(** C8.  [getTaskStatus] is a function of the store: it never throws.  For a
    [taskId] that no row of [tasks] carries it returns
    [{error: 'Task not found'}].  For a known [taskId] it returns the first
    such task, its assignments each joined with the name and specialization of
    its agent, and exactly the progress updates of the task, newest first. *)
Theorem getTaskStatus_join (taskId : string) (d : DB) :
  ((forall t, In t (tbl_tasks d) -> t_task_id t <> taskId) ->
   AtlantisAI.getTaskStatus taskId d = AtlantisAI.status_error "Task not found")
  /\
  (forall task,
     find (fun t => (t_task_id t =? taskId)%string) (tbl_tasks d) = Some task ->
     exists assignments updates,
       AtlantisAI.getTaskStatus taskId d
         = AtlantisAI.status_of task assignments updates
       /\ In task (tbl_tasks d) /\ t_task_id task = taskId
       /\ (forall r, In r assignments <->
             exists ta sa,
               In ta (task_assignments d) /\ In sa (sub_ai_agents d)
               /\ ta_task_id ta = t_id task /\ ta_agent_id ta = sa_id sa
               /\ r = {| AtlantisAI.row := ta;
                         AtlantisAI.agent_name := sa_name sa;
                         AtlantisAI.specialization := sa_specialization sa |})
       /\ Permutation
            (filter (fun u => pu_task_id u =? t_id task) (progress_updates d))
            updates
       /\ StronglySorted newest_first updates).
Proof.
  split.
  - intros Hno. unfold AtlantisAI.getTaskStatus.
    destruct (find _ (tbl_tasks d)) as [t|] eqn:F; [|reflexivity].
    apply find_some in F as [Hin E]. apply String.eqb_eq in E.
    now destruct (Hno t Hin).
  - intros task F. unfold AtlantisAI.getTaskStatus. rewrite F.
    do 2 eexists. split; [reflexivity|].
    pose proof (find_some _ _ F) as [Hin E]. apply String.eqb_eq in E.
    repeat split; try assumption.
    + intros Hr. apply in_map_iff in Hr as ([ta sa] & <- & Hp).
      apply assignments_of_task_In in Hp. exists ta, sa. simpl. tauto.
    + intros (ta & sa & Ha & Hs & Et & Ea & ->).
      apply in_map_iff. exists (ta, sa). split; [reflexivity|].
      apply assignments_of_task_In. tauto.
    + apply order_by_created_at_desc_perm.
    + apply order_by_created_at_desc_sorted.
Qed.

Lemma getTaskStatus_join_witness :
  AtlantisAI.getTaskStatus "nonexistent" seeded
  = AtlantisAI.status_error "Task not found".
Proof.
  apply (proj1 (getTaskStatus_join "nonexistent" seeded)).
  intros t Hin. vm_compute in Hin. destruct Hin.
Defined.

(** ** [receiveTask]: required fields *)

Lemma bind_value_present (v : JsVal) (s : string) :
  bind_value v = inr (Some s) -> ~ missing v.
Proof. destruct v; simpl; intros E [H|H]; discriminate. Qed.

Lemma bind_id_present (v : JsId) (n : Z) :
  bind_id v = inr (Some n) -> ~ missing_id v.
Proof. destruct v; simpl; intros E [H|H]; discriminate. Qed.

(** C4.  When [title] or [userId] is missing from the input, [receiveTask]
    returns the failure envelope [{success: false, error}] to its caller and
    the store is left as it was: no row of [tasks] (nor of any other table)
    is written. *)
Theorem receiveTask_missing_required_field
    (taskInput : AtlantisAI.TaskInput) (w : World) :
  missing (AtlantisAI.title taskInput) \/ missing_id (AtlantisAI.userId taskInput) ->
  exists error w',
    AtlantisAI.receiveTask taskInput w
      = Returns (AtlantisAI.envelope_failure error) w'
    /\ db w' = db w.
Proof.
  intros Hmissing.
  unfold AtlantisAI.receiveTask, try_catch, AtlantisAI.createTask.
  unfold bind at 1 2 3 4 5. unfold uuidv4 at 1. unfold bind at 1.
  destruct (bind_id (AtlantisAI.userId taskInput)) as [e|user_id] eqn:Hu;
    [simpl; eauto|].
  simpl (lift _ _). cbv beta iota. unfold bind at 1.
  destruct (bind_value (AtlantisAI.title taskInput)) as [e|title] eqn:Ht;
    [simpl; eauto|].
  simpl (lift _ _). cbv beta iota. unfold bind at 1.
  destruct (bind_value (js_or (AtlantisAI.description taskInput) (JStr "")));
    [simpl; eauto|].
  simpl (lift _ _). cbv beta iota. unfold bind at 1.
  destruct (bind_value (js_or (AtlantisAI.timeline taskInput) (JStr "")));
    [simpl; eauto|].
  simpl (lift _ _). cbv beta iota. unfold bind at 1.
  destruct (bind_value (js_or (AtlantisAI.desiredOutcomes taskInput) (JStr "")));
    [simpl; eauto|].
  simpl (lift _ _). cbv beta iota. unfold bind at 1.
  destruct (bind_value (js_or (AtlantisAI.priority taskInput) (JStr "normal")));
    [simpl; eauto|].
  simpl (lift _ _). cbv beta iota. unfold bind at 1.
  destruct user_id as [n|]; [|simpl; eauto].
  simpl (lift _ _). cbv beta iota. unfold bind at 1.
  destruct title as [s|]; [|simpl; eauto].
  exfalso. destruct Hmissing as [H|H].
  - exact (bind_value_present _ _ Ht H).
  - exact (bind_id_present _ _ Hu H).
Qed.

Lemma receiveTask_missing_required_field_witness :
  missing (AtlantisAI.title untitled)
  /\ exists error w',
       AtlantisAI.receiveTask untitled (start seeded unreachable)
         = Returns (AtlantisAI.envelope_failure error) w'
       /\ db w' = db (start seeded unreachable).
Proof.
  split; [left; reflexivity|].
  apply (receiveTask_missing_required_field untitled (start seeded unreachable)).
  left. left. reflexivity.
Defined.

(** ** [monitorProgress] *)

Lemma update_status_ids (id : Z) (status : string) (now : nat) (fin : bool) (d : DB) :
  map t_id (tbl_tasks (AtlantisAI.update_status id status now fin d))
  = map t_id (tbl_tasks d).
Proof.
  unfold AtlantisAI.update_status; simpl. rewrite map_map. apply map_ext.
  intros t. now destruct (t_id t =? id).
Qed.

Lemma update_status_hit (id : Z) (status : string) (now : nat) (d : DB) (t : Task) :
  In t (tbl_tasks (AtlantisAI.update_status id status now true d)) ->
  t_id t = id -> t_status t = status /\ t_completed_at t = Some now.
Proof.
  unfold AtlantisAI.update_status; simpl. intros H E.
  apply in_map_iff in H as (t0 & <- & _).
  destruct (t_id t0 =? id) eqn:E0; simpl in *; [tauto|].
  apply Z.eqb_neq in E0. contradiction.
Qed.

Lemma update_status_miss (id : Z) (status : string) (now : nat) (fin : bool)
    (d : DB) (t : Task) :
  In t (tbl_tasks d) -> t_id t <> id ->
  In t (tbl_tasks (AtlantisAI.update_status id status now fin d)).
Proof.
  unfold AtlantisAI.update_status; simpl. intros H E.
  apply in_map_iff. exists t. split; [|assumption].
  apply Z.eqb_neq in E. now rewrite E.
Qed.

Lemma finalizeTask_returns (taskId : Z) (w : World) :
  In taskId (map t_id (tbl_tasks (db w))) ->
  exists u,
    AtlantisAI.finalizeTask taskId w
    = Returns tt
        (logged u (with_db (AtlantisAI.update_status taskId "completed" (clock w) true) w))
    /\ pu_task_id u = taskId /\ pu_progress_percentage u = SInt 100.
Proof.
  intros H. unfold AtlantisAI.finalizeTask.
  erewrite bind_returns by reflexivity.
  erewrite bind_returns by reflexivity.
  rewrite addProgressUpdate_returns.
  - eexists. split; [reflexivity|]. split; reflexivity.
  - unfold with_db. cbn [db]. now rewrite update_status_ids.
Qed.

Lemma monitorProgress_returns (taskId : Z) (w : World) :
  In taskId (map t_id (tbl_tasks (db w))) ->
  exists w',
    AtlantisAI.monitorProgress taskId w
    = Returns {| AtlantisAI.completed := completed_of taskId (db w);
                 AtlantisAI.total := total_of taskId (db w);
                 AtlantisAI.progress :=
                   if (0 <? total_of taskId (db w))%nat
                   then percentage (completed_of taskId (db w)) (total_of taskId (db w))
                   else 0%float |} w'
    /\ task_assignments (db w') = task_assignments (db w)
    /\ sub_ai_agents (db w') = sub_ai_agents (db w)
    /\ map t_id (tbl_tasks (db w')) = map t_id (tbl_tasks (db w))
    /\ if all_completed taskId (db w) then
         (forall t, In t (tbl_tasks (db w')) -> t_id t = taskId ->
            t_status t = "completed" /\ t_completed_at t = Some (clock w))
         /\ (forall t, In t (tbl_tasks (db w)) -> t_id t <> taskId ->
               In t (tbl_tasks (db w')))
         /\ exists summary final,
              progress_updates (db w') = progress_updates (db w) ++ [summary; final]
              /\ pu_task_id final = taskId
              /\ pu_progress_percentage final = SInt 100
              /\ pu_task_id summary = taskId
              /\ pu_progress_percentage summary
                 = bind_number (percentage (completed_of taskId (db w))
                                           (total_of taskId (db w)))
       else
         tbl_tasks (db w') = tbl_tasks (db w)
         /\ exists summary,
              progress_updates (db w') = progress_updates (db w) ++ [summary]
              /\ pu_task_id summary = taskId
              /\ pu_progress_percentage summary
                 = bind_number
                     (if (0 <? total_of taskId (db w))%nat
                      then percentage (completed_of taskId (db w))
                                      (total_of taskId (db w))
                      else 0%float).
Proof.
  intros H. unfold AtlantisAI.monitorProgress.
  erewrite bind_returns by reflexivity.
  fold (completed_of taskId (db w)). fold (total_of taskId (db w)).
  erewrite bind_returns by (apply addProgressUpdate_returns; exact H).
  fold (all_completed taskId (db w)).
  destruct (all_completed taskId (db w)) eqn:Hall.
  - assert ((0 <? total_of taskId (db w))%nat = true) as Hpos
      by (unfold all_completed in Hall; now apply andb_prop in Hall).
    rewrite Hpos.
    unfold bind at 1. cbv beta iota.
    match goal with |- context [AtlantisAI.finalizeTask taskId ?w1] =>
      destruct (finalizeTask_returns taskId w1) as (u & E & Hu1 & Hu2); [exact H|]
    end.
    rewrite E. unfold ret.
    eexists. split; [reflexivity|]. unfold logged. store_simpl.
    repeat split.
    + now rewrite update_status_ids.
    + eapply update_status_hit; eassumption.
    + eapply update_status_hit; eassumption.
    + intros t Ht Hne. now apply update_status_miss.
    + unfold AtlantisAI.update_status. store_simpl.
      do 2 eexists. rewrite <- app_assoc. simpl. split; [reflexivity|].
      repeat split; assumption.
  - unfold bind at 1. cbv beta iota. unfold ret.
    eexists. split; [reflexivity|]. simpl. repeat split. eexists.
    repeat split; reflexivity.
Qed.

Lemma assignments_of_task_ext (taskId : Z) (d d' : DB) :
  task_assignments d' = task_assignments d ->
  sub_ai_agents d' = sub_ai_agents d ->
  AtlantisAI.assignments_of_task taskId d' = AtlantisAI.assignments_of_task taskId d.
Proof. unfold AtlantisAI.assignments_of_task. now intros -> ->. Qed.

Lemma all_completed_ext (taskId : Z) (d d' : DB) :
  task_assignments d' = task_assignments d ->
  sub_ai_agents d' = sub_ai_agents d ->
  all_completed taskId d' = all_completed taskId d.
Proof.
  intros Ha Hs. unfold all_completed, completed_of, total_of.
  now rewrite (assignments_of_task_ext taskId d d' Ha Hs).
Qed.

Lemma total_of_ext (taskId : Z) (d d' : DB) :
  task_assignments d' = task_assignments d ->
  sub_ai_agents d' = sub_ai_agents d ->
  total_of taskId d' = total_of taskId d.
Proof.
  intros Ha Hs. unfold total_of.
  now rewrite (assignments_of_task_ext taskId d d' Ha Hs).
Qed.

Lemma monitor_again_completed (ticks : list nat) (taskId : Z) (w : World) :
  In taskId (map t_id (tbl_tasks (db w))) ->
  all_completed taskId (db w) = true ->
  exists p w',
    monitor_again ticks taskId w = Returns p w'
    /\ AtlantisAI.completed p = total_of taskId (db w)
    /\ AtlantisAI.total p = total_of taskId (db w)
    /\ In taskId (map t_id (tbl_tasks (db w')))
    /\ (forall t, In t (tbl_tasks (db w')) -> t_id t = taskId ->
          t_status t = "completed").
Proof.
  revert w. induction ticks as [|seconds ticks IH]; intros w Hk Hall.
  - destruct (monitorProgress_returns taskId w Hk) as (w' & E & _ & _ & Hids & Hpost).
    rewrite Hall in Hpost. destruct Hpost as (Hhit & _).
    simpl. rewrite E. do 2 eexists. split; [reflexivity|]. simpl.
    unfold all_completed in Hall. apply andb_prop in Hall as [H1 H2].
    apply Nat.eqb_eq in H1.
    repeat split; try assumption.
    + now rewrite Hids.
    + intros t Ht Et. now apply Hhit.
  - destruct (monitorProgress_returns taskId w Hk) as (w' & E & Ha & Hs & Hids & _).
    simpl. erewrite bind_returns by exact E.
    erewrite bind_returns by reflexivity.
    match goal with |- context [monitor_again ticks taskId ?w1] =>
      destruct (IH w1) as (p & w2 & E2 & Hc & Ht & Hin & Hst)
    end.
    + cbn [db]. now rewrite Hids.
    + cbn [db]. now rewrite (all_completed_ext taskId (db w) (db w') Ha Hs).
    + cbn [db] in Hc, Ht. rewrite (total_of_ext taskId (db w) (db w') Ha Hs) in Hc, Ht.
      exists p, w2. repeat split; assumption.
Qed.

Lemma join_rows (agents : list Agent) (rows : list Assignment) :
  (forall ta, In ta rows ->
     List.length (filter (fun sa => ta_agent_id ta =? sa_id sa) agents) = 1%nat) ->
  map fst (flat_map (fun ta => map (pair ta)
                                   (filter (fun sa => ta_agent_id ta =? sa_id sa) agents))
                    rows)
  = rows.
Proof.
  induction rows as [|ta rows IH]; intros H; [reflexivity|].
  cbn [flat_map]. rewrite map_app, IH by (intros; apply H; now right).
  specialize (H ta (or_introl eq_refl)).
  destruct (filter (fun sa => ta_agent_id ta =? sa_id sa) agents) as [|sa [|? ?]];
    try discriminate.
  reflexivity.
Qed.

Lemma length_filter_fst {A B} (p : A -> bool) (l : list (A * B)) :
  List.length (filter (fun x => p (fst x)) l) = List.length (filter p (map fst l)).
Proof.
  induction l as [|x l IH]; [reflexivity|]. cbn [filter map].
  destruct (p (fst x)); cbn [List.length]; now rewrite IH.
Qed.

(** With one agent row per assignment, the query of [monitorProgress] yields
    the assignment rows of the task. *)
Lemma assignments_of_task_rows (taskId : Z) (d : DB) :
  one_agent_each d = true ->
  total_of taskId d = assignments_count taskId d
  /\ completed_of taskId d = completed_count taskId d.
Proof.
  intros H. unfold one_agent_each in H. rewrite forallb_forall in H.
  assert (map fst (AtlantisAI.assignments_of_task taskId d)
          = filter (fun ta => ta_task_id ta =? taskId) (task_assignments d)) as E.
  { apply join_rows. intros ta Hin. apply filter_In in Hin as [Hin _].
    apply Nat.eqb_eq. now apply H. }
  unfold total_of, completed_of, assignments_count, completed_count. split.
  - now rewrite <- E, length_map.
  - rewrite <- E. apply (length_filter_fst (fun ta => (ta_status ta =? "completed")%string)).
Qed.

(** C3.  For a task of the store ([completed] and [total] count its
    assignment rows, each with its one agent row), [monitorProgress] returns
    [{completed, total, progress}] and appends the summary update with the
    percentage.  It finalizes the task (status ['completed'], [completed_at]
    stamped, a second update of 100 percent) exactly when
    [completed === total && total > 0]; otherwise the [tasks] table is left
    as it was and the summary is the only new update.  Once all assignments
    of the task are completed ([total > 0]), the call can be repeated any
    number of times, at any later time: each call returns, observes
    [completed = total], and the task is still ['completed']. *)
Theorem monitorProgress_finalizes_once_all_completed (taskId : Z) (w : World) :
  In taskId (map t_id (tbl_tasks (db w))) ->
  one_agent_each (db w) = true ->
  let completed := completed_count taskId (db w) in
  let total := assignments_count taskId (db w) in
  let progress := if (0 <? total)%nat then percentage completed total else 0%float in
  (exists w',
     AtlantisAI.monitorProgress taskId w
     = Returns {| AtlantisAI.completed := completed; AtlantisAI.total := total;
                  AtlantisAI.progress := progress |} w'
     /\ map t_id (tbl_tasks (db w')) = map t_id (tbl_tasks (db w))
     /\ task_assignments (db w') = task_assignments (db w)
     /\ if ((completed =? total)%nat && (0 <? total)%nat)%bool then
          (forall t, In t (tbl_tasks (db w')) -> t_id t = taskId ->
             t_status t = "completed" /\ t_completed_at t = Some (clock w))
          /\ (forall t, In t (tbl_tasks (db w)) -> t_id t <> taskId ->
                In t (tbl_tasks (db w')))
          /\ exists summary final,
               progress_updates (db w') = progress_updates (db w) ++ [summary; final]
               /\ pu_task_id final = taskId
               /\ pu_progress_percentage final = SInt 100
               /\ pu_task_id summary = taskId
               /\ pu_progress_percentage summary = bind_number progress
        else
          tbl_tasks (db w') = tbl_tasks (db w)
          /\ exists summary,
               progress_updates (db w') = progress_updates (db w) ++ [summary]
               /\ pu_task_id summary = taskId
               /\ pu_progress_percentage summary = bind_number progress)
  /\
  (completed = total -> (0 < total)%nat ->
   forall ticks,
   exists p w',
     monitor_again ticks taskId w = Returns p w'
     /\ AtlantisAI.completed p = total
     /\ AtlantisAI.total p = total
     /\ (forall t, In t (tbl_tasks (db w')) -> t_id t = taskId ->
           t_status t = "completed")).
Proof.
  intros Hk Hone. cbv zeta.
  destruct (assignments_of_task_rows taskId (db w) Hone) as [Et Ec].
  assert (all_completed taskId (db w)
          = ((completed_count taskId (db w) =? assignments_count taskId (db w))%nat
             && (0 <? assignments_count taskId (db w))%nat)%bool) as Eall
    by (unfold all_completed; now rewrite Et, Ec).
  split.
  - destruct (monitorProgress_returns taskId w Hk) as (w' & E & Ha & _ & Hids & Hpost).
    rewrite Et, Ec in E. exists w'. split; [exact E|]. split; [exact Hids|].
    split; [exact Ha|].
    rewrite Eall, Et, Ec in Hpost.
    destruct ((completed_count taskId (db w) =? assignments_count taskId (db w))%nat
              && (0 <? assignments_count taskId (db w))%nat)%bool eqn:Hx.
    + apply andb_prop in Hx as [_ Hpos]. rewrite Hpos. exact Hpost.
    + exact Hpost.
  - intros Hc Ht ticks.
    assert (all_completed taskId (db w) = true) as Hall.
    { rewrite Eall, Hc, Nat.eqb_refl. now apply Nat.ltb_lt. }
    destruct (monitor_again_completed ticks taskId w Hk Hall)
      as (p & w' & E & Hp & Hpt & _ & Hs).
    rewrite Et in Hp, Hpt.
    exists p, w'. repeat split; assumption.
Qed.

(** ** [receiveTask]: delegation *)

Lemma assigned_agents_cons (d : DB) (workPackage : WorkPackage)
    (todo : list WorkPackage) :
  assigned_agents d (workPackage :: todo)
  = match assigned_agent d workPackage with
    | Some agent => [agent]
    | None => []
    end ++ assigned_agents d todo.
Proof. reflexivity. Qed.

Lemma assigned_agents_ext (d d' : DB) (todo : list WorkPackage) :
  sub_ai_agents d' = sub_ai_agents d ->
  assigned_agents d' todo = assigned_agents d todo.
Proof.
  intros E. unfold assigned_agents, assigned_agent, agent_by_agent_id. now rewrite E.
Qed.

Lemma add_to_load_0 (a : Agent) : add_to_load 0 a = a.
Proof. destruct a. unfold add_to_load. simpl. f_equal. lia. Qed.

Lemma add_to_load_add (x y : Z) (a : Agent) :
  add_to_load x (add_to_load y a) = add_to_load (y + x) a.
Proof. unfold add_to_load. simpl. f_equal. lia. Qed.

Lemma find_map_load (agent_id : string) (g : Agent -> Z) (l : list Agent) :
  find (fun a => (sa_agent_id a =? agent_id)%string)
       (map (fun a => add_to_load (g a) a) l)
  = option_map (fun a => add_to_load (g a) a)
      (find (fun a => (sa_agent_id a =? agent_id)%string) l).
Proof.
  induction l as [|a l IH]; simpl; [reflexivity|].
  destruct (sa_agent_id a =? agent_id)%string; [reflexivity|exact IH].
Qed.

Lemma assigned_agents_same (d d' : DB) (todo : list WorkPackage) :
  same_agents (sub_ai_agents d) (sub_ai_agents d') ->
  map sa_id (assigned_agents d' todo) = map sa_id (assigned_agents d todo)
  /\ map sa_name (assigned_agents d' todo) = map sa_name (assigned_agents d todo).
Proof.
  intros (g & E). induction todo as [|wp todo [IH1 IH2]]; simpl; [split; reflexivity|].
  rewrite !map_app, IH1, IH2. unfold assigned_agent, agent_by_agent_id.
  destruct (wp_assignedTo wp); try (split; reflexivity).
  rewrite E, find_map_load.
  destruct (find _ (sub_ai_agents d)); split; reflexivity.
Qed.

Lemma loads_after_cons (i : Z) (ids : list Z) (agents : list Agent) :
  loads_after ids (map (fun a => if sa_id a =? i then add_to_load 1 a else a) agents)
  = loads_after (i :: ids) agents.
Proof.
  unfold loads_after. rewrite map_map. apply map_ext. intros a.
  simpl count_occ. destruct (Z.eq_dec i (sa_id a)) as [->|Hne].
  - rewrite Z.eqb_refl, add_to_load_add. f_equal.
    cbn [sa_id add_to_load]. lia.
  - assert ((sa_id a =? i) = false) as -> by (apply Z.eqb_neq; congruence).
    reflexivity.
Qed.

Lemma delegate_returns
    (task : AtlantisAI.TaskObject) (todo : list WorkPackage)
    (acc : list AtlantisAI.AssignmentInfo) (w : World) :
  In (AtlantisAI.id_ task) (map t_id (tbl_tasks (db w))) ->
  forallb well_formed todo = true ->
  exists infos rows w',
    AtlantisAI.delegate task todo acc w = Returns (acc ++ infos) w'
    /\ map AtlantisAI.agentName infos = map sa_name (assigned_agents (db w) todo)
    /\ tbl_tasks (db w') = tbl_tasks (db w)
    /\ task_assignments (db w') = task_assignments (db w) ++ rows
    /\ map ta_agent_id rows = map sa_id (assigned_agents (db w) todo)
    /\ Forall (fun r => ta_status r = "assigned"
                        /\ ta_task_id r = AtlantisAI.id_ task) rows
    /\ sub_ai_agents (db w')
       = loads_after (map sa_id (assigned_agents (db w) todo)) (sub_ai_agents (db w))
    /\ calls w' = calls w /\ claude w' = claude w /\ clock w' = clock w.
Proof.
  revert acc w. induction todo as [|wp todo IH]; intros acc w Hk Hwf.
  - exists [], [], w. simpl. rewrite !app_nil_r. unfold ret, loads_after.
    repeat split; try reflexivity; [constructor|].
    rewrite <- (map_id (sub_ai_agents (db w))) at 1. apply map_ext.
    intros a. simpl. now rewrite add_to_load_0.
  - simpl in Hwf. apply andb_prop in Hwf as [Hwp Hwf].
    unfold well_formed in Hwp. simpl AtlantisAI.delegate.
    destruct (wp_assignedTo wp) as [| |agent_id|] eqn:Eto; try discriminate.
    simpl (lift _). erewrite bind_returns by reflexivity.
    erewrite bind_returns by reflexivity.
    rewrite assigned_agents_cons. unfold assigned_agent. rewrite Eto.
    destruct (agent_by_agent_id agent_id (db w)) as [agent|] eqn:Eag.
    + erewrite bind_returns by reflexivity.
      assert (AtlantisAI.stringify_elements (wp_elements wp)
              = ret (wp_elements wp)) as Est
        by (destruct (wp_elements wp); [discriminate|reflexivity|reflexivity]).
      rewrite Est. erewrite bind_returns by reflexivity.
      unfold foreign_key at 1.
      assert (mem_id (AtlantisAI.id_ task) (map t_id (tbl_tasks (db w))) = true) as Hm
        by (now apply mem_id_In).
      store_simpl. rewrite Hm.
      erewrite bind_returns by reflexivity.
      erewrite bind_returns by reflexivity.
      erewrite bind_returns by reflexivity.
      erewrite bind_returns by reflexivity.
      erewrite bind_returns by (apply addProgressUpdate_returns; exact Hk).
      match goal with |- context [AtlantisAI.delegate task todo ?acc1 ?w1] =>
        destruct (IH acc1 w1) as
          (infos & rows & w' & E & Hn & Ht & Ha & Hi & Hr & Hl & Hc1 & Hc2 & Hc3);
          [exact Hk|exact Hwf|]
      end.
      unfold logged in *. store_simpl. unfold add_load in *. store_simpl.
      match type of Hl with _ = loads_after _ (map ?f (sub_ai_agents (db w))) =>
        assert (same_agents (sub_ai_agents (db w)) (map f (sub_ai_agents (db w))))
          as Hsame
      end.
      { exists (fun a => if sa_id a =? sa_id agent then 1 else 0).
        apply map_ext. intros a. destruct (sa_id a =? sa_id agent);
          [reflexivity|now rewrite add_to_load_0]. }
      match type of Hn with _ = map sa_name (assigned_agents ?d1 todo) =>
        destruct (assigned_agents_same (db w) d1 todo Hsame) as [Hids Hnames]
      end.
      eexists (_ :: infos), (_ :: rows), w'. rewrite <- app_assoc in E.
      split; [exact E|].
      cbn [map app AtlantisAI.agentName ta_agent_id].
      rewrite Hn, Ht, Ha, Hi, Hl, Hids, Hnames, loads_after_cons, <- app_assoc.
      repeat split; try assumption.
      constructor; [split; reflexivity|assumption].
    + destruct (IH acc w Hk Hwf) as
        (infos & rows & w' & E & Hn & Ht & Ha & Hi & Hr & Hl & Hc).
      exists infos, rows, w'. repeat split; try assumption; tauto.
Qed.

Lemma bindable_bind (v : JsVal) :
  bindable v = true -> exists s, bind_value v = inr s.
Proof. destruct v; simpl; try discriminate; eauto. Qed.

Lemma createTask_returns (taskInput : AtlantisAI.TaskInput) (w : World) :
  accepted taskInput (db w) = true ->
  exists t,
    AtlantisAI.createTask taskInput w
    = Returns {| AtlantisAI.id_ := next_rowid (map t_id (tbl_tasks (db w)));
                 AtlantisAI.task_id := ("task-" ++ string_of_nat (uuids w))%string;
                 AtlantisAI.input := taskInput |}
        {| db := set_tasks (fun rows => rows ++ [t]) (db w); clock := clock w;
           uuids := S (uuids w); claude := claude w; calls := calls w |}
    /\ t_id t = next_rowid (map t_id (tbl_tasks (db w)))
    /\ t_task_id t = ("task-" ++ string_of_nat (uuids w))%string
    /\ t_status t = "pending".
Proof.
  unfold accepted. intros H.
  destruct (AtlantisAI.userId taskInput) as [| |user_id] eqn:Eu; try discriminate.
  destruct (AtlantisAI.title taskInput) as [| |title|] eqn:Et; try discriminate.
  apply andb_prop in H as [H Hp]. apply andb_prop in H as [H Ho].
  apply andb_prop in H as [H Hl]. apply andb_prop in H as [Hm Hd].
  destruct (bindable_bind _ Hd) as (d' & Ed). destruct (bindable_bind _ Hl) as (l' & El).
  destruct (bindable_bind _ Ho) as (o' & Eo). destruct (bindable_bind _ Hp) as (p' & Ep).
  unfold AtlantisAI.createTask.
  erewrite bind_returns by reflexivity.
  rewrite Eu, Et, Ed, El, Eo, Ep. simpl (lift _).
  repeat (erewrite bind_returns by reflexivity).
  unfold foreign_key. store_simpl. rewrite Hm.
  repeat (erewrite bind_returns by reflexivity).
  eexists. split; [reflexivity|]. repeat split.
Qed.

Lemma understandIntent_returns (task : AtlantisAI.TaskObject) (w : World) :
  exists w',
    AtlantisAI.understandIntent task w
    = Returns (understanding_of (AtlantisAI.input task) (claude w (calls w))) w'
    /\ calls w' = S (calls w) /\ claude w' = claude w
    /\ uuids w' = uuids w /\ clock w' = clock w
    /\ (db w' = db w
        \/ exists text, db w' = AtlantisAI.update_intent (AtlantisAI.id_ task) text (db w)).
Proof.
  unfold AtlantisAI.understandIntent, try_catch, bind, messages_create, JSON_parse.
  destruct (claude w (calls w)) as [m|text [j|]]; simpl;
    eexists; (split; [reflexivity|]); simpl; repeat split; eauto.
Qed.

Lemma createProjectPlan_returns
    (task : AtlantisAI.TaskObject) (u : AtlantisAI.Understanding) (w : World) :
  In (AtlantisAI.id_ task) (map t_id (tbl_tasks (db w))) ->
  exists w',
    AtlantisAI.createProjectPlan task u w = Returns (plan_of (claude w (calls w))) w'
    /\ calls w' = S (calls w) /\ claude w' = claude w /\ clock w' = clock w
    /\ users (db w') = users (db w)
    /\ tbl_tasks (db w') = tbl_tasks (db w)
    /\ sub_ai_agents (db w') = sub_ai_agents (db w)
    /\ task_assignments (db w') = task_assignments (db w)
    /\ progress_updates (db w') = progress_updates (db w).
Proof.
  intros H. apply mem_id_In in H.
  unfold AtlantisAI.createProjectPlan, try_catch, bind, messages_create, JSON_parse,
    uuidv4, get_db, foreign_key, run_sql.
  destruct (claude w (calls w)) as [m|text [j|]]; simpl;
    try rewrite H; simpl; eexists; (split; [reflexivity|]); simpl; repeat split.
Qed.

Lemma delegateToSubAIs_returns
    (task : AtlantisAI.TaskObject) (plan : Json) (todo : list WorkPackage) (w : World) :
  workPackages plan = Some todo ->
  In (AtlantisAI.id_ task) (map t_id (tbl_tasks (db w))) ->
  forallb well_formed todo = true ->
  exists infos rows w',
    AtlantisAI.delegateToSubAIs task plan w = Returns infos w'
    /\ map AtlantisAI.agentName infos = map sa_name (assigned_agents (db w) todo)
    /\ tbl_tasks (db w')
       = tbl_tasks (AtlantisAI.update_status (AtlantisAI.id_ task) "in-progress"
                      (clock w) false (db w))
    /\ task_assignments (db w') = task_assignments (db w) ++ rows
    /\ map ta_agent_id rows = map sa_id (assigned_agents (db w) todo)
    /\ Forall (fun r => ta_status r = "assigned"
                        /\ ta_task_id r = AtlantisAI.id_ task) rows
    /\ sub_ai_agents (db w')
       = loads_after (map sa_id (assigned_agents (db w) todo)) (sub_ai_agents (db w))
    /\ clock w' = clock w.
Proof.
  intros Hp Hk Hwf. unfold AtlantisAI.delegateToSubAIs. rewrite Hp.
  destruct (delegate_returns task todo [] w Hk Hwf)
    as (infos & rows & w1 & E & Hn & Ht & Ha & Hi & Hr & Hl & _ & _ & Hc).
  erewrite bind_returns by exact E.
  erewrite bind_returns by reflexivity.
  erewrite bind_returns by reflexivity.
  exists infos, rows. eexists. split; [reflexivity|].
  unfold AtlantisAI.update_status. store_simpl. rewrite Hc, Ht.
  repeat split; assumption.
Qed.

Lemma not_all_completed (taskId : Z) (d : DB) :
  (forall a, In a (task_assignments d) -> ta_task_id a = taskId ->
     ta_status a = "assigned") ->
  all_completed taskId d = false.
Proof.
  intros H. unfold all_completed, completed_of.
  rewrite length_filter_none.
  - destruct (total_of taskId d); reflexivity.
  - intros [ta sa] Hin. apply assignments_of_task_In in Hin as (Ha & _ & Et & _).
    simpl. now rewrite (H ta Ha Et).
Qed.

(** [receiveTask] on an accepted input, whatever the two reasoning calls
    answer, as long as the plan is a list of well-formed packages. *)
Lemma receiveTask_delegates
    (taskInput : AtlantisAI.TaskInput) (w : World) (todo : list WorkPackage) :
  accepted taskInput (db w) = true ->
  assignments_reference_tasks (db w) = true ->
  workPackages (plan_of (claude w (S (calls w)))) = Some todo ->
  forallb well_formed todo = true ->
  exists infos t rows w',
    AtlantisAI.receiveTask taskInput w
    = Returns
        (AtlantisAI.envelope_success
           ("task-" ++ string_of_nat (uuids w))%string
           (understanding_of taskInput (claude w (calls w)))
           (plan_of (claude w (S (calls w))))
           infos "Task received and processing initiated") w'
    /\ map AtlantisAI.agentName infos = map sa_name (assigned_agents (db w) todo)
    /\ tbl_tasks (db w') = tbl_tasks (db w) ++ [t]
    /\ t_task_id t = ("task-" ++ string_of_nat (uuids w))%string
    /\ t_status t = "in-progress"
    /\ task_assignments (db w') = task_assignments (db w) ++ rows
    /\ map ta_agent_id rows = map sa_id (assigned_agents (db w) todo)
    /\ Forall (fun r => ta_status r = "assigned" /\ ta_task_id r = t_id t) rows
    /\ sub_ai_agents (db w')
       = loads_after (map sa_id (assigned_agents (db w) todo)) (sub_ai_agents (db w)).
Proof.
  intros Hacc Href Hplan Hwf.
  destruct (createTask_returns taskInput w Hacc) as (t0 & E0 & Hid0 & Htid0 & _).
  set (nid := next_rowid (map t_id (tbl_tasks (db w)))) in *.
  set (task := {| AtlantisAI.id_ := nid;
                  AtlantisAI.task_id := ("task-" ++ string_of_nat (uuids w))%string;
                  AtlantisAI.input := taskInput |}) in *.
  match type of E0 with _ = Returns _ ?w1 =>
    destruct (understandIntent_returns task w1) as (w2 & E1 & Hc1 & Hl1 & _ & Hk1 & Hdb1)
  end.
  store_simpl.
  assert (exists t1, tbl_tasks (db w2) = tbl_tasks (db w) ++ [t1]
                     /\ t_id t1 = nid /\ t_task_id t1 = t_task_id t0)
    as (t1 & Ht1 & Hid1 & Htid1).
  { destruct Hdb1 as [->|(text & ->)].
    - exists t0. store_simpl. tauto.
    - unfold AtlantisAI.update_intent. store_simpl.
      rewrite (map_update_fresh t_id _ nid (tbl_tasks (db w)) t0).
      + eexists. split; [reflexivity|]. simpl. tauto.
      + intros x Hx. apply next_rowid_fresh. now apply in_map.
      + exact Hid0. }
  assert (sub_ai_agents (db w2) = sub_ai_agents (db w)
          /\ task_assignments (db w2) = task_assignments (db w)) as [Hs2 Ha2].
  { destruct Hdb1 as [->|(text & ->)]; split; reflexivity. }
  assert (In nid (map t_id (tbl_tasks (db w2)))) as Hk2.
  { rewrite Ht1, map_app. apply in_or_app. right. simpl. now left. }
  destruct (createProjectPlan_returns task
              (understanding_of taskInput (claude w (calls w))) w2 Hk2)
    as (w3 & E2 & _ & _ & Hk3 & _ & Ht3 & Hs3 & Ha3 & _).
  rewrite Hl1, Hc1 in E2.
  assert (In nid (map t_id (tbl_tasks (db w3)))) as Hkn3 by (now rewrite Ht3).
  destruct (delegateToSubAIs_returns task _ todo w3 Hplan Hkn3 Hwf)
    as (infos & rows & w4 & E3 & Hn4 & Ht4 & Ha4 & Hi4 & Hr4 & Hl4 & Hk4).
  rewrite (assigned_agents_ext (db w) (db w3)) in Hn4, Hi4, Hl4
    by (now rewrite Hs3, Hs2).
  assert (tbl_tasks (db w4) = tbl_tasks (db w) ++
            [ {| t_id := t_id t1; t_task_id := t_task_id t1; t_user_id := t_user_id t1;
                 t_title := t_title t1; t_description := t_description t1;
                 t_intent := t_intent t1; t_timeline := t_timeline t1;
                 t_desired_outcomes := t_desired_outcomes t1;
                 t_available_resources := t_available_resources t1;
                 t_priority := t_priority t1; t_status := "in-progress";
                 t_created_at := t_created_at t1; t_updated_at := clock w3;
                 t_completed_at := t_completed_at t1 |} ]) as Ht4'.
  { rewrite Ht4. unfold AtlantisAI.update_status. store_simpl. rewrite Ht3, Ht1.
    cbn [AtlantisAI.id_ task].
    rewrite (map_update_fresh t_id _ nid (tbl_tasks (db w)) t1).
    - reflexivity.
    - intros x Hx. apply next_rowid_fresh. now apply in_map.
    - exact Hid1. }
  assert (In nid (map t_id (tbl_tasks (db w4)))) as Hkn4.
  { rewrite Ht4', map_app. apply in_or_app. right. simpl. now left. }
  destruct (monitorProgress_returns nid w4 Hkn4) as (w5 & E4 & Ha5 & Hs5 & _ & Hpost).
  rewrite not_all_completed in Hpost.
  2:{ intros a Hin Et. rewrite Ha4, Ha3, Ha2 in Hin. apply in_app_or in Hin as [Hin|Hin].
      - exfalso. unfold assignments_reference_tasks in Href.
        rewrite forallb_forall in Href. specialize (Href a Hin).
        apply mem_id_In in Href. apply next_rowid_fresh in Href. fold nid in Href. lia.
      - rewrite Forall_forall in Hr4. now apply Hr4. }
  destruct Hpost as [Ht5 _].
  unfold AtlantisAI.receiveTask, try_catch.
  erewrite bind_returns by exact E0.
  erewrite bind_returns by exact E1.
  erewrite bind_returns by exact E2.
  erewrite bind_returns by exact E3.
  unfold AtlantisAI.not_awaited at 1.
  erewrite bind_returns by (cbn [AtlantisAI.id_ task]; rewrite E4; reflexivity).
  unfold ret. cbn [AtlantisAI.task_id task].
  exists infos. eexists. exists rows, w5. split; [reflexivity|].
  rewrite Ht5, Ht4', Ha5, Ha4, Ha3, Ha2, Hs5, Hl4, Hs3, Hs2.
  cbn [t_task_id t_status t_id]. rewrite Htid1, Htid0, Hid1.
  repeat split; assumption.
Qed.

(** C5.  When every call of the reasoning client rejects, [receiveTask] of an
    accepted input (a title, the id of a registered user, a description) on a
    store whose registry has ['sub-ai-code'] returns the success envelope:
    the understanding is the fallback
    [{primaryIntent: description, complexity: 'Moderate',
      requiredExpertise: ['General']}], the plan is the basic plan, there is
    exactly one assignment, for the agent ['sub-ai-code'], and the one new
    row of [tasks] has status ['in-progress']. *)
Theorem receiveTask_falls_back
    (taskInput : AtlantisAI.TaskInput) (w : World) (agent : Agent) :
  accepted taskInput (db w) = true ->
  assignments_reference_tasks (db w) = true ->
  (forall n, exists message, claude w n = Rejects message) ->
  agent_by_agent_id "sub-ai-code" (db w) = Some agent ->
  exists taskId assignment t a w',
    AtlantisAI.receiveTask taskInput w
    = Returns
        (AtlantisAI.envelope_success taskId
           (AtlantisAI.understanding_basic (AtlantisAI.description taskInput)
              "Moderate" ["General"])
           AtlantisAI.basic_plan [assignment]
           "Task received and processing initiated") w'
    /\ AtlantisAI.agentName assignment = sa_name agent
    /\ tbl_tasks (db w') = tbl_tasks (db w) ++ [t]
    /\ t_task_id t = taskId
    /\ t_status t = "in-progress"
    /\ task_assignments (db w') = task_assignments (db w) ++ [a]
    /\ ta_task_id a = t_id t
    /\ ta_agent_id a = sa_id agent
    /\ ta_status a = "assigned".
Proof.
  intros Hacc Href Hfail Hag.
  destruct (Hfail (calls w)) as (m0 & E0). destruct (Hfail (S (calls w))) as (m1 & E1).
  destruct (receiveTask_delegates taskInput w
              [ {| wp_id := JStr "wp-1"; wp_name := JStr "Complete task";
                   wp_assignedTo := JStr "sub-ai-code";
                   wp_elements := ElemArray [JStr "Main implementation"] |} ]
              Hacc Href)
    as (infos & t & rows & w' & E & Hn & Ht & Htid & Hst & Ha & Hi & Hr & _).
  { rewrite E1. reflexivity. }
  { reflexivity. }
  rewrite E0, E1 in E. cbn [understanding_of plan_of] in E.
  unfold assigned_agents, assigned_agent in Hn, Hi.
  cbn [flat_map wp_assignedTo] in Hn, Hi.
  rewrite Hag in Hn, Hi. cbn [app map] in Hn, Hi.
  destruct infos as [|assignment [|? ?]]; try discriminate.
  destruct rows as [|a [|? ?]]; try discriminate.
  inversion Hn. inversion Hi. inversion Hr as [|? ? [Hs Htk] _]; subst.
  exists ("task-" ++ string_of_nat (uuids w))%string, assignment, t, a, w'.
  repeat split; assumption.
Qed.

Lemma receiveTask_falls_back_witness :
  exists envelope w',
    AtlantisAI.receiveTask build_api (start seeded unreachable)
    = Returns envelope w'
    /\ map t_status (tbl_tasks (db w')) = ["in-progress"]
    /\ List.length (task_assignments (db w')) = 1%nat.
Proof.
  destruct (receiveTask_falls_back build_api (start seeded unreachable) codeAgent)
    as (taskId & assignment & t & a & w' & E & _ & Ht & _ & Hst & Ha & _).
  - vm_compute. reflexivity.
  - vm_compute. reflexivity.
  - intros n. exists "Connection error.". reflexivity.
  - vm_compute. reflexivity.
  - assert (tbl_tasks (db (start seeded unreachable)) = []) as Ht0
      by (vm_compute; reflexivity).
    assert (task_assignments (db (start seeded unreachable)) = []) as Ha0
      by (vm_compute; reflexivity).
    do 2 eexists. split; [exact E|]. rewrite Ht, Ha, Ht0, Ha0.
    cbn [app map List.length]. rewrite Hst. split; reflexivity.
Defined.

(** C6.  On an accepted input and a plan of well-formed work packages,
    [receiveTask] returns the success envelope whatever agents the packages
    name: a package whose [assignedTo] is not in the registry is skipped and
    the packages after it are still delegated.  There is one assignment,
    in plan order, per package whose agent is registered, and each increments
    the [current_load] of its agent by one.  With three packages of which the
    second names an unknown agent, two assignments are made, for the agents
    of the first and the third, and each of the two has a load of one. *)
Theorem receiveTask_skips_unknown_agents :
  (forall (taskInput : AtlantisAI.TaskInput) (w : World) (text : string)
          (plan : Json) (todo : list WorkPackage),
      accepted taskInput (db w) = true ->
      assignments_reference_tasks (db w) = true ->
      claude w (S (calls w)) = Resolves text (Some plan) ->
      workPackages plan = Some todo ->
      forallb well_formed todo = true ->
      exists taskId understanding assignments rows w',
        AtlantisAI.receiveTask taskInput w
        = Returns
            (AtlantisAI.envelope_success taskId understanding plan assignments
               "Task received and processing initiated") w'
        /\ List.length assignments = List.length (assigned_agents (db w) todo)
        /\ map AtlantisAI.agentName assignments
           = map sa_name (assigned_agents (db w) todo)
        /\ task_assignments (db w') = task_assignments (db w) ++ rows
        /\ map ta_agent_id rows = map sa_id (assigned_agents (db w) todo)
        /\ Forall (fun r => ta_status r = "assigned") rows
        /\ sub_ai_agents (db w')
           = loads_after (map sa_id (assigned_agents (db w) todo))
                         (sub_ai_agents (db w)))
  /\
  delegation (AtlantisAI.receiveTask build_api (start seeded (planner three_packages)))
  = Some (["Code Architect"; "Quality Assurance"], [1; 3],
          [1; 0; 1; 0; 0; 0; 0; 0; 0; 0; 0; 0]).
Proof.
  split.
  - intros taskInput w text plan todo Hacc Href Hreply Hplan Hwf.
    destruct (receiveTask_delegates taskInput w todo Hacc Href)
      as (infos & t & rows & w' & E & Hn & _ & _ & _ & Ha & Hi & Hr & Hl).
    { rewrite Hreply. exact Hplan. }
    { exact Hwf. }
    rewrite Hreply in E. cbn [plan_of] in E.
    do 2 eexists. exists infos, rows, w'. split; [exact E|].
    repeat split; try assumption.
    + rewrite <- (length_map AtlantisAI.agentName infos), Hn. apply length_map.
    + eapply Forall_impl; [|exact Hr]. intros r [Hs _]. exact Hs.
  - vm_compute. reflexivity.
Qed.

Lemma receiveTask_skips_unknown_agents_witness :
  exists envelope w',
    AtlantisAI.receiveTask build_api (start seeded (planner three_packages))
    = Returns envelope w'
    /\ List.length (task_assignments (db w')) = 2%nat.
Proof.
  destruct (proj1 receiveTask_skips_unknown_agents build_api
              (start seeded (planner three_packages)) "{...}"
              {| workPackages := Some three_packages; tasks := None |}
              three_packages)
    as (taskId & u & infos & rows & w' & E & _ & _ & Ha & Hi & _).
  - vm_compute. reflexivity.
  - vm_compute. reflexivity.
  - reflexivity.
  - reflexivity.
  - vm_compute. reflexivity.
  - assert (task_assignments (db (start seeded (planner three_packages))) = []) as Ha0
      by (vm_compute; reflexivity).
    assert (List.length (assigned_agents (db (start seeded (planner three_packages)))
                           three_packages) = 2%nat) as Hn
      by (vm_compute; reflexivity).
    do 2 eexists. split; [exact E|].
    rewrite Ha, Ha0. cbn [app].
    rewrite <- (length_map ta_agent_id rows), Hi, length_map. exact Hn.
Defined.

Lemma monitorProgress_finalizes_once_all_completed_witness :
  exists p w',
    monitor_again [5%nat; 60%nat] 1 reported = Returns p w'
    /\ AtlantisAI.completed p = 1%nat /\ AtlantisAI.total p = 1%nat.
Proof.
  assert (Hk : In 1 (map t_id (tbl_tasks (db reported))))
    by (vm_compute; left; reflexivity).
  assert (Hone : one_agent_each (db reported) = true) by (vm_compute; reflexivity).
  assert (Hc : completed_count 1 (db reported) = 1%nat) by (vm_compute; reflexivity).
  assert (Ht : assignments_count 1 (db reported) = 1%nat) by (vm_compute; reflexivity).
  pose proof (monitorProgress_finalizes_once_all_completed 1 reported Hk Hone) as H.
  cbv zeta in H. destruct H as [_ H]. rewrite Hc, Ht in H.
  destruct (H eq_refl (le_n 1) [5%nat; 60%nat]) as (p & w' & E & Hp & Hpt & _).
  exists p, w'. repeat split; assumption.
Defined.

(** ** [createWorkBots] *)

Lemma create_returns
    (self : SubAIAgent.t) (a : Assignment) (agentRecord : Agent)
    (todo : list TaskSpec) (acc : list SubAIAgent.Bot) (w : World) :
  agent_by_agent_id (SubAIAgent.agentId self) (db w) = Some agentRecord ->
  In (ta_id a) (map ta_id (task_assignments (db w))) ->
  forallb creatable todo = true ->
  exists bots rows w',
    SubAIAgent.create self a todo acc w = Returns (acc ++ bots) w'
    /\ Forall2 (fun bot task => exists botId, bot = bot_of botId task) bots todo
    /\ work_bots (db w') = work_bots (db w) ++ rows
    /\ Forall2 (created a agentRecord) bots rows
    /\ task_assignments (db w') = task_assignments (db w)
    /\ sub_ai_agents (db w') = sub_ai_agents (db w)
    /\ tbl_tasks (db w') = tbl_tasks (db w)
    /\ progress_updates (db w') = progress_updates (db w)
    /\ calls w' = calls w /\ claude w' = claude w.
Proof.
  revert acc w. induction todo as [|task todo IH]; intros acc w Hag Hk Hc.
  - exists [], [], w. simpl. rewrite !app_nil_r. unfold ret.
    repeat split; constructor.
  - simpl in Hc. apply andb_prop in Hc as [Hct Hc]. unfold creatable in Hct.
    simpl SubAIAgent.create.
    erewrite bind_returns by reflexivity.
    erewrite bind_returns by reflexivity.
    store_simpl. rewrite Hag.
    destruct (ts_botType task) as [| |bot_type|] eqn:Ety; try discriminate.
    assert (exists description, bind_value (ts_description task) = inr description
              /\ description = match ts_description task with
                               | JStr s => Some s
                               | _ => None
                               end) as (description & Ebd & Hd)
      by (destruct (ts_description task); try discriminate; simpl; eauto).
    rewrite Ebd. simpl (lift _).
    erewrite bind_returns by reflexivity.
    erewrite bind_returns by reflexivity.
    erewrite bind_returns by reflexivity.
    unfold foreign_key at 1. apply mem_id_In in Hk as Hm. rewrite Hm.
    erewrite bind_returns by reflexivity.
    erewrite bind_returns by reflexivity.
    erewrite bind_returns by reflexivity.
    match goal with |- context [SubAIAgent.create self a todo ?acc1 ?w1] =>
      destruct (IH acc1 w1) as
        (bots & rows & w' & E & Hb & Hw & Hr & Ha & Hs & Ht & Hu & Hc1 & Hc2);
        [exact Hag|exact Hk|exact Hc|]
    end.
    store_simpl.
    eexists (_ :: bots), (_ :: rows), w'. rewrite <- app_assoc in E.
    split; [exact E|]. rewrite Hw, <- app_assoc.
    repeat split; try assumption.
    + constructor; [|exact Hb]. eexists. unfold bot_of. rewrite Ety. reflexivity.
    + constructor; [|exact Hr]. unfold created. simpl. rewrite <- Hd. tauto.
Qed.

Lemma create_bound
    (self : SubAIAgent.t) (a : Assignment) (todo : list TaskSpec)
    (acc : list SubAIAgent.Bot) (w : World) :
  match SubAIAgent.create self a todo acc w with
  | Returns bots w' =>
      List.length bots = (List.length acc + List.length todo)%nat
      /\ (List.length (work_bots (db w'))
          <= List.length (work_bots (db w)) + List.length todo)%nat
  | Throws _ w' =>
      (List.length (work_bots (db w'))
       <= List.length (work_bots (db w)) + List.length todo)%nat
  end.
Proof.
  revert acc w. induction todo as [|task todo IH]; intros acc w.
  - simpl. lia.
  - simpl SubAIAgent.create.
    unfold bind, uuidv4, get_db, lift, foreign_key, CURRENT_TIMESTAMP, run_sql,
      throw, ret.
    cbn [db].
    destruct (agent_by_agent_id _ _) as [agentRecord|]; [|simpl; lia].
    destruct (bind_value (ts_botType task)) as [e|[bot_type|]];
      [simpl; lia| |destruct (bind_value (ts_description task)); simpl; lia].
    destruct (bind_value (ts_description task)) as [e|description]; [simpl; lia|].
    cbn [not_null].
    destruct (mem_id _ _); [|simpl; lia].
    match goal with |- context [SubAIAgent.create self a todo ?acc1 ?w1] =>
      specialize (IH acc1 w1); destruct (SubAIAgent.create self a todo acc1 w1)
    end; simpl in IH; rewrite ?length_app in IH; simpl in *; lia.
Qed.

Lemma analyzeAssignment_fallback (self : SubAIAgent.t) (a : Assignment)
    (elements : list JsVal) (w : World) :
  ta_assigned_elements a = ElemArray elements ->
  fails (claude w (calls w)) = true ->
  SubAIAgent.analyzeAssignment self a w
  = Returns {| workPackages := None; tasks := Some (map general elements) |}
      {| db := db w; clock := clock w; uuids := uuids w; claude := claude w;
         calls := S (calls w) |}.
Proof.
  intros Ee Hf. unfold SubAIAgent.analyzeAssignment. rewrite Ee.
  unfold try_catch, bind, messages_create, JSON_parse.
  destruct (claude w (calls w)) as [m|text [j|]]; try discriminate; reflexivity.
Qed.

(** C7.  When the reasoning call of [analyzeAssignment] fails (it rejects, or
    its text is not JSON), the analysis is the fallback, and
    [createWorkBots] on it makes [min 5 (length elements)] work bots: one per
    element, in order, for the first five elements, each of type
    ['general'] with the element as its description, each stored as a new
    row of [work_bots] with status ['created'].  Whatever the analysis is,
    [createWorkBots] returns at most five bots and adds at most five rows,
    also when it throws part of the way. *)
Theorem decomposition_fallback_and_cap :
  (forall (self : SubAIAgent.t) (a : Assignment) (agentRecord : Agent)
          (elements : list string) (w : World),
      ta_assigned_elements a = ElemArray (map JStr elements) ->
      fails (claude w (calls w)) = true ->
      agent_by_agent_id (SubAIAgent.agentId self) (db w) = Some agentRecord ->
      In (ta_id a) (map ta_id (task_assignments (db w))) ->
      exists workBots rows w',
        (analysis <- SubAIAgent.analyzeAssignment self a ;;
         SubAIAgent.createWorkBots self a analysis) w = Returns workBots w'
        /\ List.length workBots = Nat.min 5 (List.length elements)
        /\ map SubAIAgent.type workBots
           = map (fun _ => JStr "general") (firstn 5 elements)
        /\ map SubAIAgent.description workBots = map JStr (firstn 5 elements)
        /\ work_bots (db w') = work_bots (db w) ++ rows
        /\ Forall2 (created a agentRecord) workBots rows)
  /\
  (forall (self : SubAIAgent.t) (a : Assignment) (analysis : Json) (w : World),
      match SubAIAgent.createWorkBots self a analysis w with
      | Returns workBots w' =>
          (List.length workBots <= 5)%nat
          /\ (List.length (work_bots (db w')) <= List.length (work_bots (db w)) + 5)%nat
      | Throws _ w' =>
          (List.length (work_bots (db w')) <= List.length (work_bots (db w)) + 5)%nat
      end).
Proof.
  split.
  - intros self a agentRecord elements w Ee Hf Hag Hk.
    erewrite bind_returns by (apply analyzeAssignment_fallback; eassumption).
    unfold SubAIAgent.createWorkBots. cbn [tasks].
    match goal with |- context [SubAIAgent.create self a ?todo [] ?w1] =>
      destruct (create_returns self a agentRecord todo [] w1)
        as (bots & rows & w' & E & Hb & Hw & Hr & _); [exact Hag|exact Hk| |]
    end.
    { apply forallb_forall. intros task Hin. apply In_firstn in Hin.
      apply in_map_iff in Hin as (e & <- & Hin).
      apply in_map_iff in Hin as (s & <- & _). reflexivity. }
    exists bots, rows, w'. simpl in E. split; [exact E|]. store_simpl.
    assert (Forall2 (fun bot e => SubAIAgent.type bot = JStr "general"
                                  /\ SubAIAgent.description bot = JStr e)
                    bots (firstn 5 elements)) as Hbe.
    { clear - Hb. unfold SubAIAgent.maxWorkBots in Hb.
      rewrite !firstn_map in Hb.
      remember (firstn 5 elements) as es eqn:Ees. clear Ees.
      revert bots Hb. induction es as [|e es IH]; intros bots Hb; simpl in Hb.
      - inversion Hb. constructor.
      - inversion Hb as [|bot task bots' todo' (botId & ->) Hrest]; subst.
        constructor; [split; reflexivity|]. now apply IH. }
    repeat split; try assumption.
    + rewrite (Forall2_length Hbe), length_firstn. reflexivity.
    + clear - Hbe. induction Hbe as [|bot e bots es [Hty _] _ IH]; simpl;
        [reflexivity|]. now rewrite Hty, IH.
    + clear - Hbe. induction Hbe as [|bot e bots es [_ Hd] _ IH]; simpl;
        [reflexivity|]. now rewrite Hd, IH.
  - intros self a analysis w. unfold SubAIAgent.createWorkBots.
    destruct (tasks analysis) as [todo|]; [|simpl; lia].
    pose proof (create_bound self a (firstn SubAIAgent.maxWorkBots todo) [] w) as B.
    pose proof (firstn_le_length SubAIAgent.maxWorkBots todo) as L.
    unfold SubAIAgent.maxWorkBots in *.
    destruct (SubAIAgent.create self a (firstn 5 todo) [] w);
      cbn [List.length] in B; lia.
Qed.

Lemma decomposition_fallback_and_cap_witness :
  exists workBots rows w',
    (analysis <- SubAIAgent.analyzeAssignment codeArchitect seven_elements ;;
     SubAIAgent.createWorkBots codeArchitect seven_elements analysis)
      (delegated seeded seven_planner)
    = Returns workBots w'
    /\ List.length workBots = 5%nat
    /\ Forall2 (created seven_elements (add_to_load 1 codeAgent)) workBots rows.
Proof.
  destruct (proj1 decomposition_fallback_and_cap codeArchitect seven_elements
              (add_to_load 1 codeAgent)
              ["e1"; "e2"; "e3"; "e4"; "e5"; "e6"; "e7"]
              (delegated seeded seven_planner))
    as (workBots & rows & w' & E & Hn & _ & _ & _ & Hr).
  - reflexivity.
  - vm_compute. reflexivity.
  - vm_compute. reflexivity.
  - vm_compute. left. reflexivity.
  - exists workBots, rows, w'. split; [exact E|]. split; [exact Hn|exact Hr].
Defined.

(** ** [executeWorkBots] and [reportToAtlantis] *)

Lemma bind_throws {A B} (m : M A) (k : A -> M B) (w w' : World) (e : Exn) :
  m w = Throws e w' -> bind m k w = Throws e w'.
Proof. unfold bind. now intros ->. Qed.

Lemma keeps_prepare {T} (table : DB -> T) (columns : list string) :
  keeps table (prepare_task_assignments columns).
Proof.
  intros w. unfold prepare_task_assignments.
  now destruct (filter _ columns).
Qed.

Lemma but_bots_eq (d d' : DB) :
  but_bots d = but_bots d' ->
  users d = users d' /\ tbl_tasks d = tbl_tasks d'
  /\ sub_ai_agents d = sub_ai_agents d' /\ task_assignments d = task_assignments d'
  /\ project_plans d = project_plans d'
  /\ task_assignments_more_columns d = task_assignments_more_columns d'.
Proof. unfold but_bots. intros H. injection H. intros. repeat split; assumption. Qed.

Lemma analyzeAssignment_keeps {T} (table : DB -> T) (self : SubAIAgent.t)
    (a : Assignment) :
  keeps table (SubAIAgent.analyzeAssignment self a).
Proof.
  unfold SubAIAgent.analyzeAssignment.
  destruct (ta_assigned_elements a); frame.
Qed.

Lemma create_keeps {T} (table : DB -> T) (self : SubAIAgent.t) (a : Assignment)
    (todo : list TaskSpec) (acc : list SubAIAgent.Bot) :
  (forall f d, table (set_bots f d) = table d) ->
  keeps table (SubAIAgent.create self a todo acc).
Proof.
  intros H. revert acc. induction todo as [|task todo IH]; intros acc; simpl.
  - frame.
  - apply keeps_bind; [frame|intros uuid].
    apply keeps_bind; [frame|intros d].
    destruct (agent_by_agent_id _ d); [|frame].
    apply keeps_bind; [frame|intros bot_type].
    apply keeps_bind; [frame|intros task_description].
    apply keeps_bind; [frame|intros bot_type'].
    apply keeps_bind; [frame|intros _].
    apply keeps_bind; [frame|intros now].
    apply keeps_bind; [apply keeps_run_sql; intros; apply H|intros _].
    apply IH.
Qed.

Lemma createWorkBots_keeps {T} (table : DB -> T) (self : SubAIAgent.t)
    (a : Assignment) (analysis : Json) :
  (forall f d, table (set_bots f d) = table d) ->
  keeps table (SubAIAgent.createWorkBots self a analysis).
Proof.
  intros H. unfold SubAIAgent.createWorkBots.
  destruct (tasks analysis); [now apply create_keeps|frame].
Qed.

Lemma execute_keeps {T} (table : DB -> T) (self : SubAIAgent.t) (a : Assignment)
    (bot : SubAIAgent.Bot) :
  (forall f d, table (set_bots f d) = table d) ->
  (forall f d, table (set_updates f d) = table d) ->
  keeps table (SubAIAgent.execute self a bot).
Proof.
  intros Hb Hu.
  unfold SubAIAgent.execute, SubAIAgent.executeWorkBot, SubAIAgent.addProgressUpdate,
    SubAIAgent.description_prefix, SubAIAgent.set_bot.
  apply keeps_try_catch; [|intros; apply keeps_run_sql; intros; apply Hb].
  apply keeps_bind; [frame|intros now].
  apply keeps_bind; [apply keeps_run_sql; intros; apply Hb|intros _].
  apply keeps_bind; [frame|intros result].
  apply keeps_bind; [frame|intros now'].
  apply keeps_bind; [apply keeps_run_sql; intros; apply Hb|intros _].
  apply keeps_bind; [destruct (SubAIAgent.description bot); frame|intros prefix].
  apply keeps_bind; [frame|intros uuid].
  apply keeps_insert_progress_update. exact Hu.
Qed.

Lemma execute_returns (self : SubAIAgent.t) (a : Assignment) (bot : SubAIAgent.Bot)
    (w : World) :
  exists w', SubAIAgent.execute self a bot w = Returns tt w'.
Proof.
  unfold SubAIAgent.execute, try_catch.
  match goal with |- context [match ?m w with _ => _ end] =>
    destruct (m w) as [[] w'|e w']
  end.
  - eauto.
  - unfold run_sql. eauto.
Qed.

Lemma for_each_execute_returns (self : SubAIAgent.t) (a : Assignment)
    (workBots : list SubAIAgent.Bot) (w : World) :
  exists w', SubAIAgent.for_each (SubAIAgent.execute self a) workBots w = Returns tt w'.
Proof.
  revert w. induction workBots as [|bot workBots IH]; intros w; simpl.
  - unfold ret. eauto.
  - destruct (execute_returns self a bot w) as (w1 & E).
    erewrite bind_returns by exact E. apply IH.
Qed.

(** The loop of [executeWorkBots] runs to its end; the statement after it
    does not prepare. *)
Lemma executeWorkBots_throws (self : SubAIAgent.t) (workBots : list SubAIAgent.Bot)
    (a : Assignment) (w : World) :
  exists w0,
    SubAIAgent.for_each (SubAIAgent.execute self a) workBots w = Returns tt w0
    /\ but_bots (db w0) = but_bots (db w)
    /\ SubAIAgent.executeWorkBots self workBots a w
       = Throws (no_such_column "completed") w0.
Proof.
  destruct (for_each_execute_returns self a workBots w) as (w0 & E).
  exists w0. split; [exact E|]. split.
  - pose proof (keeps_for_each but_bots (SubAIAgent.execute self a) workBots
                  (fun bot => execute_keeps but_bots self a bot
                                (fun _ _ => eq_refl) (fun _ _ => eq_refl)) w) as K.
    now rewrite E in K.
  - unfold SubAIAgent.executeWorkBots.
    erewrite bind_returns by exact E. reflexivity.
Qed.

Lemma set_assignment_ids (id : Z) (f : Assignment -> Assignment) (d : DB) :
  (forall r, ta_id (f r) = ta_id r) ->
  map ta_id (task_assignments (SubAIAgent.set_assignment id f d))
  = map ta_id (task_assignments d).
Proof.
  intros H. unfold SubAIAgent.set_assignment. store_simpl. rewrite map_map.
  apply map_ext. intros r. destruct (ta_id r =? id); [apply H|reflexivity].
Qed.

Lemma set_assignment_hit (id : Z) (f : Assignment -> Assignment) (d : DB)
    (row : Assignment) :
  In row (task_assignments (SubAIAgent.set_assignment id f d)) -> ta_id row = id ->
  (forall r, ta_id (f r) = ta_id r) ->
  exists r, In r (task_assignments d) /\ ta_id r = id /\ row = f r.
Proof.
  unfold SubAIAgent.set_assignment. store_simpl. intros Hin E H.
  apply in_map_iff in Hin as (r & <- & Hr).
  destruct (ta_id r =? id) eqn:Er.
  - apply Z.eqb_eq in Er. eauto.
  - apply Z.eqb_neq in Er. contradiction.
Qed.

Lemma reportToAtlantis_returns
    (self : SubAIAgent.t) (a : Assignment) (agentRecord : Agent) (w : World) :
  agent_by_agent_id (SubAIAgent.agentId self) (db w) = Some agentRecord ->
  In (ta_task_id a) (map t_id (tbl_tasks (db w))) ->
  let results := SubAIAgent.bots_of (ta_id a) (db w) in
  let completed := List.length (filter SubAIAgent.is_completed results) in
  let total := List.length results in
  let status := if (completed =? total)%nat then "completed" else "partial" in
  exists w',
    SubAIAgent.reportToAtlantis self a w = Returns tt w'
    /\ task_assignments (db w')
       = map (fun r => if ta_id r =? ta_id a
                       then SubAIAgent.with_completed status (clock w) r else r)
             (task_assignments (db w))
    /\ sub_ai_agents (db w')
       = map (fun r => if sa_id r =? sa_id agentRecord then add_to_load (-1) r else r)
             (sub_ai_agents (db w)).
Proof.
  intros Hag Hk results completed total status. unfold SubAIAgent.reportToAtlantis.
  erewrite bind_returns by reflexivity.
  erewrite bind_returns by reflexivity.
  erewrite bind_returns by reflexivity.
  rewrite Hag.
  erewrite bind_returns by reflexivity.
  rewrite sub_addProgressUpdate_returns by exact Hk.
  eexists. split; [reflexivity|]. split; reflexivity.
Qed.

(** ** A bot whose execution fails *)

Lemma executeWorkBot_returns (self : SubAIAgent.t) (bot : SubAIAgent.Bot) (w : World) :
  SubAIAgent.executeWorkBot self bot w
  = Returns
      match claude w (calls w) with
      | Rejects message => result_failure message
      | Resolves text _ => result_success text (clock w)
      end
      {| db := db w; clock := clock w; uuids := uuids w; claude := claude w;
         calls := S (calls w) |}.
Proof.
  unfold SubAIAgent.executeWorkBot, try_catch, bind, messages_create.
  destruct (claude w (calls w)); reflexivity.
Qed.

(** The loop body on a bot with a description: the row of the bot is
    ['completed'] with whatever [executeWorkBot] returned. *)
Lemma execute_completes
    (self : SubAIAgent.t) (a : Assignment) (bot : SubAIAgent.Bot) (s : string)
    (w : World) :
  SubAIAgent.description bot = JStr s ->
  In (ta_task_id a) (map t_id (tbl_tasks (db w))) ->
  let result := match claude w (calls w) with
                | Rejects message => result_failure message
                | Resolves text _ => result_success text (clock w)
                end in
  exists w',
    SubAIAgent.execute self a bot w = Returns tt w'
    /\ work_bots (db w')
       = map (fun r => if (wb_bot_id r =? SubAIAgent.botId bot)%string
                       then SubAIAgent.with_bot "completed" (Some result)
                              (Some (clock w)) (Some (clock w)) r
                       else r)
             (work_bots (db w)).
Proof.
  intros Hd Hk result. unfold SubAIAgent.execute, try_catch.
  erewrite bind_returns by reflexivity.
  erewrite bind_returns by reflexivity.
  erewrite bind_returns by apply executeWorkBot_returns.
  erewrite bind_returns by reflexivity.
  erewrite bind_returns by reflexivity.
  unfold SubAIAgent.description_prefix. rewrite Hd.
  erewrite bind_returns by reflexivity.
  rewrite sub_addProgressUpdate_returns by exact Hk.
  eexists. split; [reflexivity|].
  unfold logged, with_db, SubAIAgent.set_bot. store_simpl.
  rewrite map_map. apply map_ext. intros r.
  destruct (wb_bot_id r =? SubAIAgent.botId bot)%string eqn:E;
    cbn [wb_bot_id SubAIAgent.with_bot]; rewrite E; reflexivity.
Qed.

Lemma In_updated {A} (p : A -> bool) (f : A -> A) (l : list A) (x : A) :
  In x l -> p x = true -> In (f x) (map (fun r => if p r then f r else r) l).
Proof.
  intros Hin Hp. apply in_map_iff. exists x. rewrite Hp. split; [reflexivity|exact Hin].
Qed.

(** X1.  A work bot that has a row in [work_bots] and a string description,
    of an assignment whose task is in the store: whatever the reasoning call
    of [executeWorkBot] answers, the loop body of [executeWorkBots] returns,
    rewrites the rows of that bot and no other, and the rows of the bot are
    then ['completed'] with the result [executeWorkBot] returned; when the
    call rejects that result is [{success: false, error}]. *)
Theorem execute_records_completed
    (self : SubAIAgent.t) (a : Assignment) (bot : SubAIAgent.Bot) (s : string)
    (row : WorkBot) (w : World) :
  SubAIAgent.description bot = JStr s ->
  In (ta_task_id a) (map t_id (tbl_tasks (db w))) ->
  In row (work_bots (db w)) ->
  wb_bot_id row = SubAIAgent.botId bot ->
  let result := match claude w (calls w) with
                | Rejects message => result_failure message
                | Resolves text _ => result_success text (clock w)
                end in
  exists w',
    SubAIAgent.execute self a bot w = Returns tt w'
    /\ work_bots (db w')
       = map (fun r => if (wb_bot_id r =? SubAIAgent.botId bot)%string
                       then SubAIAgent.with_bot "completed" (Some result)
                              (Some (clock w)) (Some (clock w)) r
                       else r)
             (work_bots (db w))
    /\ (exists r,
          In r (work_bots (db w')) /\ wb_bot_id r = SubAIAgent.botId bot
          /\ wb_id r = wb_id row)
    /\ forall r,
         In r (work_bots (db w')) -> wb_bot_id r = SubAIAgent.botId bot ->
         wb_status r = "completed" /\ wb_result r = Some result.
Proof.
  intros Hd Hk Hin Hid result.
  destruct (execute_completes self a bot s w Hd Hk) as (w' & E & Hw).
  fold result in Hw. exists w'. split; [exact E|]. split; [exact Hw|]. split.
  - exists (SubAIAgent.with_bot "completed" (Some result)
              (Some (clock w)) (Some (clock w)) row).
    split; [|split; [exact Hid|reflexivity]].
    rewrite Hw.
    apply (In_updated (fun r => (wb_bot_id r =? SubAIAgent.botId bot)%string)
             (SubAIAgent.with_bot "completed" (Some result)
                (Some (clock w)) (Some (clock w)))); [exact Hin|].
    now apply String.eqb_eq.
  - intros r Hr Hrid. rewrite Hw in Hr.
    apply in_map_iff in Hr as (r0 & <- & _).
    destruct (wb_bot_id r0 =? SubAIAgent.botId bot)%string eqn:E0.
    + split; reflexivity.
    + apply String.eqb_neq in E0. contradiction.
Qed.

Lemma execute_records_completed_witness :
  exists w' r,
    SubAIAgent.execute codeArchitect assignment_1 schema_bot two_bots = Returns tt w'
    /\ In r (work_bots (db w')) /\ wb_bot_id r = "bot-4" /\ wb_id r = 1
    /\ wb_status r = "completed"
    /\ wb_result r = Some (result_failure "Connection error.").
Proof.
  assert (exists row, In row (work_bots (db two_bots)) /\ wb_bot_id row = "bot-4"
                      /\ wb_id row = 1) as (row & Hin & Hid & H1).
  { eexists. split; [vm_compute; left; reflexivity|]. split; reflexivity. }
  destruct (execute_records_completed codeArchitect assignment_1 schema_bot
              "Design the schema" row two_bots)
    as (w' & E & _ & (r & Hr & Hrid & Hrow) & Hall).
  - reflexivity.
  - vm_compute. left. reflexivity.
  - exact Hin.
  - exact Hid.
  - exists w', r. split; [exact E|]. split; [exact Hr|]. split; [exact Hrid|].
    split; [rewrite Hrow; exact H1|].
    destruct (Hall r Hr Hrid) as [Hs Hres]. split; [exact Hs|].
    rewrite Hres. vm_compute. reflexivity.
Defined.

(** ** The schema of [task_assignments] *)

(** X2.  On a database whose [task_assignments] table has the ten columns
    [init-database.js] declares, [processAssignment] throws: the first
    statement of [updateAssignmentStatus] names [updated_at], in the [try]
    block and again in the [catch] block.  Nothing is written: the
    assignment keeps its status and the agent its load. *)
Theorem processAssignment_throws_without_updated_at
    (self : SubAIAgent.t) (a : Assignment) (w : World) :
  task_assignments_more_columns (db w) = [] ->
  SubAIAgent.processAssignment self a w
  = Throws (SqliteError "no such column: updated_at") w.
Proof.
  intros H.
  unfold SubAIAgent.processAssignment, try_catch, SubAIAgent.updateAssignmentStatus.
  unfold bind at 1 2 3. unfold prepare_task_assignments at 1. rewrite H.
  cbv beta iota delta [task_assignments_columns app filter existsb negb String.eqb
                       Ascii.eqb Bool.eqb orb andb].
  unfold bind at 1 2 3. unfold prepare_task_assignments at 1. rewrite H.
  cbv beta iota delta [task_assignments_columns app filter existsb negb String.eqb
                       Ascii.eqb Bool.eqb orb andb].
  reflexivity.
Qed.

Lemma processAssignment_throws_without_updated_at_witness :
  SubAIAgent.processAssignment codeArchitect assignment_1 (start seeded unreachable)
  = Throws (SqliteError "no such column: updated_at") (start seeded unreachable).
Proof.
  apply processAssignment_throws_without_updated_at. vm_compute. reflexivity.
Defined.

(** ** [processAssignment] *)

Lemma prepare_known (columns : list string) (w : World) :
  forallb (fun c => existsb (String.eqb c)
                      (task_assignments_columns ++ task_assignments_more_columns (db w)))
          columns = true ->
  prepare_task_assignments columns w = Returns tt w.
Proof.
  intros H. unfold prepare_task_assignments.
  assert (filter (fun c => negb (existsb (String.eqb c)
            (task_assignments_columns ++ task_assignments_more_columns (db w))))
            columns = []) as ->; [|reflexivity].
  induction columns as [|c columns IH]; [reflexivity|].
  simpl in H. apply andb_prop in H as [Hc H]. simpl. rewrite Hc. simpl. now apply IH.
Qed.

Lemma updateAssignmentStatus_returns (assignmentId : Z) (status : string) (w : World) :
  has_updated_at (db w) = true ->
  exists f,
    SubAIAgent.updateAssignmentStatus assignmentId status w
    = Returns tt (with_db (SubAIAgent.set_assignment assignmentId f) w)
    /\ (forall r, ta_id (f r) = ta_id r)
    /\ (forall r, ta_status (f r) = status).
Proof.
  unfold has_updated_at. intros H.
  assert (existsb (String.eqb "status") task_assignments_columns = true) as Hs
    by (vm_compute; reflexivity).
  assert (existsb (String.eqb "id") task_assignments_columns = true) as Hi
    by (vm_compute; reflexivity).
  assert (existsb (String.eqb "started_at") task_assignments_columns = true) as Ht
    by (vm_compute; reflexivity).
  unfold SubAIAgent.updateAssignmentStatus.
  erewrite bind_returns.
  2:{ apply prepare_known. cbn [forallb]. rewrite !existsb_app, Hs, Hi, H.
      rewrite orb_true_r. reflexivity. }
  destruct (status =? "in-progress")%string.
  - erewrite bind_returns.
    2:{ erewrite bind_returns.
        2:{ apply prepare_known. cbn [forallb]. rewrite !existsb_app, Ht, Hi.
            reflexivity. }
        erewrite bind_returns by reflexivity. reflexivity. }
    exists (fun r => SubAIAgent.with_assignment_status status
                       (SubAIAgent.with_started_at (clock w) r)).
    split; [|split; reflexivity].
    unfold run_sql, with_db, SubAIAgent.set_assignment, set_assignments.
    cbn [db task_assignments users tbl_tasks sub_ai_agents work_bots project_plans
         progress_updates task_assignments_more_columns clock uuids claude calls].
    rewrite map_map. do 3 f_equal. apply map_ext. intros x.
    destruct (ta_id x =? assignmentId) eqn:E;
      cbn [ta_id SubAIAgent.with_started_at]; rewrite E; reflexivity.
  - erewrite bind_returns by reflexivity.
    exists (SubAIAgent.with_assignment_status status).
    split; [reflexivity|split; reflexivity].
Qed.

Lemma analyzeAssignment_resolves (self : SubAIAgent.t) (a : Assignment)
    (elements : list JsVal) (text : string) (analysis : Json) (w : World) :
  ta_assigned_elements a = ElemArray elements ->
  claude w (calls w) = Resolves text (Some analysis) ->
  SubAIAgent.analyzeAssignment self a w
  = Returns analysis
      {| db := db w; clock := clock w; uuids := uuids w; claude := claude w;
         calls := S (calls w) |}.
Proof.
  intros Ee Hr. unfold SubAIAgent.analyzeAssignment. rewrite Ee.
  unfold try_catch, bind, messages_create, JSON_parse. rewrite Hr. reflexivity.
Qed.

Lemma updateAssignmentStatus_in_progress (assignmentId : Z) (w : World) :
  has_updated_at (db w) = true ->
  SubAIAgent.updateAssignmentStatus assignmentId "in-progress" w
  = Returns tt
      (with_db (SubAIAgent.set_assignment assignmentId
                  (fun r => SubAIAgent.with_assignment_status "in-progress"
                              (SubAIAgent.with_started_at (clock w) r))) w).
Proof.
  unfold has_updated_at. intros H.
  assert (existsb (String.eqb "status") task_assignments_columns = true) as Hs
    by (vm_compute; reflexivity).
  assert (existsb (String.eqb "id") task_assignments_columns = true) as Hi
    by (vm_compute; reflexivity).
  assert (existsb (String.eqb "started_at") task_assignments_columns = true) as Ht
    by (vm_compute; reflexivity).
  unfold SubAIAgent.updateAssignmentStatus.
  erewrite bind_returns.
  2:{ apply prepare_known. cbn [forallb]. rewrite !existsb_app, Hs, Hi, H.
      rewrite orb_true_r. reflexivity. }
  cbn [String.eqb Ascii.eqb Bool.eqb].
  erewrite bind_returns.
  2:{ erewrite bind_returns.
      2:{ apply prepare_known. cbn [forallb]. rewrite !existsb_app, Ht, Hi.
          reflexivity. }
      erewrite bind_returns by reflexivity. reflexivity. }
  unfold run_sql, with_db, SubAIAgent.set_assignment, set_assignments.
  cbn [db task_assignments users tbl_tasks sub_ai_agents work_bots project_plans
       progress_updates task_assignments_more_columns clock uuids claude calls].
  rewrite map_map. do 3 f_equal. apply map_ext. intros x.
  destruct (ta_id x =? assignmentId) eqn:E;
    cbn [ta_id SubAIAgent.with_started_at]; rewrite E; reflexivity.
Qed.

Lemma updateAssignmentStatus_failed (assignmentId : Z) (w : World) :
  has_updated_at (db w) = true ->
  SubAIAgent.updateAssignmentStatus assignmentId "failed" w
  = Returns tt
      (with_db (SubAIAgent.set_assignment assignmentId
                  (SubAIAgent.with_assignment_status "failed")) w).
Proof.
  unfold has_updated_at. intros H.
  assert (existsb (String.eqb "status") task_assignments_columns = true) as Hs
    by (vm_compute; reflexivity).
  assert (existsb (String.eqb "id") task_assignments_columns = true) as Hi
    by (vm_compute; reflexivity).
  unfold SubAIAgent.updateAssignmentStatus.
  erewrite bind_returns.
  2:{ apply prepare_known. cbn [forallb]. rewrite !existsb_app, Hs, Hi, H.
      rewrite orb_true_r. reflexivity. }
  cbn [String.eqb Ascii.eqb Bool.eqb].
  erewrite bind_returns by reflexivity. reflexivity.
Qed.

Lemma updateAssignmentStatus_keeps {T} (table : DB -> T) (assignmentId : Z)
    (status : string) :
  (forall f d, table (set_assignments f d) = table d) ->
  keeps table (SubAIAgent.updateAssignmentStatus assignmentId status).
Proof.
  intros H. unfold SubAIAgent.updateAssignmentStatus, SubAIAgent.set_assignment.
  apply keeps_bind; [apply keeps_prepare|intros _].
  apply keeps_bind.
  - destruct (status =? "in-progress")%string; [|frame].
    apply keeps_bind; [apply keeps_prepare|intros _].
    apply keeps_bind; [frame|intros now].
    apply keeps_run_sql. intros; apply H.
  - intros _. apply keeps_run_sql. intros; apply H.
Qed.

(** Steps 2 to 5 of [processAssignment] never reach the [return] of the
    [try] block: [executeWorkBots] throws when nothing before it has. *)
Lemma steps_throw (self : SubAIAgent.t) (a : Assignment) (w : World) :
  exists error w',
    (analysis <- SubAIAgent.analyzeAssignment self a ;;
     workBots <- SubAIAgent.createWorkBots self a analysis ;;
     SubAIAgent.executeWorkBots self workBots a ;;
     SubAIAgent.reportToAtlantis self a ;;
     ret (SubAIAgent.envelope_success (List.length workBots)
            (SubAIAgent.name self ++ " completed assignment")%string)) w
    = Throws error w'
    /\ but_bots (db w') = but_bots (db w).
Proof.
  unfold bind at 1.
  pose proof (analyzeAssignment_keeps but_bots self a w) as Ka.
  destruct (SubAIAgent.analyzeAssignment self a w) as [analysis wa|e wa];
    cbn [world_of] in Ka.
  - unfold bind at 1.
    pose proof (createWorkBots_keeps but_bots self a analysis
                  (fun _ _ => eq_refl) wa) as Kc.
    destruct (SubAIAgent.createWorkBots self a analysis wa) as [workBots wc|e wc];
      cbn [world_of] in Kc.
    + destruct (executeWorkBots_throws self workBots a wc) as (w0 & _ & K0 & E0).
      erewrite bind_throws by exact E0.
      exists (no_such_column "completed"), w0. split; [reflexivity|congruence].
    + exists e, wc. split; [reflexivity|congruence].
  - exists e, wa. split; [reflexivity|exact Ka].
Qed.

(** On a database whose [task_assignments] has [updated_at],
    [processAssignment] ends in its [catch] block. *)
Lemma processAssignment_fails (self : SubAIAgent.t) (a : Assignment) (w : World) :
  has_updated_at (db w) = true ->
  exists error w',
    SubAIAgent.processAssignment self a w
    = Returns (SubAIAgent.envelope_failure (message_of error)) w'
    /\ task_assignments (db w') = map (failed_at (clock w) a) (task_assignments (db w))
    /\ users (db w') = users (db w) /\ tbl_tasks (db w') = tbl_tasks (db w)
    /\ sub_ai_agents (db w') = sub_ai_agents (db w)
    /\ project_plans (db w') = project_plans (db w).
Proof.
  intros Hcol. unfold SubAIAgent.processAssignment, try_catch.
  erewrite bind_returns by (apply updateAssignmentStatus_in_progress; exact Hcol).
  match goal with |- context [match ?m ?w1 with Returns _ _ => _ | Throws _ _ => _ end] =>
    destruct (steps_throw self a w1) as (error & w2 & E & K)
  end.
  rewrite E. apply but_bots_eq in K as (Ku & Kt & Ka & Kr & Kp & Kc).
  unfold with_db in Ku, Kt, Ka, Kr, Kp, Kc. cbn [db] in Ku, Kt, Ka, Kr, Kp, Kc.
  erewrite bind_returns
    by (apply updateAssignmentStatus_failed; unfold has_updated_at; rewrite Kc;
        exact Hcol).
  exists error. eexists. split; [reflexivity|].
  unfold ret, with_db. cbn [db].
  split; [|repeat split; assumption].
  unfold SubAIAgent.set_assignment at 1. store_simpl. rewrite Kr.
  unfold SubAIAgent.set_assignment. store_simpl. rewrite map_map.
  apply map_ext. intros r. unfold failed_at.
  destruct (ta_id r =? ta_id a) eqn:Er;
    cbn [ta_id SubAIAgent.with_assignment_status SubAIAgent.with_started_at];
    rewrite Er; reflexivity.
Qed.

(** What no run of [processAssignment] changes: what [updateAssignmentStatus]
    and the steps before [reportToAtlantis] leave alone. *)
Lemma processAssignment_keeps {T} (table : DB -> T) (self : SubAIAgent.t)
    (a : Assignment) :
  (forall f d, table (set_assignments f d) = table d) ->
  (forall d d', but_bots d = but_bots d' -> table d = table d') ->
  keeps table (SubAIAgent.processAssignment self a).
Proof.
  intros Ha Hb. unfold SubAIAgent.processAssignment.
  apply keeps_try_catch.
  - apply keeps_bind; [apply updateAssignmentStatus_keeps; exact Ha|intros _].
    intros w. destruct (steps_throw self a w) as (error & w' & E & K).
    rewrite E. now apply Hb.
  - intros e. apply keeps_bind;
      [apply updateAssignmentStatus_keeps; exact Ha|intros _; frame].
Qed.

(** X5.  On a database whose [task_assignments] has [updated_at],
    [processAssignment] never succeeds: for every agent, assignment and
    store it returns the failure envelope.  The rows of the assignment are
    then ['failed'], with [started_at] the time of the call; every other row
    of [task_assignments] is as it was, and so are [users], [tasks],
    [sub_ai_agents] and [project_plans]. *)
Theorem processAssignment_always_fails
    (self : SubAIAgent.t) (a : Assignment) (w : World) :
  has_updated_at (db w) = true ->
  exists message w',
    SubAIAgent.processAssignment self a w
    = Returns (SubAIAgent.envelope_failure message) w'
    /\ task_assignments (db w') = map (failed_at (clock w) a) (task_assignments (db w))
    /\ users (db w') = users (db w) /\ tbl_tasks (db w') = tbl_tasks (db w)
    /\ sub_ai_agents (db w') = sub_ai_agents (db w)
    /\ project_plans (db w') = project_plans (db w).
Proof.
  intros Hcol.
  destruct (processAssignment_fails self a w Hcol) as (error & w' & E & H).
  exists (message_of error), w'. split; [exact E|exact H].
Qed.

Lemma processAssignment_always_fails_witness :
  exists message w',
    SubAIAgent.processAssignment codeArchitect assignment_1
      (delegated seeded_with_updated_at (execution_fails four_described 9))
    = Returns (SubAIAgent.envelope_failure message) w'
    /\ statuses w' = ["failed"]
    /\ loads w' = [1; 0; 0; 0; 0; 0; 0; 0; 0; 0; 0; 0].
Proof.
  destruct (processAssignment_always_fails codeArchitect assignment_1
              (delegated seeded_with_updated_at (execution_fails four_described 9)))
    as (message & w' & E & Hta & _ & _ & Hag & _).
  - vm_compute. reflexivity.
  - exists message, w'. split; [exact E|].
    unfold statuses, loads. rewrite Hta, Hag. split; vm_compute; reflexivity.
Defined.

(** ** The load of an agent *)



(** X4.  On a database whose [task_assignments] has [updated_at]: when the
    analysis is a JSON object without a [tasks] array, [processAssignment]
    returns the failure envelope, the assignment is marked ['failed'], no work
    bot is created, and no row of [sub_ai_agents] changes: the load that
    [delegateToSubAIs] added for the assignment stays. *)
Theorem processAssignment_failure_keeps_load
    (self : SubAIAgent.t) (a : Assignment) (elements : list JsVal)
    (text : string) (analysis : Json) (w : World) :
  has_updated_at (db w) = true ->
  ta_assigned_elements a = ElemArray elements ->
  claude w (calls w) = Resolves text (Some analysis) ->
  tasks analysis = None ->
  exists error w',
    SubAIAgent.processAssignment self a w
    = Returns (SubAIAgent.envelope_failure error) w'
    /\ sub_ai_agents (db w') = sub_ai_agents (db w)
    /\ work_bots (db w') = work_bots (db w)
    /\ map ta_id (task_assignments (db w')) = map ta_id (task_assignments (db w))
    /\ forall row, In row (task_assignments (db w')) -> ta_id row = ta_id a ->
         ta_status row = "failed".
Proof.
  intros Hcol He Hreply Hnone.
  destruct (updateAssignmentStatus_returns (ta_id a) "in-progress" w Hcol)
    as (f1 & E1 & Hid1 & _).
  unfold SubAIAgent.processAssignment, try_catch.
  erewrite bind_returns by exact E1.
  erewrite bind_returns
    by (apply (analyzeAssignment_resolves self a elements text analysis);
        [exact He|exact Hreply]).
  erewrite bind_throws
    by (unfold SubAIAgent.createWorkBots; rewrite Hnone; reflexivity).
  cbv beta iota.
  match goal with
  | |- context [bind (SubAIAgent.updateAssignmentStatus _ "failed") _ ?w1] =>
    destruct (updateAssignmentStatus_returns (ta_id a) "failed" w1)
      as (f2 & E2 & Hid2 & Hst2); [exact Hcol|]
  end.
  erewrite bind_returns by exact E2.
  do 2 eexists. split; [reflexivity|].
  unfold with_db. cbn [db].
  split; [reflexivity|]. split; [reflexivity|]. split.
  - rewrite set_assignment_ids by exact Hid2.
    now rewrite set_assignment_ids by exact Hid1.
  - intros row Hin Hid.
    apply set_assignment_hit in Hin as (r1 & _ & _ & ->);
      [|exact Hid|exact Hid2].
    apply Hst2.
Qed.

Lemma processAssignment_failure_keeps_load_witness :
  exists error w',
    SubAIAgent.processAssignment codeArchitect assignment_1
      (delegated seeded_with_updated_at no_tasks)
    = Returns (SubAIAgent.envelope_failure error) w'.
Proof.
  destruct (processAssignment_failure_keeps_load codeArchitect assignment_1
              [JStr "Main implementation"] "{}"
              {| workPackages := None; tasks := None |}
              (delegated seeded_with_updated_at no_tasks))
    as (error & w' & E & _).
  - vm_compute. reflexivity.
  - reflexivity.
  - vm_compute. reflexivity.
  - reflexivity.
  - exists error, w'. exact E.
Defined.

(** ** [receiveTask]: what it leaves alone *)

Section Touches.
Context {R : Type} (table : DB -> list R) (key : R -> Z) (id : Z).

Lemma touches_keeps {A} (m : M A) : keeps table m -> touches table key id m.
Proof.
  intros K w. exists (fun r => r). split; [reflexivity|]. rewrite K.
  rewrite <- (map_id (table (db w))) at 1. apply map_ext.
  intros r. now destruct (key r =? id).
Qed.

Lemma touches_compose (g g' : R -> R) (l : list R) :
  (forall r, key (g r) = key r) ->
  map (fun r => if key r =? id then g' r else r)
      (map (fun r => if key r =? id then g r else r) l)
  = map (fun r => if key r =? id then g' (g r) else r) l.
Proof.
  intros Hg. rewrite map_map. apply map_ext. intros r.
  destruct (key r =? id) eqn:Er; [|now rewrite Er].
  now rewrite Hg, Er.
Qed.

Lemma touches_bind {A B} (m : M A) (k : A -> M B) :
  touches table key id m -> (forall a, touches table key id (k a)) ->
  touches table key id (bind m k).
Proof.
  intros Hm Hk w. unfold bind. destruct (Hm w) as (g & Hg & E).
  destruct (m w) as [a w1|e w1]; simpl in E.
  - destruct (Hk a w1) as (g' & Hg' & E').
    exists (fun r => g' (g r)). split.
    + intros r. now rewrite Hg', Hg.
    + rewrite E', E. now apply touches_compose.
  - exists g. split; assumption.
Qed.

Lemma touches_try_catch {A} (m : M A) (h : Exn -> M A) :
  touches table key id m -> (forall e, touches table key id (h e)) ->
  touches table key id (try_catch m h).
Proof.
  intros Hm Hh w. unfold try_catch. destruct (Hm w) as (g & Hg & E).
  destruct (m w) as [a w1|e w1]; simpl in E.
  - exists g. split; assumption.
  - destruct (Hh e w1) as (g' & Hg' & E').
    exists (fun r => g' (g r)). split.
    + intros r. now rewrite Hg', Hg.
    + rewrite E', E. now apply touches_compose.
Qed.

Lemma touches_run_sql (f : DB -> DB) (g : DB -> R -> R) :
  (forall d r, key (g d r) = key r) ->
  (forall d, table (f d) = map (fun r => if key r =? id then g d r else r) (table d)) ->
  touches table key id (run_sql f).
Proof. intros Hg Hf w. exists (g (db w)). split; [apply Hg|apply Hf]. Qed.

End Touches.

Lemma keeps_not_awaited {T A} (table : DB -> T) (m : M A) :
  keeps table m -> keeps table (AtlantisAI.not_awaited m).
Proof. intros K w. apply K. Qed.

Section Appends.
Context {T : Type} (P : T -> Prop) (table : DB -> list T).

Lemma appends_keeps {A} (m : M A) : keeps table m -> appends P table m.
Proof. intros K w. exists []. rewrite K, app_nil_r. split; [reflexivity|constructor]. Qed.

Lemma appends_bind {A B} (m : M A) (k : A -> M B) :
  appends P table m -> (forall a, appends P table (k a)) -> appends P table (bind m k).
Proof.
  intros Hm Hk w. unfold bind. destruct (Hm w) as (new & E & HP).
  destruct (m w) as [a w1|e w1]; simpl in E.
  - destruct (Hk a w1) as (new' & E' & HP'). exists (new ++ new').
    rewrite E', E, app_assoc. split; [reflexivity|]. now apply Forall_app.
  - exists new. split; assumption.
Qed.

Lemma appends_try_catch {A} (m : M A) (h : Exn -> M A) :
  appends P table m -> (forall e, appends P table (h e)) ->
  appends P table (try_catch m h).
Proof.
  intros Hm Hh w. unfold try_catch. destruct (Hm w) as (new & E & HP).
  destruct (m w) as [a w1|e w1]; simpl in E.
  - exists new. split; assumption.
  - destruct (Hh e w1) as (new' & E' & HP'). exists (new ++ new').
    rewrite E', E, app_assoc. split; [reflexivity|]. now apply Forall_app.
Qed.

Lemma appends_run_sql (f : DB -> DB) (row : DB -> T) :
  (forall d, table (f d) = table d ++ [row d]) -> (forall d, P (row d)) ->
  appends P table (run_sql f).
Proof.
  intros Hf HP w. exists [row (db w)]. split; [apply Hf|].
  constructor; [apply HP|constructor].
Qed.

Lemma appends_not_awaited {A} (m : M A) :
  appends P table m -> appends P table (AtlantisAI.not_awaited m).
Proof. intros H w. apply H. Qed.

End Appends.

Lemma raises_keeps {A} (m : M A) : keeps sub_ai_agents m -> raises_loads m.
Proof.
  intros K w. exists (fun _ => 0). split; [intros; lia|]. rewrite K.
  rewrite <- (map_id (sub_ai_agents (db w))) at 1. apply map_ext.
  intros a. now rewrite add_to_load_0.
Qed.

Lemma raises_compose (g g' : Agent -> Z) (l : list Agent) :
  map (fun a => add_to_load (g' a) a) (map (fun a => add_to_load (g a) a) l)
  = map (fun a => add_to_load (g a + g' (add_to_load (g a) a)) a) l.
Proof. rewrite map_map. apply map_ext. intros a. apply add_to_load_add. Qed.

Lemma raises_bind {A B} (m : M A) (k : A -> M B) :
  raises_loads m -> (forall a, raises_loads (k a)) -> raises_loads (bind m k).
Proof.
  intros Hm Hk w. unfold bind. destruct (Hm w) as (g & Hg & E).
  destruct (m w) as [a w1|e w1]; simpl in E.
  - destruct (Hk a w1) as (g' & Hg' & E').
    exists (fun a => g a + g' (add_to_load (g a) a)). split.
    + intros x. specialize (Hg x). specialize (Hg' (add_to_load (g x) x)). lia.
    + rewrite E', E. apply raises_compose.
  - exists g. split; assumption.
Qed.

Lemma raises_try_catch {A} (m : M A) (h : Exn -> M A) :
  raises_loads m -> (forall e, raises_loads (h e)) -> raises_loads (try_catch m h).
Proof.
  intros Hm Hh w. unfold try_catch. destruct (Hm w) as (g & Hg & E).
  destruct (m w) as [a w1|e w1]; simpl in E.
  - exists g. split; assumption.
  - destruct (Hh e w1) as (g' & Hg' & E').
    exists (fun a => g a + g' (add_to_load (g a) a)). split.
    + intros x. specialize (Hg x). specialize (Hg' (add_to_load (g x) x)). lia.
    + rewrite E', E. apply raises_compose.
Qed.

Lemma raises_add_load (id : Z) : raises_loads (run_sql (add_load id 1)).
Proof.
  intros w. exists (fun a => if sa_id a =? id then 1 else 0). split.
  - intros a. destruct (sa_id a =? id); lia.
  - simpl. apply map_ext. intros a.
    destruct (sa_id a =? id); [reflexivity|now rewrite add_to_load_0].
Qed.

Lemma createTask_keeps {T} (table : DB -> T) (input : AtlantisAI.TaskInput) :
  (forall f d, table (set_tasks f d) = table d) ->
  keeps table (AtlantisAI.createTask input).
Proof.
  intros Htasks. unfold AtlantisAI.createTask.
  do 12 (apply keeps_bind; [frame|intros ?]).
  apply keeps_bind; [apply keeps_run_sql; intros; apply Htasks|intros _].
  frame.
Qed.

Lemma receiveTask_steps (taskInput : AtlantisAI.TaskInput) :
  AtlantisAI.receiveTask taskInput
  = try_catch (task <- AtlantisAI.createTask taskInput ;; plan_and_delegate task)
      (fun error => ret (AtlantisAI.envelope_failure (message_of error))).
Proof. reflexivity. Qed.

(** Whatever holds of every statement of steps 2 to 5, and is passed on by
    sequencing and by [try]/[catch], holds of the steps. *)
Section Effects.
Context (Q : forall A : Type, M A -> Prop) (task : AtlantisAI.TaskObject).
Hypothesis Q_reads : forall A (m : M A), reads m -> Q _ m.
Hypothesis Q_bind : forall A B (m : M A) (k : A -> M B),
  Q _ m -> (forall a, Q _ (k a)) -> Q _ (bind m k).
Hypothesis Q_try_catch : forall A (m : M A) (h : Exn -> M A),
  Q _ m -> (forall e, Q _ (h e)) -> Q _ (try_catch m h).
Hypothesis Q_not_awaited : forall A (m : M A), Q _ m -> Q _ (AtlantisAI.not_awaited m).
Hypothesis Q_update_task : forall f : Task -> Task,
  (forall t, t_id (f t) = t_id t) ->
  Q _ (run_sql (set_tasks (map (fun t => if t_id t =? AtlantisAI.id_ task then f t else t)))).
Hypothesis Q_insert_plan : forall row : list PlanRow -> PlanRow,
  (forall rows, pp_task_id (row rows) = AtlantisAI.id_ task) ->
  Q _ (run_sql (set_plans (fun rows => rows ++ [row rows]))).
Hypothesis Q_insert_assignment : forall row : list Assignment -> Assignment,
  (forall rows, ta_task_id (row rows) = AtlantisAI.id_ task
                /\ ta_status (row rows) = "assigned") ->
  Q _ (run_sql (set_assignments (fun rows => rows ++ [row rows]))).
Hypothesis Q_add_load : forall id, Q _ (run_sql (add_load id 1)).
Hypothesis Q_insert_update : forall row : list ProgressUpdate -> ProgressUpdate,
  (forall us, pu_task_id (row us) = AtlantisAI.id_ task
              /\ pu_source_type (row us) = "atlantis") ->
  Q _ (run_sql (set_updates (fun us => us ++ [row us]))).

Ltac step := apply Q_bind; [apply Q_reads; unfold reads; frame|intros ?].

Lemma addProgressUpdate_effect (y z : string) (p : SqlVal) :
  Q _ (AtlantisAI.addProgressUpdate (AtlantisAI.id_ task) "atlantis" y z p).
Proof.
  unfold AtlantisAI.addProgressUpdate, insert_progress_update.
  do 4 step. apply (Q_insert_update (fun us => _)). intros; split; reflexivity.
Qed.

Lemma understandIntent_effect : Q _ (AtlantisAI.understandIntent task).
Proof.
  unfold AtlantisAI.understandIntent, AtlantisAI.update_intent.
  apply Q_try_catch; [|intros; apply Q_reads; unfold reads; frame].
  do 2 step.
  apply Q_bind; [|intros; apply Q_reads; unfold reads; frame].
  apply (Q_update_task (fun t => _)). reflexivity.
Qed.

Lemma createProjectPlan_effect (u : AtlantisAI.Understanding) :
  Q _ (AtlantisAI.createProjectPlan task u).
Proof.
  unfold AtlantisAI.createProjectPlan.
  apply Q_try_catch; [|intros; apply Q_reads; unfold reads; frame].
  do 5 step.
  apply Q_bind; [|intros; apply Q_reads; unfold reads; frame].
  apply (Q_insert_plan (fun rows => _)). reflexivity.
Qed.

Lemma delegate_effect (todo : list WorkPackage) (acc : list AtlantisAI.AssignmentInfo) :
  Q _ (AtlantisAI.delegate task todo acc).
Proof.
  revert acc. induction todo as [|wp todo IH]; intros acc; simpl.
  - apply Q_reads. unfold reads. frame.
  - do 2 step.
    match goal with |- context [match ?found with Some _ => _ | None => _ end] =>
      destruct found as [agent|]
    end; [|apply IH].
    step.
    apply Q_bind;
      [apply Q_reads; unfold reads, AtlantisAI.stringify_elements;
       destruct (wp_elements wp); frame|intros assigned_elements].
    do 2 step.
    apply Q_bind; [apply (Q_insert_assignment (fun rows => _)); intros; split; reflexivity|intros _].
    apply Q_bind; [apply Q_add_load|intros _].
    apply Q_bind; [apply addProgressUpdate_effect|intros _].
    apply IH.
Qed.

Lemma delegateToSubAIs_effect (plan : Json) : Q _ (AtlantisAI.delegateToSubAIs task plan).
Proof.
  unfold AtlantisAI.delegateToSubAIs, AtlantisAI.update_status.
  destruct (workPackages plan); [|apply Q_reads; unfold reads; frame].
  apply Q_bind; [apply delegate_effect|intros assignments].
  step.
  apply Q_bind; [|intros; apply Q_reads; unfold reads; frame].
  apply (Q_update_task (fun t => _)). reflexivity.
Qed.

Lemma monitorProgress_effect : Q _ (AtlantisAI.monitorProgress (AtlantisAI.id_ task)).
Proof.
  unfold AtlantisAI.monitorProgress.
  step.
  apply Q_bind; [apply addProgressUpdate_effect|intros _].
  apply Q_bind; [|intros; apply Q_reads; unfold reads; frame].
  match goal with |- context [if ?b then _ else _] => destruct b end;
    [|apply Q_reads; unfold reads; frame].
  unfold AtlantisAI.finalizeTask, AtlantisAI.update_status.
  step.
  apply Q_bind; [|intros _; apply addProgressUpdate_effect].
  apply (Q_update_task (fun t => _)). reflexivity.
Qed.

Lemma plan_and_delegate_effect : Q _ (plan_and_delegate task).
Proof.
  unfold plan_and_delegate.
  apply Q_bind; [apply understandIntent_effect|intros understanding].
  apply Q_bind; [apply createProjectPlan_effect|intros projectPlan].
  apply Q_bind; [apply delegateToSubAIs_effect|intros assignments].
  apply Q_bind; [apply Q_not_awaited, monitorProgress_effect|intros _].
  apply Q_reads. unfold reads. frame.
Qed.

End Effects.

Lemma reads_keeps {T A} (table : DB -> T) (m : M A) : reads m -> keeps table m.
Proof. intros R w. specialize (R w). simpl in R. now rewrite R. Qed.

Lemma world_of_catch_all {A} (m : M A) (h : Exn -> A) (w : World) :
  world_of (try_catch m (fun e => ret (h e)) w) = world_of (m w).
Proof. unfold try_catch. now destruct (m w). Qed.

Lemma createTask_outcome (taskInput : AtlantisAI.TaskInput) (w : World) :
  match AtlantisAI.createTask taskInput w with
  | Returns task w1 =>
      exists t,
        db w1 = set_tasks (fun rows => rows ++ [t]) (db w)
        /\ t_id t = AtlantisAI.id_ task
        /\ AtlantisAI.id_ task = next_rowid (map t_id (tbl_tasks (db w)))
        /\ t_task_id t = AtlantisAI.task_id task
        /\ t_status t = "pending"
  | Throws _ w1 => db w1 = db w
  end.
Proof.
  unfold AtlantisAI.createTask, bind, uuidv4, get_db, foreign_key, CURRENT_TIMESTAMP,
    run_sql, with_db.
  destruct (bind_id (AtlantisAI.userId taskInput)) as [?|[user_id|]];
    [reflexivity| |];
    (destruct (bind_value (AtlantisAI.title taskInput)) as [?|[title|]];
     [reflexivity| |]);
    (destruct (bind_value (js_or (AtlantisAI.description taskInput) (JStr "")));
     [reflexivity|]);
    (destruct (bind_value (js_or (AtlantisAI.timeline taskInput) (JStr "")));
     [reflexivity|]);
    (destruct (bind_value (js_or (AtlantisAI.desiredOutcomes taskInput) (JStr "")));
     [reflexivity|]);
    (destruct (bind_value (js_or (AtlantisAI.priority taskInput) (JStr "normal")));
     [reflexivity|]);
    try reflexivity.
  cbn [lift ret not_null db]. destruct (mem_id user_id (users (db w))); [|reflexivity].
  cbn [ret throw db clock]. eexists. repeat split.
Qed.

(** What [receiveTask] leaves alone. *)
Lemma plan_and_delegate_keeps {T} (table : DB -> T) (task : AtlantisAI.TaskObject) :
  (forall f d, table (set_tasks f d) = table d) ->
  (forall f d, table (set_plans f d) = table d) ->
  (forall f d, table (set_assignments f d) = table d) ->
  (forall f d, table (set_agents f d) = table d) ->
  (forall f d, table (set_updates f d) = table d) ->
  keeps table (plan_and_delegate task).
Proof.
  intros Ht Hp Ha Hg Hu.
  apply (plan_and_delegate_effect (fun A m => keeps table m)).
  - intros A m. apply reads_keeps.
  - intros A B m k. apply keeps_bind.
  - intros A m h. apply keeps_try_catch.
  - intros A m. apply keeps_not_awaited.
  - intros f _. apply keeps_run_sql. intros. apply Ht.
  - intros row _. apply keeps_run_sql. intros. apply Hp.
  - intros row _. apply keeps_run_sql. intros. apply Ha.
  - intros id. apply keeps_run_sql. intros. apply Hg.
  - intros row _. apply keeps_run_sql. intros. apply Hu.
Qed.

Lemma receiveTask_keeps {T} (table : DB -> T) (taskInput : AtlantisAI.TaskInput) :
  (forall f d, table (set_tasks f d) = table d) ->
  (forall f d, table (set_plans f d) = table d) ->
  (forall f d, table (set_assignments f d) = table d) ->
  (forall f d, table (set_agents f d) = table d) ->
  (forall f d, table (set_updates f d) = table d) ->
  keeps table (AtlantisAI.receiveTask taskInput).
Proof.
  intros Ht Hp Ha Hg Hu. rewrite receiveTask_steps.
  apply keeps_try_catch; [|intros; frame].
  apply keeps_bind; [apply createTask_keeps; exact Ht|intros task].
  now apply plan_and_delegate_keeps.
Qed.

(** What [receiveTask] appends, when steps 2 to 5 append only rows that
    have [P] of the id of the task: rows that have [P] of the next id of
    [tasks]. *)
Lemma receiveTask_appends {T} (P : Z -> T -> Prop) (table : DB -> list T)
    (taskInput : AtlantisAI.TaskInput) (w : World) :
  (forall f d, table (set_tasks f d) = table d) ->
  (forall task, appends (P (AtlantisAI.id_ task)) table (plan_and_delegate task)) ->
  exists new,
    table (db (world_of (AtlantisAI.receiveTask taskInput w))) = table (db w) ++ new
    /\ Forall (P (next_rowid (map t_id (tbl_tasks (db w))))) new.
Proof.
  intros Ht H. rewrite receiveTask_steps, world_of_catch_all. unfold bind.
  pose proof (createTask_outcome taskInput w) as O.
  destruct (AtlantisAI.createTask taskInput w) as [task w1|e w1].
  - destruct O as (t & Edb & _ & Hnid & _).
    destruct (H task w1) as (new & E & HP).
    exists new. rewrite E, Edb, Ht. split; [reflexivity|]. now rewrite <- Hnid.
  - simpl. rewrite O. exists []. rewrite app_nil_r. split; [reflexivity|constructor].
Qed.

Lemma plan_and_delegate_appends_assignments (task : AtlantisAI.TaskObject) :
  appends (fun r => ta_task_id r = AtlantisAI.id_ task /\ ta_status r = "assigned")
          task_assignments (plan_and_delegate task).
Proof.
  apply (plan_and_delegate_effect (fun A m => appends _ task_assignments m)).
  - intros A m R. now apply appends_keeps, reads_keeps.
  - intros A B m k. apply appends_bind.
  - intros A m h. apply appends_try_catch.
  - intros A m. apply appends_not_awaited.
  - intros f _. apply appends_keeps, keeps_run_sql. reflexivity.
  - intros row _. apply appends_keeps, keeps_run_sql. reflexivity.
  - intros row Hrow.
    apply (appends_run_sql _ _ _ (fun d => row (task_assignments d)));
      [reflexivity|intros; apply Hrow].
  - intros id. apply appends_keeps, keeps_run_sql. reflexivity.
  - intros row _. apply appends_keeps, keeps_run_sql. reflexivity.
Qed.

Lemma plan_and_delegate_appends_plans (task : AtlantisAI.TaskObject) :
  appends (fun r => pp_task_id r = AtlantisAI.id_ task) project_plans
          (plan_and_delegate task).
Proof.
  apply (plan_and_delegate_effect (fun A m => appends _ project_plans m)).
  - intros A m R. now apply appends_keeps, reads_keeps.
  - intros A B m k. apply appends_bind.
  - intros A m h. apply appends_try_catch.
  - intros A m. apply appends_not_awaited.
  - intros f _. apply appends_keeps, keeps_run_sql. reflexivity.
  - intros row Hrow.
    apply (appends_run_sql _ _ _ (fun d => row (project_plans d)));
      [reflexivity|intros; apply Hrow].
  - intros row _. apply appends_keeps, keeps_run_sql. reflexivity.
  - intros id. apply appends_keeps, keeps_run_sql. reflexivity.
  - intros row _. apply appends_keeps, keeps_run_sql. reflexivity.
Qed.

Lemma plan_and_delegate_appends_updates (task : AtlantisAI.TaskObject) :
  appends (fun u => pu_task_id u = AtlantisAI.id_ task
                    /\ pu_source_type u = "atlantis")
          progress_updates (plan_and_delegate task).
Proof.
  apply (plan_and_delegate_effect (fun A m => appends _ progress_updates m)).
  - intros A m R. now apply appends_keeps, reads_keeps.
  - intros A B m k. apply appends_bind.
  - intros A m h. apply appends_try_catch.
  - intros A m. apply appends_not_awaited.
  - intros f _. apply appends_keeps, keeps_run_sql. reflexivity.
  - intros row _. apply appends_keeps, keeps_run_sql. reflexivity.
  - intros row _. apply appends_keeps, keeps_run_sql. reflexivity.
  - intros id. apply appends_keeps, keeps_run_sql. reflexivity.
  - intros row Hrow.
    apply (appends_run_sql _ _ _ (fun d => row (progress_updates d)));
      [reflexivity|intros; apply Hrow].
Qed.

Lemma plan_and_delegate_raises_loads (task : AtlantisAI.TaskObject) :
  raises_loads (plan_and_delegate task).
Proof.
  apply (plan_and_delegate_effect (fun A m => raises_loads m)).
  - intros A m R. now apply raises_keeps, reads_keeps.
  - intros A B m k. apply raises_bind.
  - intros A m h. apply raises_try_catch.
  - intros A m H w. apply H.
  - intros f _. apply raises_keeps, keeps_run_sql. reflexivity.
  - intros row _. apply raises_keeps, keeps_run_sql. reflexivity.
  - intros row _. apply raises_keeps, keeps_run_sql. reflexivity.
  - intros id. apply raises_add_load.
  - intros row _. apply raises_keeps, keeps_run_sql. reflexivity.
Qed.

Lemma plan_and_delegate_touches_task (task : AtlantisAI.TaskObject) :
  touches tbl_tasks t_id (AtlantisAI.id_ task) (plan_and_delegate task).
Proof.
  apply (plan_and_delegate_effect
           (fun A m => touches tbl_tasks t_id (AtlantisAI.id_ task) m)).
  - intros A m R. now apply touches_keeps, reads_keeps.
  - intros A B m k. apply touches_bind.
  - intros A m h. apply touches_try_catch.
  - intros A m H w. apply H.
  - intros f Hf. apply (touches_run_sql _ _ _ _ (fun _ => f)); [intros _; exact Hf|].
    reflexivity.
  - intros row _. apply touches_keeps, keeps_run_sql. reflexivity.
  - intros row _. apply touches_keeps, keeps_run_sql. reflexivity.
  - intros id. apply touches_keeps, keeps_run_sql. reflexivity.
  - intros row _. apply touches_keeps, keeps_run_sql. reflexivity.
Qed.


(** ** [seedSubAIAgents] *)

Lemma set_agents_nil (d : DB) : set_agents (fun rows => rows ++ []) d = d.
Proof. destruct d. unfold set_agents. simpl. now rewrite app_nil_r. Qed.

Lemma set_agents_app (a b : list Agent) (d : DB) :
  set_agents (fun rows => rows ++ b) (set_agents (fun rows => rows ++ a) d)
  = set_agents (fun rows => rows ++ (a ++ b)) d.
Proof. unfold set_agents. simpl. now rewrite app_assoc. Qed.

Lemma agent_by_agent_id_app (agent_id : string) (new : list Agent) (d : DB) :
  agent_by_agent_id agent_id (set_agents (fun rows => rows ++ new) d)
  = match agent_by_agent_id agent_id d with
    | Some row => Some row
    | None => find (fun a => (sa_agent_id a =? agent_id)%string) new
    end.
Proof.
  unfold agent_by_agent_id. simpl.
  induction (sub_ai_agents d) as [|a l IH]; simpl; [reflexivity|].
  now destruct (sa_agent_id a =? agent_id)%string.
Qed.

Lemma insert_agent_or_ignore_appends
    (agent : string * string * string * list string) (d : DB) :
  exists new,
    insert_agent_or_ignore agent d = set_agents (fun rows => rows ++ new) d
    /\ match agent_by_agent_id (agent_id_of agent) d with
       | Some _ => new = []
       | None => exists row, new = [row] /\ seeded_row agent row
       end.
Proof.
  destruct agent as [[[agent_id name] specialization] expertise_areas].
  unfold insert_agent_or_ignore. cbn [agent_id_of].
  destruct (agent_by_agent_id agent_id d).
  - exists []. now rewrite set_agents_nil.
  - eexists. split; [reflexivity|]. eexists. split; [reflexivity|].
    unfold seeded_row. cbn. tauto.
Qed.

Lemma insertMany_appends (agents : list (string * string * string * list string))
    (d : DB) :
  exists new, insertMany agents d = set_agents (fun rows => rows ++ new) d.
Proof.
  revert d. induction agents as [|agent agents IH]; intros d; cbn [insertMany fold_left].
  - exists []. now rewrite set_agents_nil.
  - destruct (insert_agent_or_ignore_appends agent d) as (a & -> & _).
    destruct (IH (set_agents (fun rows => rows ++ a) d)) as (b & E).
    unfold insertMany in E. rewrite E. exists (a ++ b). apply set_agents_app.
Qed.

Lemma insertMany_keeps_rows (agents : list (string * string * string * list string))
    (d : DB) (agent_id : string) (row : Agent) :
  agent_by_agent_id agent_id d = Some row ->
  agent_by_agent_id agent_id (insertMany agents d) = Some row.
Proof.
  intros H. destruct (insertMany_appends agents d) as (new & ->).
  now rewrite agent_by_agent_id_app, H.
Qed.

Lemma insertMany_registers (agents : list (string * string * string * list string))
    (d : DB) (agent : string * string * string * list string) :
  NoDup (map agent_id_of agents) ->
  In agent agents ->
  match agent_by_agent_id (agent_id_of agent) d with
  | Some row => agent_by_agent_id (agent_id_of agent) (insertMany agents d) = Some row
  | None =>
      exists row,
        agent_by_agent_id (agent_id_of agent) (insertMany agents d) = Some row
        /\ seeded_row agent row
  end.
Proof.
  revert d. induction agents as [|x agents IH]; intros d Hnd Hin; [destruct Hin|].
  cbn [insertMany fold_left]. fold (insertMany agents (insert_agent_or_ignore x d)).
  inversion Hnd as [|? ? Hx Hnd']; subst.
  destruct (agent_by_agent_id (agent_id_of agent) d) as [row|] eqn:E.
  - apply insertMany_keeps_rows.
    destruct (insert_agent_or_ignore_appends x d) as (new & -> & _).
    now rewrite agent_by_agent_id_app, E.
  - destruct Hin as [->|Hin].
    + destruct (insert_agent_or_ignore_appends agent d) as (new & -> & Hnew).
      rewrite E in Hnew. destruct Hnew as (row & -> & Hrow).
      exists row. split; [|exact Hrow].
      apply insertMany_keeps_rows. rewrite agent_by_agent_id_app, E.
      cbn [find].
      assert (sa_agent_id row = agent_id_of agent) as ->
        by (destruct agent as [[[? ?] ?] ?]; apply Hrow).
      now rewrite String.eqb_refl.
    + specialize (IH (insert_agent_or_ignore x d) Hnd' Hin).
      assert (agent_by_agent_id (agent_id_of agent) (insert_agent_or_ignore x d) = None)
        as E'.
      { destruct (insert_agent_or_ignore_appends x d) as (new & -> & Hnew).
        rewrite agent_by_agent_id_app, E.
        destruct (agent_by_agent_id (agent_id_of x) d).
        - now subst new.
        - destruct Hnew as (row & -> & Hrow). cbn [find].
          assert (sa_agent_id row = agent_id_of x) as ->
            by (destruct x as [[[? ?] ?] ?]; apply Hrow).
          destruct (agent_id_of x =? agent_id_of agent)%string eqn:Eid; [|reflexivity].
          apply String.eqb_eq in Eid. exfalso. apply Hx. rewrite Eid.
          now apply in_map. }
      now rewrite E' in IH.
Qed.

Lemma insertMany_again (agents : list (string * string * string * list string))
    (d : DB) :
  (forall agent, In agent agents -> agent_by_agent_id (agent_id_of agent) d <> None) ->
  insertMany agents d = d.
Proof.
  induction agents as [|x agents IH]; intros H; [reflexivity|].
  cbn [insertMany fold_left].
  destruct (insert_agent_or_ignore_appends x d) as (new & -> & Hnew).
  destruct (agent_by_agent_id (agent_id_of x) d) eqn:E.
  - subst new. rewrite set_agents_nil. apply IH.
    intros agent Hin. apply H. now right.
  - exfalso. apply (H x); [now left|exact E].
Qed.

Lemma subAIs_NoDup : NoDup (map agent_id_of subAIs).
Proof.
  assert (nodup string_dec (map agent_id_of subAIs) = map agent_id_of subAIs) as E
    by (vm_compute; reflexivity).
  rewrite <- E. apply NoDup_nodup.
Qed.

Lemma insertMany_idempotent (agents : list (string * string * string * list string))
    (d : DB) :
  NoDup (map agent_id_of agents) ->
  insertMany agents (insertMany agents d) = insertMany agents d.
Proof.
  intros Hnd. apply insertMany_again. intros agent Hin.
  pose proof (insertMany_registers agents d agent Hnd Hin) as H.
  destruct (agent_by_agent_id (agent_id_of agent) d).
  - now rewrite H.
  - destruct H as (row & -> & _). discriminate.
Qed.

Lemma seedSubAIAgents_insertMany (d : DB) : seedSubAIAgents d = insertMany subAIs d.
Proof. unfold seedSubAIAgents, insertMany. reflexivity. Qed.

(** X7.  [seedSubAIAgents] only appends rows to [sub_ai_agents]: every other
    table, and every row that was there, is as it was; the row an [agent_id]
    had is the row it has afterwards ([INSERT OR IGNORE]); and seeding a
    second time changes nothing. *)
Theorem seedSubAIAgents_keeps_the_rows (d : DB) :
  (exists new, seedSubAIAgents d = set_agents (fun rows => rows ++ new) d)
  /\ (forall agent_id row,
        agent_by_agent_id agent_id d = Some row ->
        agent_by_agent_id agent_id (seedSubAIAgents d) = Some row)
  /\ seedSubAIAgents (seedSubAIAgents d) = seedSubAIAgents d.
Proof.
  rewrite (seedSubAIAgents_insertMany (seedSubAIAgents d)).
  rewrite (seedSubAIAgents_insertMany d).
  split; [apply insertMany_appends|]. split.
  - intros agent_id row. apply insertMany_keeps_rows.
  - apply insertMany_idempotent, subAIs_NoDup.
Qed.

(** X8.  After [seedSubAIAgents] every agent of the list has a row, found by
    its [agent_id]; when it had none before, the row has the name, the
    specialization and the expertise areas of the list, is ['active'], and
    has a load of 0 and a capacity of 10. *)
Theorem seedSubAIAgents_registers_every_agent
    (d : DB) (agent : string * string * string * list string) :
  In agent subAIs ->
  exists row,
    agent_by_agent_id (agent_id_of agent) (seedSubAIAgents d) = Some row
    /\ (agent_by_agent_id (agent_id_of agent) d = None -> seeded_row agent row).
Proof.
  intros Hin. rewrite (seedSubAIAgents_insertMany d).
  pose proof (insertMany_registers subAIs d agent subAIs_NoDup Hin) as H.
  destruct (agent_by_agent_id (agent_id_of agent) d) as [row|].
  - exists row. split; [exact H|discriminate].
  - destruct H as (row & E & Hrow). exists row. split; [exact E|now intros _].
Qed.

Lemma seedSubAIAgents_registers_every_agent_witness :
  exists row,
    agent_by_agent_id "sub-ai-testing" (seedSubAIAgents initializeDatabase) = Some row
    /\ sa_name row = "Quality Assurance" /\ sa_status row = "active"
    /\ sa_current_load row = 0.
Proof.
  destruct (seedSubAIAgents_registers_every_agent initializeDatabase
              ("sub-ai-testing", "Quality Assurance", "Testing & QA",
               ["Unit Testing"; "Integration Testing"; "E2E Testing";
                "Performance Testing"]))
    as (row & E & Hrow).
  - right. right. left. reflexivity.
  - exists row. split; [exact E|].
    destruct (Hrow eq_refl) as (_ & Hn & _ & _ & Hs & Hl & _).
    split; [exact Hn|]. split; [exact Hs|exact Hl].
Defined.

(** ** [interactWithUser] *)

(** X9.  [interactWithUser] makes one call of the reasoning client and
    writes nothing.  When the call resolves, it returns the text of the
    answer.  When the call rejects, it returns
    ["I'm monitoring your task. Status: "] followed by the status of the
    first task whose [task_id] is [taskId]; when there is no such task, the
    [catch] block throws a [TypeError], and the promise rejects.  After
    [receiveTask] with every call rejecting, the answer for the task is
    [..."Status: in-progress"]. *)
Theorem interactWithUser_falls_back
    (taskId : string) (userMessage : JsVal) (w : World) :
  let found := find (fun t => (t_task_id t =? taskId)%string) (tbl_tasks (db w)) in
  let o := AtlantisAI.interactWithUser taskId userMessage w in
  db (world_of o) = db w
  /\ calls (world_of o) = S (calls w)
  /\ (forall text parsed,
        claude w (calls w) = Resolves text parsed -> exists w', o = Returns text w')
  /\ (forall message task,
        claude w (calls w) = Rejects message -> found = Some task ->
        exists w',
          o = Returns ("I'm monitoring your task. Status: " ++ t_status task)%string w')
  /\ (forall message,
        claude w (calls w) = Rejects message -> found = None ->
        exists w',
          o = Throws (TypeError "Cannot read properties of undefined (reading 'status')")
                w')
  /\ (exists w',
        AtlantisAI.interactWithUser "task-0" (JStr "How far?")
          (delegated seeded unreachable)
        = Returns "I'm monitoring your task. Status: in-progress" w').
Proof.
  cbv zeta.
  unfold AtlantisAI.interactWithUser, AtlantisAI.getTaskStatus, bind, try_catch, get_db,
    messages_create.
  destruct (find (fun t => (t_task_id t =? taskId)%string) (tbl_tasks (db w)))
    as [task|];
    destruct (claude w (calls w)) as [message|text parsed];
    (split; [reflexivity|]); (split; [reflexivity|]);
    (split; [intros ? ? H; inversion H; subst; eexists; reflexivity|]);
    (split; [intros ? ? H H'; inversion H; inversion H'; subst; eexists; reflexivity|]);
    (split; [intros ? H H'; inversion H; inversion H'; eexists; reflexivity|]);
    eexists; vm_compute; reflexivity.
Qed.

(** ** [processPendingAssignments] *)

Lemma processPendingAssignments_keeps {T} (table : DB -> T)
    (agents : list SubAIAgent.t) :
  (forall f d, table (set_assignments f d) = table d) ->
  (forall d d', but_bots d = but_bots d' -> table d = table d') ->
  keeps table (SubAIManager.processPendingAssignments agents).
Proof.
  intros Ha Hb. unfold SubAIManager.processPendingAssignments.
  apply keeps_bind; [frame|intros d].
  apply keeps_for_each. intros assignment.
  destruct (SubAIManager.getAgent agents (snd assignment)); [|frame].
  apply keeps_bind; [now apply processAssignment_keeps|intros _]. frame.
Qed.

Lemma handed_over_cons (agents : list SubAIAgent.t) (p : Assignment * string)
    (l : list (Assignment * string)) :
  handed_over agents (p :: l)
  = if has_agent agents (snd p) then ta_id (fst p) :: handed_over agents l
    else handed_over agents l.
Proof. unfold handed_over. simpl. now destruct (has_agent agents (snd p)). Qed.

Lemma mem_id_cons (i h : Z) (ids : list Z) :
  mem_id i (h :: ids) = ((i =? h) || mem_id i ids)%bool.
Proof. reflexivity. Qed.

(** The loop of the sweep on a database with [updated_at]: every assignment
    handed over ends ['failed']. *)
Lemma for_each_dispatch_fails (agents : list SubAIAgent.t)
    (l : list (Assignment * string)) (w : World) :
  has_updated_at (db w) = true ->
  exists w' g,
    SubAIAgent.for_each (dispatch agents) l w = Returns tt w'
    /\ (forall r, ta_id (g r) = ta_id r /\ ta_status (g r) = "failed")
    /\ task_assignments (db w')
       = map (fun r => if mem_id (ta_id r) (handed_over agents l) then g r else r)
             (task_assignments (db w)).
Proof.
  revert w. induction l as [|p l IH]; intros w Hcol.
  - exists w, (SubAIAgent.with_assignment_status "failed"). simpl. unfold ret.
    split; [reflexivity|]. split; [intros; split; reflexivity|]. now rewrite map_id.
  - cbn [SubAIAgent.for_each]. rewrite handed_over_cons.
    unfold dispatch at 1, has_agent.
    destruct (SubAIManager.getAgent agents (snd p)) as [agent|].
    + destruct (processAssignment_fails agent (fst p) w Hcol)
        as (error & w1 & E1 & T1 & _).
      pose proof (processAssignment_keeps task_assignments_more_columns agent (fst p)
                    (fun _ _ => eq_refl)
                    (fun d d' H => proj2 (proj2 (proj2 (proj2 (proj2
                       (but_bots_eq d d' H)))))) w) as Hmore.
      rewrite E1 in Hmore. cbn [world_of] in Hmore.
      assert (has_updated_at (db w1) = true) as Hcol1
        by (unfold has_updated_at in *; now rewrite Hmore).
      erewrite bind_returns
        by (erewrite bind_returns by exact E1; reflexivity).
      destruct (IH w1 Hcol1) as (w' & g & E & Hg & T').
      exists w',
        (fun r => if mem_id (ta_id r) (handed_over agents l)
                  then g (failed_at (clock w) (fst p) r)
                  else failed_at (clock w) (fst p)
                         (SubAIAgent.with_assignment_status "failed" r)).
      assert (forall r, ta_id (failed_at (clock w) (fst p) r) = ta_id r) as Hid
        by (intros r; unfold failed_at; now destruct (ta_id r =? ta_id (fst p))).
      split; [exact E|]. split.
      * intros r. destruct (mem_id (ta_id r) (handed_over agents l)).
        -- destruct (Hg (failed_at (clock w) (fst p) r)) as [H1 H2].
           now rewrite H1, Hid, H2.
        -- rewrite Hid. split; [reflexivity|]. unfold failed_at.
           now destruct (ta_id _ =? ta_id (fst p)).
      * rewrite T', T1, map_map. apply map_ext. intros r.
        rewrite Hid, mem_id_cons.
        destruct (mem_id (ta_id r) (handed_over agents l));
          [now rewrite orb_true_r|].
        rewrite orb_false_r. unfold failed_at.
        cbn [ta_id SubAIAgent.with_assignment_status].
        now destruct (ta_id r =? ta_id (fst p)).
    + erewrite bind_returns by reflexivity. apply IH. exact Hcol.
Qed.

Lemma pending_In (d : DB) (ta : Assignment) (sa : Agent) :
  In ta (task_assignments d) -> ta_status ta = "assigned" ->
  In sa (sub_ai_agents d) -> sa_id sa = ta_agent_id ta ->
  In (ta, sa_agent_id sa) (SubAIManager.pending d).
Proof.
  intros Ha Hs Hsa Hid. unfold SubAIManager.pending. apply in_flat_map.
  exists ta. split.
  - apply filter_In. split; [exact Ha|]. now apply String.eqb_eq.
  - apply in_map_iff. exists sa. split; [reflexivity|].
    apply filter_In. split; [exact Hsa|]. apply Z.eqb_eq. now symmetry.
Qed.

Lemma pending_inv (d : DB) (p : Assignment * string) :
  In p (SubAIManager.pending d) ->
  In (fst p) (task_assignments d) /\ ta_status (fst p) = "assigned"
  /\ exists sa, In sa (sub_ai_agents d) /\ sa_id sa = ta_agent_id (fst p)
                /\ snd p = sa_agent_id sa.
Proof.
  unfold SubAIManager.pending. intros H.
  apply in_flat_map in H as (ta & Hta & H).
  apply filter_In in Hta as [Hta Hs]. apply String.eqb_eq in Hs.
  apply in_map_iff in H as (sa & <- & Hsa).
  apply filter_In in Hsa as [Hsa Hid]. apply Z.eqb_eq in Hid.
  cbn [fst snd]. split; [exact Hta|]. split; [exact Hs|].
  exists sa. split; [exact Hsa|]. split; [now symmetry|reflexivity].
Qed.

(** X10.  On a database whose [task_assignments] has [updated_at], for
    every map of agents and every store: [processPendingAssignments]
    returns; the rows of the assignments it handed to an agent (the pending
    rows whose agent the map has) are ['failed'], every other row of
    [task_assignments] is as it was, and so are [users], [tasks],
    [sub_ai_agents] (no load changes) and [project_plans]; and no assignment
    whose agent the map has is pending any more. *)
Theorem processPendingAssignments_fails_what_it_hands_over
    (agents : list SubAIAgent.t) (w : World) :
  has_updated_at (db w) = true ->
  let ids := handed_over agents (SubAIManager.pending (db w)) in
  exists w',
    SubAIManager.processPendingAssignments agents w = Returns tt w'
    /\ map ta_id (task_assignments (db w')) = map ta_id (task_assignments (db w))
    /\ (forall row, In row (task_assignments (db w')) -> In (ta_id row) ids ->
          ta_status row = "failed")
    /\ (forall row, In row (task_assignments (db w)) -> ~ In (ta_id row) ids ->
          In row (task_assignments (db w')))
    /\ (forall row, In row (task_assignments (db w')) -> ~ In (ta_id row) ids ->
          In row (task_assignments (db w)))
    /\ users (db w') = users (db w) /\ tbl_tasks (db w') = tbl_tasks (db w)
    /\ sub_ai_agents (db w') = sub_ai_agents (db w)
    /\ project_plans (db w') = project_plans (db w)
    /\ handed_over agents (SubAIManager.pending (db w')) = [].
Proof.
  intros Hcol ids.
  assert (forall {T} (table : DB -> T),
            (forall f d, table (set_assignments f d) = table d) ->
            (forall d d', but_bots d = but_bots d' -> table d = table d') ->
            table (db (world_of (SubAIManager.processPendingAssignments agents w)))
            = table (db w)) as K
    by (intros T table Ha Hb; now apply processPendingAssignments_keeps).
  pose proof (K _ users (fun _ _ => eq_refl)
                (fun d d' H => proj1 (but_bots_eq d d' H))) as Ku.
  pose proof (K _ tbl_tasks (fun _ _ => eq_refl)
                (fun d d' H => proj1 (proj2 (but_bots_eq d d' H)))) as Kt.
  pose proof (K _ sub_ai_agents (fun _ _ => eq_refl)
                (fun d d' H => proj1 (proj2 (proj2 (but_bots_eq d d' H))))) as Ka.
  pose proof (K _ project_plans (fun _ _ => eq_refl)
                (fun d d' H => proj1 (proj2 (proj2 (proj2 (proj2
                   (but_bots_eq d d' H))))))) as Kp.
  clear K. revert Ku Kt Ka Kp.
  unfold SubAIManager.processPendingAssignments.
  erewrite bind_returns by reflexivity.
  destruct (for_each_dispatch_fails agents (SubAIManager.pending (db w)) w Hcol)
    as (w' & g & E & Hg & T').
  fold ids in T'.
  change (SubAIAgent.for_each _ (SubAIManager.pending (db w)) w)
    with (SubAIAgent.for_each (dispatch agents) (SubAIManager.pending (db w)) w).
  rewrite E. cbn [world_of]. intros Ku Kt Ka Kp.
  exists w'. split; [reflexivity|].
  assert (forall row, In row (task_assignments (db w')) -> ~ In (ta_id row) ids ->
            In row (task_assignments (db w))) as Hrest.
  { intros row Hin Hno. rewrite T' in Hin. apply in_map_iff in Hin as (r & Er & Hin).
    destruct (mem_id (ta_id r) ids) eqn:Em.
    - exfalso. apply Hno. apply mem_id_In. subst row.
      now rewrite (proj1 (Hg r)).
    - now subst row. }
  assert (forall row, In row (task_assignments (db w')) -> In (ta_id row) ids ->
            ta_status row = "failed") as Hfailed.
  { intros row Hin Hid. rewrite T' in Hin. apply in_map_iff in Hin as (r & Er & Hin).
    destruct (mem_id (ta_id r) ids) eqn:Em.
    - subst row. apply Hg.
    - exfalso. subst row. apply mem_id_In in Hid. congruence. }
  split; [|split; [exact Hfailed|split; [|split; [exact Hrest|]]]].
  - rewrite T', map_map. apply map_ext. intros r.
    destruct (mem_id (ta_id r) ids); [apply Hg|reflexivity].
  - intros row Hin Hno. rewrite T'. apply in_map_iff. exists row.
    split; [|exact Hin].
    destruct (mem_id (ta_id row) ids) eqn:Em; [|reflexivity].
    exfalso. apply Hno. now apply mem_id_In.
  - split; [exact Ku|]. split; [exact Kt|]. split; [exact Ka|]. split; [exact Kp|].
    unfold handed_over.
    destruct (filter (fun p => has_agent agents (snd p)) (SubAIManager.pending (db w')))
      as [|p l] eqn:Ef; [reflexivity|].
    exfalso.
    assert (In p (filter (fun p => has_agent agents (snd p))
                         (SubAIManager.pending (db w')))) as Hp
      by (rewrite Ef; now left).
    apply filter_In in Hp as [Hp Hhas].
    apply pending_inv in Hp as (Hrow & Hst & sa & Hsa & Hid & Hsnd).
    assert (~ In (ta_id (fst p)) ids) as Hno.
    { intros Hin. rewrite (Hfailed (fst p) Hrow Hin) in Hst. discriminate. }
    apply Hno. unfold ids, handed_over. apply in_map_iff.
    exists (fst p, sa_agent_id sa). split; [reflexivity|].
    apply filter_In. split.
    + apply pending_In; [now apply Hrest|exact Hst| |exact Hid].
      now rewrite <- Ka.
    + cbn [snd]. now rewrite <- Hsnd.
Qed.

Lemma processPendingAssignments_fails_what_it_hands_over_witness :
  exists w',
    SubAIManager.processPendingAssignments [codeArchitect]
      (delegated seeded_with_updated_at unreachable)
    = Returns tt w'
    /\ statuses w' = ["failed"]
    /\ loads w' = [1; 0; 0; 0; 0; 0; 0; 0; 0; 0; 0; 0].
Proof.
  destruct (processPendingAssignments_fails_what_it_hands_over [codeArchitect]
              (delegated seeded_with_updated_at unreachable))
    as (w' & E & Hids & Hfailed & _ & _ & _ & _ & Hag & _).
  - vm_compute. reflexivity.
  - exists w'. split; [exact E|]. split.
    + unfold statuses.
      assert (map ta_id (task_assignments (db w')) = [1]) as H1
        by (rewrite Hids; vm_compute; reflexivity).
      destruct (task_assignments (db w')) as [|row rest]; [discriminate H1|].
      destruct rest; [|discriminate H1].
      cbn [map] in H1. injection H1 as H1.
      cbn [map]. f_equal. apply Hfailed; [left; reflexivity|].
      rewrite H1. vm_compute. left. reflexivity.
    + unfold loads. rewrite Hag. vm_compute. reflexivity.
Defined.

Lemma updateAssignmentStatus_throws (assignmentId : Z) (status : string) (w : World) :
  task_assignments_more_columns (db w) = [] ->
  SubAIAgent.updateAssignmentStatus assignmentId status w
  = Throws (SqliteError "no such column: updated_at") w.
Proof.
  intros H. unfold SubAIAgent.updateAssignmentStatus.
  apply bind_throws. unfold prepare_task_assignments. rewrite H.
  vm_compute. reflexivity.
Qed.

Lemma processAssignment_throws (self : SubAIAgent.t) (a : Assignment) (w : World) :
  task_assignments_more_columns (db w) = [] ->
  SubAIAgent.processAssignment self a w
  = Throws (SqliteError "no such column: updated_at") w.
Proof.
  intros H. unfold SubAIAgent.processAssignment, try_catch.
  erewrite bind_throws by (apply updateAssignmentStatus_throws; exact H).
  apply bind_throws. apply updateAssignmentStatus_throws. exact H.
Qed.

Lemma for_each_dispatch_blocked (agents : list SubAIAgent.t)
    (l : list (Assignment * string)) (w : World) :
  task_assignments_more_columns (db w) = [] ->
  SubAIAgent.for_each (dispatch agents) l w
  = match handed_over agents l with
    | [] => Returns tt w
    | _ :: _ => Throws (SqliteError "no such column: updated_at") w
    end.
Proof.
  intros H. induction l as [|p l IH]; [reflexivity|].
  cbn [SubAIAgent.for_each]. rewrite handed_over_cons.
  unfold dispatch at 1, has_agent.
  destruct (SubAIManager.getAgent agents (snd p)) as [agent|].
  - apply bind_throws. apply bind_throws. now apply processAssignment_throws.
  - erewrite bind_returns by reflexivity. exact IH.
Qed.

(** X11.  On a database whose [task_assignments] has the columns
    [init-database.js] declares, for every map of agents and every store:
    [processPendingAssignments] returns without writing when no pending
    assignment has its agent in the map, and otherwise throws
    ['no such column: updated_at'] out of the first [processAssignment],
    without writing: no assignment leaves ['assigned']. *)
Theorem processPendingAssignments_blocked (agents : list SubAIAgent.t) (w : World) :
  task_assignments_more_columns (db w) = [] ->
  SubAIManager.processPendingAssignments agents w
  = match handed_over agents (SubAIManager.pending (db w)) with
    | [] => Returns tt w
    | _ :: _ => Throws (SqliteError "no such column: updated_at") w
    end.
Proof.
  intros H. unfold SubAIManager.processPendingAssignments.
  erewrite bind_returns by reflexivity.
  now apply for_each_dispatch_blocked.
Qed.

Lemma processPendingAssignments_blocked_witness :
  SubAIManager.processPendingAssignments [codeArchitect] (delegated seeded unreachable)
  = Throws (SqliteError "no such column: updated_at") (delegated seeded unreachable).
Proof.
  rewrite (processPendingAssignments_blocked [codeArchitect]
             (delegated seeded unreachable)).
  - assert (handed_over [codeArchitect]
              (SubAIManager.pending (db (delegated seeded unreachable))) = [1]) as ->
      by (vm_compute; reflexivity).
    reflexivity.
  - vm_compute. reflexivity.
Defined.

(** ** An analysis without tasks *)

Lemma failed_after_in_progress (a : Assignment) (now : nat) (d : DB) :
  task_assignments
    (SubAIAgent.set_assignment (ta_id a) (SubAIAgent.with_assignment_status "failed")
       (SubAIAgent.set_assignment (ta_id a)
          (fun r => SubAIAgent.with_assignment_status "in-progress"
                      (SubAIAgent.with_started_at now r)) d))
  = map (failed_at now a) (task_assignments d).
Proof.
  unfold SubAIAgent.set_assignment. store_simpl. rewrite map_map.
  apply map_ext. intros r. unfold failed_at.
  destruct (ta_id r =? ta_id a) eqn:Er;
    cbn [ta_id SubAIAgent.with_assignment_status SubAIAgent.with_started_at];
    rewrite Er; reflexivity.
Qed.




(** ** Divergences *)

(** C1 (the code does not do this).  No run of [processAssignment] changes a
    row of [sub_ai_agents], however it ends: the decrement is in
    [reportToAtlantis], which no run reaches, and the [catch] block has none.
    On a database whose [task_assignments] has [updated_at], every run ends
    in the [catch] block: [processAssignment] returns the failure envelope
    and the assignment is ['failed'], started at the time of the call.  After
    [receiveTask] the agent of the one assignment has a load of one, and
    after [processAssignment] it still has: with the assignment ['failed'] on
    a database with [updated_at], and with the assignment still ['assigned']
    on the schema of [init-database.js], where [processAssignment] throws.
    [reportToAtlantis], called for that assignment, does take the load back
    to zero. *)
Theorem failed_assignment_keeps_the_load :
  (forall (self : SubAIAgent.t) (a : Assignment) (w : World),
      sub_ai_agents (db (world_of (SubAIAgent.processAssignment self a w)))
      = sub_ai_agents (db w))
  /\ (forall (self : SubAIAgent.t) (a : Assignment) (w : World),
        has_updated_at (db w) = true ->
        exists error w',
          SubAIAgent.processAssignment self a w
          = Returns (SubAIAgent.envelope_failure (message_of error)) w'
          /\ task_assignments (db w')
             = map (failed_at (clock w) a) (task_assignments (db w)))
  /\ loads (delegated seeded unreachable) = [1; 0; 0; 0; 0; 0; 0; 0; 0; 0; 0; 0]
  /\ observed (SubAIAgent.processAssignment codeArchitect assignment_1
                 (delegated seeded_with_updated_at unreachable))
     = (None, ["failed"], [1; 0; 0; 0; 0; 0; 0; 0; 0; 0; 0; 0])
  /\ observed (SubAIAgent.processAssignment codeArchitect assignment_1
                 (delegated seeded unreachable))
     = (Some (SqliteError "no such column: updated_at"), ["assigned"],
        [1; 0; 0; 0; 0; 0; 0; 0; 0; 0; 0; 0])
  /\ observed (SubAIAgent.reportToAtlantis codeArchitect assignment_1
                 (delegated seeded unreachable))
     = (None, ["completed"], [0; 0; 0; 0; 0; 0; 0; 0; 0; 0; 0; 0]).
Proof.
  split.
  { intros self a w. apply (processAssignment_keeps sub_ai_agents); [reflexivity|].
    intros d d' H. apply (but_bots_eq d d' H). }
  split.
  - intros self a w Hcol.
    destruct (processAssignment_fails self a w Hcol) as (error & w' & E & Hta & _).
    exists error, w'. split; assumption.
  - repeat split; vm_compute; reflexivity.
Qed.

(** C2 (the code does not do this).  [executeWorkBots] runs every bot and
    then throws, for every agent, bot list, assignment and store: the
    statement that counts the completed bots writes ["completed"] in double
    quotes and does not prepare.  The progress is never written, and
    [reportToAtlantis], which sets ['completed'] or ['partial'], is never
    reached from [processAssignment].  An assignment of four bots of which
    the third execution fails: [processAssignment] returns the failure
    envelope, the assignment is ['failed'] with progress 0, and all four bots
    are recorded ['completed'].  Were [reportToAtlantis] called after the
    loop, it would count four ['completed'] bots of four and set
    ['completed'], not ['partial']. *)
Theorem executeWorkBots_throws_before_the_progress :
  (forall (self : SubAIAgent.t) (workBots : list SubAIAgent.Bot)
          (a : Assignment) (w : World),
      exists w',
        SubAIAgent.executeWorkBots self workBots a w
        = Throws (no_such_column "completed") w'
        /\ task_assignments (db w') = task_assignments (db w))
  /\ reply (SubAIAgent.processAssignment codeArchitect assignment_1
              (delegated seeded_with_updated_at (execution_fails four_described 2)))
     = Some (SubAIAgent.envelope_failure (message_of (no_such_column "completed")))
  /\ progress_of (SubAIAgent.processAssignment codeArchitect assignment_1
                    (delegated seeded_with_updated_at
                       (execution_fails four_described 2)))
     = [("failed", SInt 0)]
  /\ recorded (SubAIAgent.processAssignment codeArchitect assignment_1
                 (delegated seeded_with_updated_at (execution_fails four_described 2)))
     = [ ("completed", Some (result_success "Done." 0));
         ("completed", Some (result_success "Done." 0));
         ("completed", Some (result_failure "529 overloaded"));
         ("completed", Some (result_success "Done." 0)) ]
  /\ progress_of
       ((run_bots codeArchitect assignment_1 ;;
         SubAIAgent.reportToAtlantis codeArchitect assignment_1)
          (delegated seeded (execution_fails four_described 2)))
     = [("completed", SInt 0)].
Proof.
  split.
  - intros self workBots a w.
    destruct (executeWorkBots_throws self workBots a w) as (w0 & _ & K & E).
    exists w0. split; [exact E|]. apply but_bots_eq in K. apply K.
  - repeat split; vm_compute; reflexivity.
Qed.

(** C10 (the code does not do this).  A bot whose execution fails (its
    reasoning call rejects) is recorded ['completed'] with the result
    [{success: false, error}], not ['failed']; its sibling runs.  A bot is
    recorded ['failed'] when the [try] block of the loop itself throws, as
    for a [null] description, and then with the result [{error}].  An
    assignment all of whose executions fail does not end ['partial']:
    [processAssignment] catches the error of [executeWorkBots] and leaves it
    ['failed']; and [reportToAtlantis], were it called after the loop, would
    find every bot ['completed'] and set ['completed'].  On the schema of
    [init-database.js] the [catch] block of [processAssignment] throws
    before it can mark the assignment ['failed']. *)
Theorem failed_execution_is_recorded_completed :
  (forall (self : SubAIAgent.t) (a : Assignment) (bot : SubAIAgent.Bot)
          (s message : string) (row : WorkBot) (w : World),
      SubAIAgent.description bot = JStr s ->
      In (ta_task_id a) (map t_id (tbl_tasks (db w))) ->
      In row (work_bots (db w)) ->
      wb_bot_id row = SubAIAgent.botId bot ->
      claude w (calls w) = Rejects message ->
      exists w',
        SubAIAgent.execute self a bot w = Returns tt w'
        /\ In (SubAIAgent.with_bot "completed" (Some (result_failure message))
                 (Some (clock w)) (Some (clock w)) row)
              (work_bots (db w')))
  /\ recorded (run_bots codeArchitect assignment_1
                 (delegated seeded (execution_fails two_tasks 0)))
     = [ ("completed", Some (result_failure "529 overloaded"));
         ("completed", Some (result_success "Done." 0)) ]
  /\ calls (world_of (run_bots codeArchitect assignment_1
                        (delegated seeded (execution_fails two_tasks 0))))
     = 5%nat
  /\ recorded (run_bots codeArchitect assignment_1
                 (delegated seeded (execution_fails four_tasks 9)))
     = [ ("completed", Some (result_success "Done." 0));
         ("completed", Some (result_success "Done." 0));
         ("failed",
          Some (result_error "Cannot read properties of null (reading 'substring')"));
         ("completed", Some (result_success "Done." 0)) ]
  /\ recorded (SubAIAgent.processAssignment codeArchitect assignment_1
                 (delegated seeded_with_updated_at (executions_fail two_tasks)))
     = [ ("completed", Some (result_failure "Connection error."));
         ("completed", Some (result_failure "Connection error.")) ]
  /\ observed (SubAIAgent.processAssignment codeArchitect assignment_1
                 (delegated seeded_with_updated_at (executions_fail two_tasks)))
     = (None, ["failed"], [1; 0; 0; 0; 0; 0; 0; 0; 0; 0; 0; 0])
  /\ observed ((run_bots codeArchitect assignment_1 ;;
                SubAIAgent.reportToAtlantis codeArchitect assignment_1)
                 (delegated seeded (executions_fail two_tasks)))
     = (None, ["completed"], [0; 0; 0; 0; 0; 0; 0; 0; 0; 0; 0; 0])
  /\ observed (SubAIAgent.processAssignment codeArchitect assignment_1
                 (delegated seeded (executions_fail two_tasks)))
     = (Some (SqliteError "no such column: updated_at"), ["assigned"],
        [1; 0; 0; 0; 0; 0; 0; 0; 0; 0; 0; 0]).
Proof.
  split.
  - intros self a bot s message row w Hd Hk Hin Hid Hreply.
    pose proof (execute_completes self a bot s w Hd Hk) as H.
    cbv zeta in H. rewrite Hreply in H. destruct H as (w' & E & Hw).
    exists w'. split; [exact E|]. rewrite Hw.
    apply (In_updated (fun r => (wb_bot_id r =? SubAIAgent.botId bot)%string)
             (SubAIAgent.with_bot "completed" (Some (result_failure message))
                (Some (clock w)) (Some (clock w)))); [exact Hin|].
    now apply String.eqb_eq.
  - repeat split; vm_compute; reflexivity.
Qed.
